(** * oatdump: the decode-and-account engine of art's [src/oatdump.cc]

    A shallow embedding of [OatDump] (the walk over the class and method
    tables of an oat file), of [ImageDump] (the heap callback, the [Stats]
    accumulator and its rendering) and of the [oatdump] entry point,
    followed by the properties of the walk and of the accounting.

    Conventions.
    - [size_t], [uint32_t] and pointers are values of [N]; every arithmetic
      step of the code is written with its wrap-around ([size_add],
      [size_sub], [uint32_add], [uint32_mul]).  [NULL] is the address 0.
    - The output stream is the text written so far; [std::flush] leaves it
      as it is and is not written out.
    - [CHECK] aborts the process ([Fatal]); [DCHECK] is [CHECK] in a debug
      build and nothing otherwise.
    - Text formatting of numbers ([StringPrintf], [operator<<]) and the
      floating-point percentages are parameters ([Printf]); so are the
      constants of headers that are not part of this file ([Target]) and the
      services of the runtime ([Env]). *)

From Stdlib Require Import NArith ZArith List String Ascii Bool Lia.
From Stdlib Require Import DecimalString HexadecimalString.
From Equations Require Import Equations.
From Equations.Prop Require Import Logic.
Import ListNotations.

Local Open Scope N_scope.
Local Open Scope string_scope.

(* ================================================================== *)
(** ** Text *)

Definition LF : string := String (ascii_of_nat 10) EmptyString.
Definition TAB : string := String (ascii_of_nat 9) EmptyString.

(** [std::string::empty]. *)
Definition empty (s : string) : bool :=
  match s with EmptyString => true | String _ _ => false end.

(** [s] occurs in [text]. *)
Definition contains (text s : string) : Prop :=
  exists before after, text = before ++ s ++ after.

(** The texts one after the other. *)
Definition concatenated (texts : list string) : string :=
  fold_right append "" texts.

(* ================================================================== *)
(** ** Parameters: the target, the formatter *)

Definition NULL : N := 0.

(** Constants and macros of headers outside [oatdump.cc]. *)
Record Target := {
  size_bits : positive;          (* width of size_t *)
  kObjectAlignment : N;          (* globals.h *)
  RoundUp : N -> N -> N;         (* utils.h *)
  sizeof_ImageHeader : N;        (* sizeof(ImageHeader), image.h *)
  kIsDebugBuild : bool;          (* whether DCHECK is compiled in, logging.h *)
  kImageRootsMax : N;            (* ImageHeader::kImageRootsMax, image.h *)
  kOatLocation : N               (* ImageHeader::kOatLocation, image.h *)
}.

(** The formats used by [StringPrintf], [StringAppendF] and [operator<<].
    The three last ones stand for a floating-point quotient and its
    rendering: [fmt_percent a b] is [(double(a) / double(b)) * 100] under
    the format "%2.0f". *)
Record Printf := {
  fmt_p : N -> string;                   (* %p *)
  fmt_d : Z -> string;                   (* %d *)
  fmt_zd : N -> string;                  (* %zd *)
  fmt_zd_w : nat -> N -> string;         (* %10zd, %8zd, %7zd, %6zd *)
  fmt_08x : N -> string;                 (* %08x *)
  fmt_s_w : nat -> string -> string;     (* %32s *)
  fmt_percent : N -> N -> string;        (* %2.0f of a / b * 100 *)
  fmt_average : N -> N -> string;        (* %3.0f of a / b *)
  fmt_expansion : N -> N -> string;      (* %.2f of a / b *)
  put_pointer : N -> string;             (* os << p, for a void* p *)
  put_unsigned : N -> string             (* os << n, for an unsigned n *)
}.

(* ================================================================== *)
(** ** Machine arithmetic *)

Definition size_max (T : Target) : N := 2 ^ Npos (size_bits T).

Definition size_add (T : Target) (a b : N) : N := (a + b) mod size_max T.

Definition size_sub (T : Target) (a b : N) : N :=
  (a mod size_max T + (size_max T - b mod size_max T)) mod size_max T.

Definition uint32_max : N := 2 ^ 32.
Definition uint32_add (a b : N) : N := (a + b) mod uint32_max.
Definition uint32_mul (a b : N) : N := (a * b) mod uint32_max.

(* ================================================================== *)
(** ** The process: output, diagnostics, calls to the runtime *)

(** Lookups the dump asks of its collaborators, in the order they are made. *)
Inductive Call :=
| DexFile_Open (location : string)
| FindOatFileFromOatLocation (location : string)
| OatFile_Open (filename : string)
| OS_OpenFile (filename : string).

Record World := {
  os : string;          (* the stream [os]: std::cout or the --output file *)
  stderr : string;
  calls : list Call
}.

Inductive Outcome (A : Type) : Type :=
| Done (a : A) (w : World)          (* the code ran to its end *)
| Fatal (msg : string) (w : World)  (* a CHECK failed: the process aborts *)
| Exit (status : N) (w : World).    (* exit(status) *)
Arguments Done {A} a w.
Arguments Fatal {A} msg w.
Arguments Exit {A} status w.

Definition M (A : Type) : Type := World -> Outcome A.

Definition ret {A} (a : A) : M A := fun w => Done a w.

Definition bind {A B} (m : M A) (k : A -> M B) : M B :=
  fun w =>
    match m w with
    | Done a w' => k a w'
    | Fatal msg w' => Fatal msg w'
    | Exit c w' => Exit c w'
    end.

Declare Scope dump_scope.
Delimit Scope dump_scope with dump.
Notation "x <- m ;; k" := (bind m (fun x => k))
  (at level 61, m at next level, right associativity) : dump_scope.
Notation "' p <- m ;; k" := (bind m (fun p => k))
  (at level 61, p pattern, m at next level, right associativity) : dump_scope.
Notation "m ;; k" := (bind m (fun _ => k))
  (at level 61, right associativity) : dump_scope.
Local Open Scope dump_scope.

(** [os << s]. *)
Definition os_write (s : string) : M unit :=
  fun w => Done tt {| os := os w ++ s; stderr := stderr w; calls := calls w |}.

(** [fprintf(stderr, s)]. *)
Definition stderr_write (s : string) : M unit :=
  fun w => Done tt {| os := os w; stderr := stderr w ++ s; calls := calls w |}.

Definition call (c : Call) : M unit :=
  fun w => Done tt {| os := os w; stderr := stderr w; calls := calls w ++ [c] |}.

(** [CHECK(cond)] and [DCHECK(cond)] of logging.h (not part of the sources):
    a failed [CHECK] logs the condition and aborts; [DCHECK] is [CHECK] where
    debug checks are compiled in and no code otherwise. *)
Definition CHECK (cond : bool) (what : string) : M unit :=
  fun w => if cond then Done tt w else Fatal ("Check failed: " ++ what) w.

Definition DCHECK (T : Target) (cond : bool) (what : string) : M unit :=
  if kIsDebugBuild T then CHECK cond what else ret tt.

Definition exit {A} (status : N) : M A := fun w => Exit status w.

Definition EXIT_SUCCESS : N := 0.
Definition EXIT_FAILURE : N := 1.

(** A [for] loop over the elements of [l], in order. *)
Fixpoint for_each {A} (l : list A) (body : A -> M unit) : M unit :=
  match l with
  | [] => ret tt
  | a :: rest => body a ;; for_each rest body
  end.

(* ================================================================== *)
(** ** [std::map<std::string, size_t>] *)

(** The entries in increasing key order, as the map's iterator yields them. *)
Definition std_map : Type := list (string * N).

(** [m[k] = f(m[k])]: [operator[]] inserts [k] with the value 0 when it is
    absent. *)
Fixpoint map_update (k : string) (f : N -> N) (m : std_map) : std_map :=
  match m with
  | [] => [(k, f 0)]
  | (k', v) :: rest =>
      match String.compare k k' with
      | Eq => (k', f v) :: rest
      | Lt => (k, f 0) :: (k', v) :: rest
      | Gt => (k', v) :: map_update k f rest
      end
  end.

Fixpoint map_find (k : string) (m : std_map) : option N :=
  match m with
  | [] => None
  | (k', v) :: rest => if String.eqb k k' then Some v else map_find k rest
  end.

(** The value [m[k]] reads: 0 when [k] is absent. *)
Definition map_get (k : string) (m : std_map) : N :=
  match map_find k m with Some v => v | None => 0 end.

Definition keys (m : std_map) : list string := map fst m.
Definition values (m : std_map) : list N := map snd m.

(* ================================================================== *)
(** ** The object model, as [oatdump.cc] reads it

    Each record holds what the accessors used by the dump return for one
    object of the runtime (object.h, dex_file.h, oat_file.h, image.h,
    space.h). *)

Module Method.
Record t := {
  PrettyMethod : string;
  IsCalleeSaveMethod : bool;
  IsNative : bool;
  IsRegistered : bool;
  IsAbstract : bool;
  GetCode : N;
  GetInvokeStub : N;
  GetNativeMethod : N;
  GetGcMap : N;
  GetGcMapLength : N;
  GetMappingTable : N;
  GetMappingTableLength : N;
  (* MethodHelper(method).GetCodeItem()->insns_size_in_code_units_ *)
  insns_size_in_code_units_ : N
}.
End Method.

Module Klass.
Record t := {
  this : N;                   (* the address of the Class object *)
  GetDescriptor : string;     (* ClassHelper(klass).GetDescriptor() *)
  GetStatus : string;         (* as operator<< prints the status *)
  IsStringClass : bool
}.
End Klass.

Module Object.
Record t := {
  this : N;                   (* the address of the object *)
  SizeOf : N;
  GetClass : Klass.t;
  IsClass : bool;
  AsClass : Klass.t;
  IsMethod : bool;
  AsMethod : Method.t;
  IsField : bool;
  PrettyField : string;       (* PrettyField(obj->AsField()) *)
  IsArrayInstance : bool;
  GetLength : Z;              (* obj->AsArray()->GetLength() *)
  ToModifiedUtf8 : string;    (* obj->AsString()->ToModifiedUtf8() *)
  IsObjectArray : bool;
  elements : list N           (* the references an ObjectArray holds *)
}.
End Object.

Module Space.
Record t := { Contains : Object.t -> bool }.
End Space.

Module ImageHeader.
Record t := {
  IsValid : bool;
  GetMagic : string;
  GetImageBegin : N;
  GetOatChecksum : N;
  GetOatBegin : N;
  GetOatEnd : N;
  GetImageRoots : N;
  GetImageRoot : N -> Object.t
}.
End ImageHeader.

Module OatMethod.
Record t := {
  GetCode : N;               GetCodeOffset : N;
  GetFrameSizeInBytes : N;
  GetCoreSpillMask : N;
  GetFpSpillMask : N;
  GetMappingTable : N;       GetMappingTableOffset : N;
  GetVmapTable : N;          GetVmapTableOffset : N;
  GetGcMap : N;              GetGcMapOffset : N;
  GetInvokeStub : N;         GetInvokeStubOffset : N
}.
End OatMethod.

Module OatClass.
Record t := {
  GetStatus : string;                 (* as operator<< prints it *)
  GetOatMethod : N -> OatMethod.t
}.
End OatClass.

Module ClassDef.
Record t := { class_idx_ : N }.
End ClassDef.

(** Modelled from the spec: the class data a [ClassDataItemIterator] reads
    (dex_file.h is not part of the sources).  The spec has static fields,
    then instance fields, then direct methods, then virtual methods behind
    one shared cursor; an entry is kept as its member index. *)
Module ClassData.
Record t := {
  static_fields : list N;
  instance_fields : list N;
  direct_methods : list N;
  virtual_methods : list N
}.
End ClassData.

Module DexFile.
Record t := {
  NumClassDefs : N;
  GetClassDef : N -> ClassDef.t;
  GetClassDescriptor : ClassDef.t -> string;
  (* NULL, here [None], for a class without member data *)
  GetClassData : ClassDef.t -> option ClassData.t;
  (* GetMethodName(GetMethodId(method_idx)), and the signature *)
  GetMethodName : N -> string;
  GetMethodSignature : N -> string
}.
End DexFile.

Module OatDexFile.
Record t := {
  GetDexFileLocation : string;
  GetDexFileLocationChecksum : N;
  GetOatClass : N -> option OatClass.t     (* [None] is NULL *)
}.
End OatDexFile.

Module OatHeader.
Record t := {
  GetMagic : string;
  GetChecksum : N;
  GetDexFileCount : N;
  GetExecutableOffset : N
}.
End OatHeader.

Module OatFile.
Record t := {
  GetOatHeader : OatHeader.t;
  Begin : N;
  End_ : N;
  GetOatDexFiles : list (option OatDexFile.t)   (* [None] is NULL *)
}.
End OatFile.

(** What the dump reads of the started runtime: [Runtime::Current()] and
    the static members of [Heap]. *)
Module Runtime.
Record t := {
  (* Heap::GetSpaces()[Heap::GetSpaces().size()-2]->AsImageSpace(), and its
     GetImageHeader(); [None] is NULL *)
  image_space : option (Space.t * ImageHeader.t);
  (* the objects Heap::GetLiveBits()->Walk passes to its callback, in the
     order it passes them *)
  live_objects : list Object.t;
  (* GetClassLinker()->FindOatFileFromOatLocation(location) *)
  find_oat_file : string -> option OatFile.t
}.
End Runtime.

(** The services of the file system and the start of the runtime. *)
Record Env := {
  (* DexFile::Open(location, "") *)
  open_dex_file : string -> option DexFile.t;
  (* OatFile::Open(filename, "", NULL) *)
  open_oat_file : string -> option OatFile.t;
  (* OS::OpenFile(filename, false)->Length() *)
  file_length : string -> N;
  (* std::ofstream(filename).good() *)
  ofstream_good : string -> bool;
  (* Runtime::Create(options, false); [None] is NULL *)
  create_runtime : list (string * option string) -> option Runtime.t
}.

(** [CHECK(p != NULL)] followed by a use of [*p]. *)
Definition CHECK_NOTNULL {A} (p : option A) (what : string) : M A :=
  match p with
  | Some a => ret a
  | None => fun w => Fatal ("Check failed: " ++ what) w
  end.

(** The indices [0 .. n-1] of a counting loop [for (i = 0; i < n; i++)]. *)
Definition indices (n : N) : list N := map N.of_nat (seq 0 (N.to_nat n)).

(** Modelled from the spec: [ClassDataItemIterator] (dex_file.h is not part
    of the sources): one cursor [pos_] over the four runs of entries of a
    class data item, in the order the spec gives them. *)
Module ClassDataItemIterator.
Import ClassData.

Record t := { data : ClassData.t; pos_ : nat }.

Definition make (class_data : ClassData.t) : t :=
  {| data := class_data; pos_ := 0 |}.

Definition EndOfStaticFieldsPos (it : t) : nat :=
  List.length (static_fields (data it)).
Definition EndOfInstanceFieldsPos (it : t) : nat :=
  EndOfStaticFieldsPos it + List.length (instance_fields (data it)).
Definition EndOfDirectMethodsPos (it : t) : nat :=
  EndOfInstanceFieldsPos it + List.length (direct_methods (data it)).
Definition EndOfVirtualMethodsPos (it : t) : nat :=
  EndOfDirectMethodsPos it + List.length (virtual_methods (data it)).

Definition HasNextStaticField (it : t) : bool :=
  Nat.ltb (pos_ it) (EndOfStaticFieldsPos it).
Definition HasNextInstanceField (it : t) : bool :=
  Nat.leb (EndOfStaticFieldsPos it) (pos_ it)
  && Nat.ltb (pos_ it) (EndOfInstanceFieldsPos it).
Definition HasNextDirectMethod (it : t) : bool :=
  Nat.leb (EndOfInstanceFieldsPos it) (pos_ it)
  && Nat.ltb (pos_ it) (EndOfDirectMethodsPos it).
Definition HasNextVirtualMethod (it : t) : bool :=
  Nat.leb (EndOfDirectMethodsPos it) (pos_ it)
  && Nat.ltb (pos_ it) (EndOfVirtualMethodsPos it).
Definition HasNext (it : t) : bool :=
  Nat.ltb (pos_ it) (EndOfVirtualMethodsPos it).

Definition Next (it : t) : t := {| data := data it; pos_ := S (pos_ it) |}.

Definition entries (class_data : ClassData.t) : list N :=
  (static_fields class_data ++ instance_fields class_data
   ++ direct_methods class_data ++ virtual_methods class_data)%list.

Definition GetMemberIndex (it : t) : N := nth (pos_ it) (entries (data it)) 0.

(** Entries the cursor has not passed yet. *)
Definition remaining (it : t) : nat := EndOfVirtualMethodsPos it - pos_ it.

Ltac unfold_iterator :=
  unfold remaining, HasNext, HasNextStaticField, HasNextInstanceField,
    HasNextDirectMethod, HasNextVirtualMethod, EndOfVirtualMethodsPos,
    EndOfDirectMethodsPos, EndOfInstanceFieldsPos, EndOfStaticFieldsPos,
    Next, make in *; simpl in *.

Lemma remaining_Next (it : t) :
  HasNext it = true -> (remaining (Next it) < remaining it)%nat.
Proof.
  destruct it as [cd pos]. unfold_iterator. intros H.
  apply Nat.ltb_lt in H. lia.
Qed.

Lemma HasNextStaticField_HasNext it :
  HasNextStaticField it = true -> HasNext it = true.
Proof.
  destruct it as [cd pos]. unfold_iterator. intros H.
  apply Nat.ltb_lt in H. apply Nat.ltb_lt. lia.
Qed.

Lemma HasNextInstanceField_HasNext it :
  HasNextInstanceField it = true -> HasNext it = true.
Proof.
  destruct it as [cd pos]. unfold_iterator. intros H.
  apply andb_prop in H. destruct H as [_ H].
  apply Nat.ltb_lt in H. apply Nat.ltb_lt. lia.
Qed.

Lemma HasNextDirectMethod_HasNext it :
  HasNextDirectMethod it = true -> HasNext it = true.
Proof.
  destruct it as [cd pos]. unfold_iterator. intros H.
  apply andb_prop in H. destruct H as [_ H].
  apply Nat.ltb_lt in H. apply Nat.ltb_lt. lia.
Qed.

Lemma HasNextVirtualMethod_HasNext it :
  HasNextVirtualMethod it = true -> HasNext it = true.
Proof.
  destruct it as [cd pos]. unfold_iterator. intros H.
  apply andb_prop in H. destruct H as [_ H].
  apply Nat.ltb_lt in H. apply Nat.ltb_lt. lia.
Qed.
End ClassDataItemIterator.

(* ================================================================== *)
(** ** [class OatDump] *)

Module OatDump.
Import ClassDataItemIterator.

Section OatDump.
Variable T : Target.
Variable P : Printf.
Variable E : Env.

Definition DumpOatMethod (method_index : N) (oat_file : OatFile.t)
    (oat_method : OatMethod.t) (dex_file : DexFile.t) (method_idx : N)
    : M unit :=
  let name := DexFile.GetMethodName dex_file method_idx in
  let signature := DexFile.GetMethodSignature dex_file method_idx in
  os_write (TAB ++ fmt_d P (Z.of_N method_index) ++ ": " ++ name ++ " "
            ++ signature ++ " (method_idx=" ++ fmt_d P (Z.of_N method_idx)
            ++ ")" ++ LF) ;;
  os_write (TAB ++ TAB ++ "code: " ++ fmt_p P (OatMethod.GetCode oat_method)
            ++ " (offset=" ++ fmt_08x P (OatMethod.GetCodeOffset oat_method)
            ++ ")" ++ LF) ;;
  os_write (TAB ++ TAB ++ "frame_size_in_bytes: "
            ++ fmt_zd P (OatMethod.GetFrameSizeInBytes oat_method) ++ LF) ;;
  os_write (TAB ++ TAB ++ "core_spill_mask: "
            ++ fmt_08x P (OatMethod.GetCoreSpillMask oat_method) ++ LF) ;;
  os_write (TAB ++ TAB ++ "fp_spill_mask: "
            ++ fmt_08x P (OatMethod.GetFpSpillMask oat_method) ++ LF) ;;
  os_write (TAB ++ TAB ++ "mapping_table: "
            ++ fmt_p P (OatMethod.GetMappingTable oat_method)
            ++ " (offset="
            ++ fmt_08x P (OatMethod.GetMappingTableOffset oat_method)
            ++ ")" ++ LF) ;;
  os_write (TAB ++ TAB ++ "vmap_table: "
            ++ fmt_p P (OatMethod.GetVmapTable oat_method)
            ++ " (offset="
            ++ fmt_08x P (OatMethod.GetVmapTableOffset oat_method)
            ++ ")" ++ LF) ;;
  os_write (TAB ++ TAB ++ "gc_map: "
            ++ fmt_p P (OatMethod.GetGcMap oat_method)
            ++ " (offset=" ++ fmt_08x P (OatMethod.GetGcMapOffset oat_method)
            ++ ")" ++ LF) ;;
  os_write (TAB ++ TAB ++ "invoke_stub: "
            ++ fmt_p P (OatMethod.GetInvokeStub oat_method)
            ++ " (offset="
            ++ fmt_08x P (OatMethod.GetInvokeStubOffset oat_method)
            ++ ")" ++ LF).

(** [while (it.HasNextStaticField()) it.Next();] *)
Equations? skip_static_fields (it : ClassDataItemIterator.t)
    : ClassDataItemIterator.t by wf (remaining it) lt :=
  skip_static_fields it with inspect (HasNextStaticField it) := {
    | exist _ true _ => skip_static_fields (Next it)
    | exist _ false _ => it }.
Proof. apply remaining_Next, HasNextStaticField_HasNext, e. Qed.

(** [while (it.HasNextInstanceField()) it.Next();] *)
Equations? skip_instance_fields (it : ClassDataItemIterator.t)
    : ClassDataItemIterator.t by wf (remaining it) lt :=
  skip_instance_fields it with inspect (HasNextInstanceField it) := {
    | exist _ true _ => skip_instance_fields (Next it)
    | exist _ false _ => it }.
Proof. apply remaining_Next, HasNextInstanceField_HasNext, e. Qed.

(** The loop over the direct methods: it returns the cursor and the
    ordinal it ends with. *)
Equations? dump_direct_methods (oat_file : OatFile.t)
    (oat_class : OatClass.t) (dex_file : DexFile.t)
    (it : ClassDataItemIterator.t) (method_index : N)
    : M (ClassDataItemIterator.t * N) by wf (remaining it) lt :=
  dump_direct_methods oat_file oat_class dex_file it method_index
    with inspect (HasNextDirectMethod it) := {
    | exist _ true _ =>
        let oat_method := OatClass.GetOatMethod oat_class method_index in
        DumpOatMethod method_index oat_file oat_method dex_file
                      (GetMemberIndex it) ;;
        dump_direct_methods oat_file oat_class dex_file
                            (Next it) (uint32_add method_index 1)
    | exist _ false _ => ret (it, method_index) }.
Proof. apply remaining_Next, HasNextDirectMethod_HasNext, e. Qed.

(** The loop over the virtual methods. *)
Equations? dump_virtual_methods (oat_file : OatFile.t)
    (oat_class : OatClass.t) (dex_file : DexFile.t)
    (it : ClassDataItemIterator.t) (method_index : N)
    : M (ClassDataItemIterator.t * N) by wf (remaining it) lt :=
  dump_virtual_methods oat_file oat_class dex_file it method_index
    with inspect (HasNextVirtualMethod it) := {
    | exist _ true _ =>
        let oat_method := OatClass.GetOatMethod oat_class method_index in
        DumpOatMethod method_index oat_file oat_method dex_file
                      (GetMemberIndex it) ;;
        dump_virtual_methods oat_file oat_class dex_file
                             (Next it) (uint32_add method_index 1)
    | exist _ false _ => ret (it, method_index) }.
Proof. apply remaining_Next, HasNextVirtualMethod_HasNext, e. Qed.

(** The statements of [DumpOatClass] from the construction of the
    iterator to the end of the loop over the virtual methods; the value
    is the iterator and [method_index] as the loops leave them. *)
Definition DumpOatClass_walk (oat_file : OatFile.t) (oat_class : OatClass.t)
    (dex_file : DexFile.t) (class_data : ClassData.t)
    : M (ClassDataItemIterator.t * N) :=
  let it := ClassDataItemIterator.make class_data in
  (* just skipping through the fields to advance class_data *)
  let it := skip_static_fields it in
  let it := skip_instance_fields it in
  let method_index := 0 in
  '(it, method_index) <-
     dump_direct_methods oat_file oat_class dex_file it method_index ;;
  dump_virtual_methods oat_file oat_class dex_file it method_index.

Definition DumpOatClass (oat_file : OatFile.t) (oat_class : OatClass.t)
    (dex_file : DexFile.t) (class_def : ClassDef.t) : M unit :=
  match DexFile.GetClassData dex_file class_def with
  | None => ret tt            (* empty class such as a marker interface? *)
  | Some class_data =>
      '(it, method_index) <-
         DumpOatClass_walk oat_file oat_class dex_file class_data ;;
      DCHECK T (negb (HasNext it)) "!it.HasNext()"
  end.

(** The body of the loop of [DumpOatDexFile] over the class definitions. *)
Definition DumpOatDexFile_class (oat_file : OatFile.t)
    (oat_dex_file : OatDexFile.t) (dex_file : DexFile.t)
    (class_def_index : N) : M unit :=
  let class_def := DexFile.GetClassDef dex_file class_def_index in
  let descriptor := DexFile.GetClassDescriptor dex_file class_def in
  oat_class <-
    CHECK_NOTNULL (OatDexFile.GetOatClass oat_dex_file class_def_index)
                  "oat_class.get() != NULL" ;;
  os_write (fmt_zd P class_def_index ++ ": " ++ descriptor
            ++ " (type_idx="
            ++ fmt_d P (Z.of_N (ClassDef.class_idx_ class_def))
            ++ ") (") ;;
  os_write (OatClass.GetStatus oat_class) ;;
  os_write (")" ++ LF) ;;
  DumpOatClass oat_file oat_class dex_file class_def.

Definition DumpOatDexFile (host_prefix : string) (oat_file : OatFile.t)
    (oat_dex_file : OatDexFile.t) : M unit :=
  os_write ("OAT DEX FILE:" ++ LF) ;;
  let dex_file_location := OatDexFile.GetDexFileLocation oat_dex_file in
  os_write ("location: " ++ dex_file_location) ;;
  dex_file_location <-
    (if negb (empty host_prefix) then
       let dex_file_location := host_prefix ++ dex_file_location in
       os_write (" (" ++ dex_file_location ++ ")") ;;
       ret dex_file_location
     else ret dex_file_location) ;;
  os_write LF ;;
  os_write ("checksum: "
            ++ fmt_08x P (OatDexFile.GetDexFileLocationChecksum oat_dex_file)
            ++ LF) ;;
  call (DexFile_Open dex_file_location) ;;
  match open_dex_file E dex_file_location with
  | None => os_write ("NOT FOUND" ++ LF ++ LF)
  | Some dex_file =>
      for_each (indices (DexFile.NumClassDefs dex_file))
               (DumpOatDexFile_class oat_file oat_dex_file dex_file)
  end.

Definition Dump (oat_filename host_prefix : string) (oat_file : OatFile.t)
    : M unit :=
  let oat_header := OatFile.GetOatHeader oat_file in
  os_write ("MAGIC:" ++ LF) ;;
  os_write (OatHeader.GetMagic oat_header) ;; os_write (LF ++ LF) ;;
  os_write ("CHECKSUM:" ++ LF) ;;
  os_write (fmt_08x P (OatHeader.GetChecksum oat_header) ++ LF ++ LF) ;;
  os_write ("DEX FILE COUNT:" ++ LF) ;;
  os_write (put_unsigned P (OatHeader.GetDexFileCount oat_header)) ;;
  os_write (LF ++ LF) ;;
  os_write ("EXECUTABLE OFFSET:" ++ LF) ;;
  os_write (fmt_08x P (OatHeader.GetExecutableOffset oat_header)
            ++ LF ++ LF) ;;
  os_write ("BEGIN:" ++ LF) ;;
  os_write (put_pointer P (OatFile.Begin oat_file)) ;;
  os_write (LF ++ LF) ;;
  os_write ("END:" ++ LF) ;;
  os_write (put_pointer P (OatFile.End_ oat_file)) ;;
  os_write (LF ++ LF) ;;
  for_each (OatFile.GetOatDexFiles oat_file)
    (fun oat_dex_file =>
       oat_dex_file <- CHECK_NOTNULL oat_dex_file "oat_dex_file != NULL" ;;
       DumpOatDexFile host_prefix oat_file oat_dex_file).
End OatDump.
End OatDump.

(* ================================================================== *)
(** ** [class ImageDump] *)

Module Stats.
Record t := {
  file_bytes : N;
  header_bytes : N;
  object_bytes : N;
  alignment_bytes : N;
  managed_code_bytes : N;
  managed_to_native_code_bytes : N;
  native_to_managed_code_bytes : N;
  register_map_bytes : N;
  pc_mapping_table_bytes : N;
  dex_instruction_bytes : N;
  descriptor_to_bytes : std_map;
  descriptor_to_count : std_map
}.

(** [Stats()]. *)
Definition init : t :=
  {| file_bytes := 0; header_bytes := 0; object_bytes := 0;
     alignment_bytes := 0; managed_code_bytes := 0;
     managed_to_native_code_bytes := 0; native_to_managed_code_bytes := 0;
     register_map_bytes := 0; pc_mapping_table_bytes := 0;
     dex_instruction_bytes := 0;
     descriptor_to_bytes := []; descriptor_to_count := [] |}.

(** Assignments to one field. *)
Definition set_file_bytes (v : N) (s : t) : t :=
  {| file_bytes := v; header_bytes := header_bytes s;
     object_bytes := object_bytes s; alignment_bytes := alignment_bytes s;
     managed_code_bytes := managed_code_bytes s;
     managed_to_native_code_bytes := managed_to_native_code_bytes s;
     native_to_managed_code_bytes := native_to_managed_code_bytes s;
     register_map_bytes := register_map_bytes s;
     pc_mapping_table_bytes := pc_mapping_table_bytes s;
     dex_instruction_bytes := dex_instruction_bytes s;
     descriptor_to_bytes := descriptor_to_bytes s;
     descriptor_to_count := descriptor_to_count s |}.

Definition set_header_bytes (v : N) (s : t) : t :=
  {| file_bytes := file_bytes s; header_bytes := v;
     object_bytes := object_bytes s; alignment_bytes := alignment_bytes s;
     managed_code_bytes := managed_code_bytes s;
     managed_to_native_code_bytes := managed_to_native_code_bytes s;
     native_to_managed_code_bytes := native_to_managed_code_bytes s;
     register_map_bytes := register_map_bytes s;
     pc_mapping_table_bytes := pc_mapping_table_bytes s;
     dex_instruction_bytes := dex_instruction_bytes s;
     descriptor_to_bytes := descriptor_to_bytes s;
     descriptor_to_count := descriptor_to_count s |}.

Definition set_object_bytes (v : N) (s : t) : t :=
  {| file_bytes := file_bytes s; header_bytes := header_bytes s;
     object_bytes := v; alignment_bytes := alignment_bytes s;
     managed_code_bytes := managed_code_bytes s;
     managed_to_native_code_bytes := managed_to_native_code_bytes s;
     native_to_managed_code_bytes := native_to_managed_code_bytes s;
     register_map_bytes := register_map_bytes s;
     pc_mapping_table_bytes := pc_mapping_table_bytes s;
     dex_instruction_bytes := dex_instruction_bytes s;
     descriptor_to_bytes := descriptor_to_bytes s;
     descriptor_to_count := descriptor_to_count s |}.

Definition set_alignment_bytes (v : N) (s : t) : t :=
  {| file_bytes := file_bytes s; header_bytes := header_bytes s;
     object_bytes := object_bytes s; alignment_bytes := v;
     managed_code_bytes := managed_code_bytes s;
     managed_to_native_code_bytes := managed_to_native_code_bytes s;
     native_to_managed_code_bytes := native_to_managed_code_bytes s;
     register_map_bytes := register_map_bytes s;
     pc_mapping_table_bytes := pc_mapping_table_bytes s;
     dex_instruction_bytes := dex_instruction_bytes s;
     descriptor_to_bytes := descriptor_to_bytes s;
     descriptor_to_count := descriptor_to_count s |}.

Definition set_register_map_bytes (v : N) (s : t) : t :=
  {| file_bytes := file_bytes s; header_bytes := header_bytes s;
     object_bytes := object_bytes s; alignment_bytes := alignment_bytes s;
     managed_code_bytes := managed_code_bytes s;
     managed_to_native_code_bytes := managed_to_native_code_bytes s;
     native_to_managed_code_bytes := native_to_managed_code_bytes s;
     register_map_bytes := v;
     pc_mapping_table_bytes := pc_mapping_table_bytes s;
     dex_instruction_bytes := dex_instruction_bytes s;
     descriptor_to_bytes := descriptor_to_bytes s;
     descriptor_to_count := descriptor_to_count s |}.

Definition set_pc_mapping_table_bytes (v : N) (s : t) : t :=
  {| file_bytes := file_bytes s; header_bytes := header_bytes s;
     object_bytes := object_bytes s; alignment_bytes := alignment_bytes s;
     managed_code_bytes := managed_code_bytes s;
     managed_to_native_code_bytes := managed_to_native_code_bytes s;
     native_to_managed_code_bytes := native_to_managed_code_bytes s;
     register_map_bytes := register_map_bytes s;
     pc_mapping_table_bytes := v;
     dex_instruction_bytes := dex_instruction_bytes s;
     descriptor_to_bytes := descriptor_to_bytes s;
     descriptor_to_count := descriptor_to_count s |}.

Definition set_dex_instruction_bytes (v : N) (s : t) : t :=
  {| file_bytes := file_bytes s; header_bytes := header_bytes s;
     object_bytes := object_bytes s; alignment_bytes := alignment_bytes s;
     managed_code_bytes := managed_code_bytes s;
     managed_to_native_code_bytes := managed_to_native_code_bytes s;
     native_to_managed_code_bytes := native_to_managed_code_bytes s;
     register_map_bytes := register_map_bytes s;
     pc_mapping_table_bytes := pc_mapping_table_bytes s;
     dex_instruction_bytes := v;
     descriptor_to_bytes := descriptor_to_bytes s;
     descriptor_to_count := descriptor_to_count s |}.

Definition set_descriptor_to_bytes (m : std_map) (s : t) : t :=
  {| file_bytes := file_bytes s; header_bytes := header_bytes s;
     object_bytes := object_bytes s; alignment_bytes := alignment_bytes s;
     managed_code_bytes := managed_code_bytes s;
     managed_to_native_code_bytes := managed_to_native_code_bytes s;
     native_to_managed_code_bytes := native_to_managed_code_bytes s;
     register_map_bytes := register_map_bytes s;
     pc_mapping_table_bytes := pc_mapping_table_bytes s;
     dex_instruction_bytes := dex_instruction_bytes s;
     descriptor_to_bytes := m;
     descriptor_to_count := descriptor_to_count s |}.

Definition set_descriptor_to_count (m : std_map) (s : t) : t :=
  {| file_bytes := file_bytes s; header_bytes := header_bytes s;
     object_bytes := object_bytes s; alignment_bytes := alignment_bytes s;
     managed_code_bytes := managed_code_bytes s;
     managed_to_native_code_bytes := managed_to_native_code_bytes s;
     native_to_managed_code_bytes := native_to_managed_code_bytes s;
     register_map_bytes := register_map_bytes s;
     pc_mapping_table_bytes := pc_mapping_table_bytes s;
     dex_instruction_bytes := dex_instruction_bytes s;
     descriptor_to_bytes := descriptor_to_bytes s;
     descriptor_to_count := m |}.

Section Dump.
Variable T : Target.
Variable P : Printf.

(** [PercentOfFileBytes(size)] and [PercentOfObjectBytes(size)], as the
    format "%2.0f" renders them. *)
Definition PercentOfFileBytes (s : t) (size : N) : string :=
  fmt_percent P size (file_bytes s).
Definition PercentOfObjectBytes (s : t) (size : N) : string :=
  fmt_percent P size (object_bytes s).

(** The loop of [Dump] over [descriptor_to_bytes]; it returns
    [object_bytes_total].  ([descriptor_to_count[descriptor]] would insert
    an absent descriptor; the map is not read again afterwards.) *)
Fixpoint Dump_descriptors (s : t) (entries : std_map)
    (object_bytes_total : N) : M N :=
  match entries with
  | [] => ret object_bytes_total
  | (descriptor, bytes) :: rest =>
      let count := map_get descriptor (descriptor_to_count s) in
      os_write (TAB ++ fmt_s_w P 32 descriptor ++ " "
                ++ fmt_zd_w P 8 bytes ++ " bytes "
                ++ fmt_zd_w P 6 count ++ " instances ("
                ++ fmt_average P bytes count ++ " bytes/instance) "
                ++ PercentOfObjectBytes s bytes ++ "% of object_bytes"
                ++ LF) ;;
      Dump_descriptors s rest (size_add T object_bytes_total bytes)
  end.

Definition Dump (s : t) : M unit :=
  os_write (TAB ++ "file_bytes = " ++ fmt_zd P (file_bytes s) ++ LF) ;;
  os_write LF ;;
  os_write (TAB ++ "file_bytes = header_bytes + object_bytes + alignment_bytes"
            ++ LF) ;;
  os_write (TAB ++ "header_bytes    = " ++ fmt_zd_w P 10 (header_bytes s)
            ++ " (" ++ PercentOfFileBytes s (header_bytes s)
            ++ "% of file_bytes)" ++ LF) ;;
  os_write (TAB ++ "object_bytes    = " ++ fmt_zd_w P 10 (object_bytes s)
            ++ " (" ++ PercentOfFileBytes s (object_bytes s)
            ++ "% of file_bytes)" ++ LF) ;;
  os_write (TAB ++ "alignment_bytes = " ++ fmt_zd_w P 10 (alignment_bytes s)
            ++ " (" ++ PercentOfFileBytes s (alignment_bytes s)
            ++ "% of file_bytes)" ++ LF) ;;
  os_write LF ;;
  CHECK (N.eqb (file_bytes s)
               (size_add T (size_add T (header_bytes s) (object_bytes s))
                           (alignment_bytes s)))
        "file_bytes == header_bytes + object_bytes + alignment_bytes" ;;
  os_write (TAB ++ "object_bytes = sum of descriptor_to_bytes values below:"
            ++ LF) ;;
  object_bytes_total <- Dump_descriptors s (descriptor_to_bytes s) 0 ;;
  os_write LF ;;
  CHECK (N.eqb (object_bytes s) object_bytes_total)
        "object_bytes == object_bytes_total" ;;
  os_write (TAB ++ "managed_code_bytes           = "
            ++ fmt_zd_w P 8 (managed_code_bytes s) ++ " ("
            ++ PercentOfObjectBytes s (managed_code_bytes s)
            ++ "% of object_bytes)" ++ LF) ;;
  os_write (TAB ++ "managed_to_native_code_bytes = "
            ++ fmt_zd_w P 8 (managed_to_native_code_bytes s) ++ " ("
            ++ PercentOfObjectBytes s (managed_to_native_code_bytes s)
            ++ "% of object_bytes)" ++ LF) ;;
  os_write (TAB ++ "native_to_managed_code_bytes = "
            ++ fmt_zd_w P 8 (native_to_managed_code_bytes s) ++ " ("
            ++ PercentOfObjectBytes s (native_to_managed_code_bytes s)
            ++ "% of object_bytes)" ++ LF) ;;
  os_write LF ;;
  os_write (TAB ++ "register_map_bytes     = "
            ++ fmt_zd_w P 7 (register_map_bytes s) ++ " ("
            ++ PercentOfObjectBytes s (register_map_bytes s)
            ++ "% of object_bytes)" ++ LF) ;;
  os_write (TAB ++ "pc_mapping_table_bytes = "
            ++ fmt_zd_w P 7 (pc_mapping_table_bytes s) ++ " ("
            ++ PercentOfObjectBytes s (pc_mapping_table_bytes s)
            ++ "% of object_bytes)" ++ LF) ;;
  os_write LF ;;
  os_write (TAB ++ "dex_instruction_bytes = "
            ++ fmt_zd P (dex_instruction_bytes s) ++ LF) ;;
  os_write (TAB ++ "managed_code_bytes expansion = "
            ++ fmt_expansion P (managed_code_bytes s)
                               (dex_instruction_bytes s) ++ LF) ;;
  os_write LF.
End Dump.
End Stats.

Definition image_roots_descriptions_ : list string :=
  [ "kJniStubArray";
    "kAbstractMethodErrorStubArray";
    "kInstanceResolutionStubArray";
    "kStaticResolutionStubArray";
    "kUnknownMethodResolutionStubArray";
    "kCalleeSaveMethod";
    "kRefsOnlySaveMethod";
    "kRefsAndArgsSaveMethod";
    "kOatLocation";
    "kDexCaches";
    "kClassRoots" ].

(** The elements of an array with their indices. *)
Definition indexed {A} (l : list A) : list (N * A) :=
  combine (indices (N.of_nat (List.length l))) l.

Module ImageDump.
(** The members [dump_space_] and [stats_]; the member [os_] refers to the
    stream [os] of the process. *)
Record t := { dump_space_ : Space.t; stats_ : Stats.t }.

(** [ImageDump(dump_space, os)]. *)
Definition make (dump_space : Space.t) : t :=
  {| dump_space_ := dump_space; stats_ := Stats.init |}.

Definition set_stats (stats : Stats.t) (state : t) : t :=
  {| dump_space_ := dump_space_ state; stats_ := stats |}.

Definition InDumpSpace (state : t) (object : Object.t) : bool :=
  Space.Contains (dump_space_ state) object.

Section ImageDump.
Variable T : Target.
Variable P : Printf.
Variable E : Env.

(** What the chain [if (obj->IsClass()) ... else ...] of [Callback]
    appends to [summary]. *)
Definition Callback_category (obj : Object.t) : string :=
  if Object.IsClass obj then
    let klass := Object.AsClass obj in
    "CLASS " ++ Klass.GetDescriptor klass
    ++ (" (" ++ Klass.GetStatus klass ++ ")")
  else if Object.IsMethod obj then
    let method := Object.AsMethod obj in
    "METHOD " ++ Method.PrettyMethod method
  else if Object.IsField obj then
    "FIELD " ++ Object.PrettyField obj
  else if Object.IsArrayInstance obj then
    "ARRAY " ++ fmt_d P (Object.GetLength obj)
  else if Klass.IsStringClass (Object.GetClass obj) then
    "STRING " ++ Object.ToModifiedUtf8 obj
  else
    "OBJECT".

(** The block [if (obj->IsMethod()) { ... }] of [Callback], on the
    summary and the statistics it updates. *)
Definition Callback_method (method : Method.t) (summary : string)
    (stats : Stats.t) : M (string * Stats.t) :=
  let summary :=
    if negb (Method.IsCalleeSaveMethod method) then
      let code := Method.GetCode method in
      let summary := summary ++ TAB ++ "CODE     " ++ fmt_p P code ++ LF in
      let invoke_stub := Method.GetInvokeStub method in
      summary ++ TAB ++ "JNI STUB " ++ fmt_p P invoke_stub ++ LF
    else summary in
  if Method.IsNative method then
    let summary :=
      if Method.IsRegistered method then
        summary ++ TAB ++ "NATIVE REGISTERED "
        ++ fmt_p P (Method.GetNativeMethod method) ++ LF
      else
        summary ++ TAB ++ "NATIVE UNREGISTERED" ++ LF in
    DCHECK T (N.eqb (Method.GetGcMap method) NULL)
           "method->GetGcMap() == NULL" ;;
    DCHECK T (N.eqb 0 (Method.GetGcMapLength method))
           "0U == method->GetGcMapLength()" ;;
    DCHECK T (N.eqb (Method.GetMappingTable method) NULL)
           "method->GetMappingTable() == NULL" ;;
    ret (summary, stats)
  else if Method.IsAbstract method then
    let summary := summary ++ TAB ++ "ABSTRACT" ++ LF in
    DCHECK T (N.eqb (Method.GetGcMap method) NULL)
           "method->GetGcMap() == NULL" ;;
    DCHECK T (N.eqb 0 (Method.GetGcMapLength method))
           "0U == method->GetGcMapLength()" ;;
    DCHECK T (N.eqb (Method.GetMappingTable method) NULL)
           "method->GetMappingTable() == NULL" ;;
    ret (summary, stats)
  else if Method.IsCalleeSaveMethod method then
    let summary := summary ++ TAB ++ "CALLEE SAVE METHOD" ++ LF in
    DCHECK T (N.eqb (Method.GetGcMap method) NULL)
           "method->GetGcMap() == NULL" ;;
    DCHECK T (N.eqb 0 (Method.GetGcMapLength method))
           "0U == method->GetGcMapLength()" ;;
    DCHECK T (N.eqb (Method.GetMappingTable method) NULL)
           "method->GetMappingTable() == NULL" ;;
    ret (summary, stats)
  else
    DCHECK T (negb (N.eqb (Method.GetGcMap method) NULL))
           "method->GetGcMap() != NULL" ;;
    DCHECK T (negb (N.eqb 0 (Method.GetGcMapLength method)))
           "0U != method->GetGcMapLength()" ;;
    let register_map_bytes := Method.GetGcMapLength method in
    let stats :=
      Stats.set_register_map_bytes
        (size_add T (Stats.register_map_bytes stats) register_map_bytes)
        stats in
    let summary := summary ++ "GC=" ++ fmt_zd P register_map_bytes ++ " " in
    let pc_mapping_table_bytes := Method.GetMappingTableLength method in
    let stats :=
      Stats.set_pc_mapping_table_bytes
        (size_add T (Stats.pc_mapping_table_bytes stats)
                  pc_mapping_table_bytes)
        stats in
    let summary :=
      summary ++ "Mapping=" ++ fmt_zd P pc_mapping_table_bytes ++ " " in
    let dex_instruction_bytes :=
      uint32_mul (Method.insns_size_in_code_units_ method) 2 in
    let stats :=
      Stats.set_dex_instruction_bytes
        (size_add T (Stats.dex_instruction_bytes stats)
                  dex_instruction_bytes)
        stats in
    let summary :=
      summary ++ TAB ++ "SIZE Code=" ++ fmt_zd P dex_instruction_bytes
      ++ " GC=" ++ fmt_zd P register_map_bytes
      ++ " Mapping=" ++ fmt_zd P pc_mapping_table_bytes in
    ret (summary, stats).

(** [Callback(obj, arg)], with [arg] the [ImageDump] it points to.  The
    walk passes objects and its own argument: [obj] and [arg] are not
    NULL. *)
Definition Callback (obj : Object.t) (state : t) : M t :=
  if negb (InDumpSpace state obj) then ret state
  else
    let object_bytes := Object.SizeOf obj in
    let alignment_bytes :=
      size_sub T (RoundUp T object_bytes (kObjectAlignment T))
               object_bytes in
    let stats := stats_ state in
    let stats :=
      Stats.set_object_bytes
        (size_add T (Stats.object_bytes stats) object_bytes) stats in
    let stats :=
      Stats.set_alignment_bytes
        (size_add T (Stats.alignment_bytes stats) alignment_bytes) stats in
    let summary := fmt_p P (Object.this obj) ++ ": " in
    let summary := summary ++ Callback_category obj in
    let summary := summary ++ LF in
    let descriptor := Klass.GetDescriptor (Object.GetClass obj) in
    let summary :=
      summary ++ TAB ++ "class "
      ++ fmt_p P (Klass.this (Object.GetClass obj)) ++ ": "
      ++ descriptor ++ LF in
    let stats :=
      Stats.set_descriptor_to_bytes
        (map_update descriptor (fun v => size_add T v object_bytes)
                    (Stats.descriptor_to_bytes stats)) stats in
    let stats :=
      Stats.set_descriptor_to_count
        (map_update descriptor (fun v => size_add T v 1)
                    (Stats.descriptor_to_count stats)) stats in
    '(summary, stats) <-
       (if Object.IsMethod obj then
          Callback_method (Object.AsMethod obj) summary stats
        else ret (summary, stats)) ;;
    os_write summary ;;
    ret (set_stats stats state).

(** Modelled from the spec: [heap_bitmap->Walk(ImageDump::Callback, &state)]
    (heap_bitmap.h is not part of the sources) calls the callback
    synchronously, once for each live object, one after the other; a failed
    check in a callback ends the process and with it the walk. *)
Fixpoint Walk (objects : list Object.t) (state : t) : M t :=
  match objects with
  | [] => ret state
  | obj :: rest => state <- Callback obj state ;; Walk rest state
  end.

(** The statements of [Dump] between "STATS:" and the call of
    [Stats::Dump]: the three assignments to [state.stats_]. *)
Definition finalize (image_filename : string) (stats : Stats.t) : Stats.t :=
  (* the length of the file, converted to [size_t] *)
  let stats :=
    Stats.set_file_bytes (file_length E image_filename mod size_max T)
                         stats in
  let header_bytes := sizeof_ImageHeader T in
  let stats := Stats.set_header_bytes header_bytes stats in
  let alignment_bytes :=
    size_sub T (RoundUp T header_bytes (kObjectAlignment T)) header_bytes in
  Stats.set_alignment_bytes
    (size_add T (Stats.alignment_bytes stats) alignment_bytes) stats.

(** [Dump] up to the end of the "STATS:" block: the header, the roots,
    the walk over the heap and the statistics. *)
Definition Dump_heap (image_filename : string) (runtime : Runtime.t)
    (image_space : Space.t) (image_header : ImageHeader.t) : M unit :=
  os_write ("MAGIC:" ++ LF) ;;
  os_write (ImageHeader.GetMagic image_header) ;; os_write (LF ++ LF) ;;
  os_write ("IMAGE BEGIN:" ++ LF) ;;
  os_write (put_pointer P (ImageHeader.GetImageBegin image_header)) ;;
  os_write (LF ++ LF) ;;
  os_write ("OAT CHECKSUM:" ++ LF) ;;
  os_write (fmt_08x P (ImageHeader.GetOatChecksum image_header)
            ++ LF ++ LF) ;;
  os_write ("OAT BEGIN:" ++ LF) ;;
  os_write (put_pointer P (ImageHeader.GetOatBegin image_header)) ;;
  os_write (LF ++ LF) ;;
  os_write ("OAT END:" ++ LF) ;;
  os_write (put_pointer P (ImageHeader.GetOatEnd image_header)) ;;
  os_write (LF ++ LF) ;;
  os_write ("ROOTS:" ++ LF) ;;
  os_write (put_pointer P (ImageHeader.GetImageRoots image_header)) ;;
  os_write LF ;;
  CHECK (N.eqb (N.of_nat (List.length image_roots_descriptions_))
               (kImageRootsMax T))
        "arraysize(image_roots_descriptions_) == size_t(ImageHeader::kImageRootsMax)" ;;
  for_each (indices (kImageRootsMax T))
    (fun i =>
       let image_root_description :=
         nth (N.to_nat i) image_roots_descriptions_ "" in
       let image_root_object := ImageHeader.GetImageRoot image_header i in
       os_write (image_root_description ++ ": "
                 ++ fmt_p P (Object.this image_root_object) ++ LF) ;;
       if Object.IsObjectArray image_root_object then
         for_each (indexed (Object.elements image_root_object))
           (fun '(i, element) =>
              os_write (TAB ++ fmt_d P (Z.of_N i) ++ ": "
                        ++ fmt_p P element ++ LF))
       else ret tt) ;;
  os_write LF ;;
  os_write ("OBJECTS:" ++ LF) ;;
  let state := make image_space in
  (* heap_bitmap is the live bitmap of the started runtime, not NULL *)
  state <- Walk (Runtime.live_objects runtime) state ;;
  os_write LF ;;
  os_write ("STATS:" ++ LF) ;;
  call (OS_OpenFile image_filename) ;;
  let stats := finalize image_filename (stats_ state) in
  Stats.Dump T P stats ;;
  os_write LF.

(** [Dump] from "OAT LOCATION:" on: the lookup of the oat file the image
    names, and its dump. *)
Definition Dump_oat_location (host_prefix : string) (runtime : Runtime.t)
    (image_header : ImageHeader.t) : M unit :=
  os_write ("OAT LOCATION:" ++ LF) ;;
  let oat_location_object :=
    ImageHeader.GetImageRoot image_header (kOatLocation T) in
  let oat_location := Object.ToModifiedUtf8 oat_location_object in
  os_write oat_location ;;
  oat_location <-
    (if negb (empty host_prefix) then
       let oat_location := host_prefix ++ oat_location in
       os_write (" (" ++ oat_location ++ ")") ;;
       ret oat_location
     else ret oat_location) ;;
  os_write LF ;;
  call (FindOatFileFromOatLocation oat_location) ;;
  match Runtime.find_oat_file runtime oat_location with
  | None => os_write ("NOT FOUND" ++ LF)
  | Some oat_file =>
      os_write LF ;;
      OatDump.Dump T P E oat_location host_prefix oat_file
  end.

Definition Dump (image_filename host_prefix : string) (runtime : Runtime.t)
    (image_space : Space.t) (image_header : ImageHeader.t) : M unit :=
  Dump_heap image_filename runtime image_space image_header ;;
  Dump_oat_location host_prefix runtime image_header.
End ImageDump.
End ImageDump.

(* ================================================================== *)
(** ** [oatdump(argc, argv)] *)

Definition usage_text : string :=
  "Usage: oatdump [options] ..." ++ LF
  ++ "    Example: oatdump --image=$ANDROID_PRODUCT_OUT/system/framework/boot.art --host-prefix=$ANDROID_PRODUCT_OUT" ++ LF
  ++ "    Example: adb shell oatdump --image=/system/framework/boot.art" ++ LF
  ++ LF
  ++ "  --oat-file=<file.oat>: specifies an input oat filename." ++ LF
  ++ "      Example: --image=/system/framework/boot.oat" ++ LF
  ++ LF
  ++ "  --image=<file.art>: specifies an input image filename." ++ LF
  ++ "      Example: --image=/system/framework/boot.art" ++ LF
  ++ LF
  ++ "  --boot-image=<file.art>: provide the image file for the boot class path." ++ LF
  ++ "      Example: --boot-image=/system/framework/boot.art" ++ LF
  ++ LF
  ++ "  --host-prefix may be used to translate host paths to target paths during" ++ LF
  ++ "      cross compilation." ++ LF
  ++ "      Example: --host-prefix=out/target/product/crespo" ++ LF
  ++ LF
  ++ "  --output=<file> may be used to send the output to a file." ++ LF
  ++ "      Example: --output=/tmp/oatdump.txt" ++ LF
  ++ LF.

Definition usage {A} : M A := stderr_write usage_text ;; exit EXIT_FAILURE.

(** [StringPiece::starts_with] and [substr(pos)]. *)
Definition starts_with (s x : string) : bool := String.prefix x s.
Definition substr (s : string) (pos : nat) : string :=
  String.substring pos (String.length s - pos) s.

(** The variables the argument loop of [oatdump] sets; a [const char*] that
    is NULL is [None].  The stream [os] is the one the loop ends with. *)
Record Arguments_ := {
  oat_filename : option string;
  image_filename : option string;
  boot_image_filename : option string;
  host_prefix : string
}.

Definition no_arguments : Arguments_ :=
  {| oat_filename := None; image_filename := None;
     boot_image_filename := None; host_prefix := "" |}.

Section oatdump.
Variable T : Target.
Variable P : Printf.
Variable E : Env.

(** The loop [for (int i = 0; i < argc; i++)] over the arguments. *)
Fixpoint parse_arguments (argv : list string) (a : Arguments_)
    : M Arguments_ :=
  match argv with
  | [] => ret a
  | option :: rest =>
      if starts_with option "--oat-file=" then
        parse_arguments rest
          {| oat_filename := Some (substr option (String.length "--oat-file="));
             image_filename := image_filename a;
             boot_image_filename := boot_image_filename a;
             host_prefix := host_prefix a |}
      else if starts_with option "--image=" then
        parse_arguments rest
          {| oat_filename := oat_filename a;
             image_filename := Some (substr option (String.length "--image="));
             boot_image_filename := boot_image_filename a;
             host_prefix := host_prefix a |}
      else if starts_with option "--boot-image=" then
        parse_arguments rest
          {| oat_filename := oat_filename a;
             image_filename := image_filename a;
             boot_image_filename :=
               Some (substr option (String.length "--boot-image="));
             host_prefix := host_prefix a |}
      else if starts_with option "--host-prefix=" then
        parse_arguments rest
          {| oat_filename := oat_filename a;
             image_filename := image_filename a;
             boot_image_filename := boot_image_filename a;
             host_prefix := substr option (String.length "--host-prefix=") |}
      else if starts_with option "--output=" then
        let filename := substr option (String.length "--output=") in
        if negb (ofstream_good E filename) then
          stderr_write ("Failed to open output filename " ++ filename ++ LF) ;;
          usage
        else parse_arguments rest a
      else
        stderr_write ("Unknown argument " ++ option ++ LF) ;;
        usage
  end.

(** The options handed to [Runtime::Create]. *)
Definition runtime_options (a : Arguments_) : list (string * option string) :=
  let boot_image_option :=
    match boot_image_filename a with
    | Some f => [("-Ximage:" ++ f, None)]
    | None => []
    end in
  let image_option :=
    match image_filename a with
    | Some f => [("-Ximage:" ++ f, None)]
    | None => []
    end in
  let host_prefix_option :=
    if negb (empty (host_prefix a))
    then [("host-prefix", Some (host_prefix a))]
    else [] in
  List.app boot_image_option (List.app image_option host_prefix_option).

(** [oatdump], from the arguments after [argv[0]]; the value is the status
    the function returns.  The two tests on [image_filename] and
    [oat_filename] and the test [oat_filename != NULL] are the four cases
    of the match. *)
Definition oatdump (argv : list string) : M N :=
  (if Nat.eqb (List.length argv) 0 then
     stderr_write ("No arguments specified" ++ LF) ;; usage
   else ret tt) ;;
  a <- parse_arguments argv no_arguments ;;
  match image_filename a, oat_filename a with
  | None, None =>
      stderr_write ("Either --image or --oat must be specified" ++ LF) ;;
      ret EXIT_FAILURE
  | Some _, Some _ =>
      stderr_write ("Either --image or --oat must be specified but not both"
                    ++ LF) ;;
      ret EXIT_FAILURE
  | None, Some oat_filename =>
      call (OatFile_Open oat_filename) ;;
      match open_oat_file E oat_filename with
      | None =>
          stderr_write ("Failed to open oat file from " ++ oat_filename
                        ++ LF) ;;
          ret EXIT_FAILURE
      | Some oat_file =>
          OatDump.Dump T P E oat_filename (host_prefix a) oat_file ;;
          ret EXIT_SUCCESS
      end
  | Some image_filename, None =>
      match create_runtime E (runtime_options a) with
      | None =>
          stderr_write ("Failed to create runtime" ++ LF) ;;
          ret EXIT_FAILURE
      | Some runtime =>
          '(image_space, image_header) <-
             CHECK_NOTNULL (Runtime.image_space runtime)
                           "image_space != NULL" ;;
          if negb (ImageHeader.IsValid image_header) then
            stderr_write ("Invalid image header " ++ image_filename ++ LF) ;;
            ret EXIT_FAILURE
          else
            ImageDump.Dump T P E image_filename (host_prefix a) runtime
                           image_space image_header ;;
            ret EXIT_SUCCESS
      end
  end.

(** The status the process ends with; an abort has none. *)
Definition exit_status (r : Outcome N) : option N :=
  match r with
  | Done status _ => Some status
  | Exit status _ => Some status
  | Fatal _ _ => None
  end.

Definition output {A} (r : Outcome A) : string :=
  match r with
  | Done _ w => os w
  | Exit _ w => os w
  | Fatal _ w => os w
  end.
End oatdump.

Definition initial_world : World := {| os := ""; stderr := ""; calls := [] |}.

(* ================================================================== *)
(** ** Sample data: a 32-bit debug target, a formatter, a small heap *)

Module Sample.
Definition decimal (n : N) : string :=
  DecimalString.NilZero.string_of_uint (N.to_uint n).
Definition hex (n : N) : string :=
  HexadecimalString.NilZero.string_of_uint (N.to_hex_uint n).

Fixpoint fill_left (n : nat) (c : ascii) (s : string) : string :=
  match n with
  | O => s
  | S n => String c (fill_left n c s)
  end.

(** [s] right-aligned in [width] columns. *)
Definition padded (width : nat) (c : ascii) (s : string) : string :=
  fill_left (width - String.length s) c s.

(** The floating-point formats are rendered by integer division. *)
Definition printf : Printf :=
  {| fmt_p := fun p => if N.eqb p 0 then "(nil)" else "0x" ++ hex p;
     fmt_d := fun z => DecimalString.NilZero.string_of_int (Z.to_int z);
     fmt_zd := decimal;
     fmt_zd_w := fun width n => padded width " " (decimal n);
     fmt_08x := fun n => padded 8 "0" (hex n);
     fmt_s_w := fun width s => padded width " " s;
     fmt_percent := fun a b => decimal (a * 100 / b);
     fmt_average := fun a b => decimal (a / b);
     fmt_expansion := fun a b => decimal (a / b);
     put_pointer := fun p => if N.eqb p 0 then "0" else "0x" ++ hex p;
     put_unsigned := decimal |}.

(** [RoundUp] for a power of two [n]. *)
Definition round_up (x n : N) : N := (x + n - 1) / n * n.

Definition target (debug : bool) : Target :=
  {| size_bits := 32; kObjectAlignment := 8; RoundUp := round_up;
     sizeof_ImageHeader := 40; kIsDebugBuild := debug;
     kImageRootsMax := 11; kOatLocation := 8 |}.

Definition klass (address : N) (descriptor : string) (is_string : bool)
    : Klass.t :=
  {| Klass.this := address; Klass.GetDescriptor := descriptor;
     Klass.GetStatus := "StatusInitialized";
     Klass.IsStringClass := is_string |}.

Definition java_lang_Object := klass 4096 "Ljava/lang/Object;" false.
Definition java_lang_String := klass 4224 "Ljava/lang/String;" true.
Definition java_lang_reflect_Method :=
  klass 4352 "Ljava/lang/reflect/Method;" false.

(** A native method that is not registered. *)
Definition native_method : Method.t :=
  {| Method.PrettyMethod := "void Foo.direct()";
     Method.IsCalleeSaveMethod := false; Method.IsNative := true;
     Method.IsRegistered := false; Method.IsAbstract := false;
     Method.GetCode := 8192; Method.GetInvokeStub := 8448;
     Method.GetNativeMethod := NULL;
     Method.GetGcMap := NULL; Method.GetGcMapLength := 0;
     Method.GetMappingTable := NULL; Method.GetMappingTableLength := 0;
     Method.insns_size_in_code_units_ := 0 |}.

(** A managed method with a 4-byte register map, an 8-byte mapping table
    and three code units. *)
Definition managed_method : Method.t :=
  {| Method.PrettyMethod := "int Foo.virtual()";
     Method.IsCalleeSaveMethod := false; Method.IsNative := false;
     Method.IsRegistered := false; Method.IsAbstract := false;
     Method.GetCode := 12288; Method.GetInvokeStub := 12544;
     Method.GetNativeMethod := NULL;
     Method.GetGcMap := 16384; Method.GetGcMapLength := 4;
     Method.GetMappingTable := 16400; Method.GetMappingTableLength := 8;
     Method.insns_size_in_code_units_ := 3 |}.

(** A managed method with a register map and no mapping table. *)
Definition managed_method_without_mapping_table : Method.t :=
  {| Method.PrettyMethod := "int Foo.leaf()";
     Method.IsCalleeSaveMethod := false; Method.IsNative := false;
     Method.IsRegistered := false; Method.IsAbstract := false;
     Method.GetCode := 20480; Method.GetInvokeStub := 20736;
     Method.GetNativeMethod := NULL;
     Method.GetGcMap := 24576; Method.GetGcMapLength := 4;
     Method.GetMappingTable := NULL; Method.GetMappingTableLength := 0;
     Method.insns_size_in_code_units_ := 1 |}.

(** A native method that yet has a register map of 4 bytes. *)
Definition native_method_with_register_map : Method.t :=
  {| Method.PrettyMethod := "void Foo.odd()";
     Method.IsCalleeSaveMethod := false; Method.IsNative := true;
     Method.IsRegistered := false; Method.IsAbstract := false;
     Method.GetCode := 28672; Method.GetInvokeStub := 28928;
     Method.GetNativeMethod := NULL;
     Method.GetGcMap := 32768; Method.GetGcMapLength := 4;
     Method.GetMappingTable := NULL; Method.GetMappingTableLength := 0;
     Method.insns_size_in_code_units_ := 0 |}.

Definition plain_object (address size : N) : Object.t :=
  {| Object.this := address; Object.SizeOf := size;
     Object.GetClass := java_lang_Object;
     Object.IsClass := false; Object.AsClass := java_lang_Object;
     Object.IsMethod := false; Object.AsMethod := native_method;
     Object.IsField := false; Object.PrettyField := "";
     Object.IsArrayInstance := false; Object.GetLength := 0%Z;
     Object.ToModifiedUtf8 := "";
     Object.IsObjectArray := false; Object.elements := [] |}.

Definition method_object (address : N) (method : Method.t) : Object.t :=
  {| Object.this := address; Object.SizeOf := 76;
     Object.GetClass := java_lang_reflect_Method;
     Object.IsClass := false; Object.AsClass := java_lang_Object;
     Object.IsMethod := true; Object.AsMethod := method;
     Object.IsField := false; Object.PrettyField := "";
     Object.IsArrayInstance := false; Object.GetLength := 0%Z;
     Object.ToModifiedUtf8 := "";
     Object.IsObjectArray := false; Object.elements := [] |}.

Definition string_object (address : N) (text : string) : Object.t :=
  {| Object.this := address; Object.SizeOf := 24;
     Object.GetClass := java_lang_String;
     Object.IsClass := false; Object.AsClass := java_lang_Object;
     Object.IsMethod := false; Object.AsMethod := native_method;
     Object.IsField := false; Object.PrettyField := "";
     Object.IsArrayInstance := false; Object.GetLength := 0%Z;
     Object.ToModifiedUtf8 := text;
     Object.IsObjectArray := false; Object.elements := [] |}.

(** An object for which both [IsClass] and [IsMethod] answer true. *)
Definition class_and_method_object : Object.t :=
  {| Object.this := 65792; Object.SizeOf := 120;
     Object.GetClass := java_lang_Object;
     Object.IsClass := true; Object.AsClass := java_lang_String;
     Object.IsMethod := true; Object.AsMethod := native_method;
     Object.IsField := false; Object.PrettyField := "";
     Object.IsArrayInstance := false; Object.GetLength := 0%Z;
     Object.ToModifiedUtf8 := "";
     Object.IsObjectArray := false; Object.elements := [] |}.

(** The image space: the addresses from 65536 up to 131072. *)
Definition image_space : Space.t :=
  {| Space.Contains := fun obj =>
       N.leb 65536 (Object.this obj)
       && negb (N.leb 131072 (Object.this obj)) |}.

Definition object_inside : Object.t := plain_object 65536 20.
Definition object_outside : Object.t := plain_object 1048576 16.
Definition native_object : Object.t := method_object 65600 native_method.
Definition managed_object : Object.t := method_object 65680 managed_method.
Definition managed_object_without_mapping_table : Object.t :=
  method_object 65760 managed_method_without_mapping_table.
Definition native_object_with_register_map : Object.t :=
  method_object 65920 native_method_with_register_map.
Definition oat_location_object : Object.t :=
  string_object 65840 "/system/foo.art".

Definition heap : list Object.t :=
  [object_inside; object_outside; native_object; managed_object;
   oat_location_object].
End Sample.

(* ================================================================== *)
(** * Properties *)

(** ** Machine arithmetic *)

Lemma size_max_gt_1 (T : Target) : 1 < size_max T.
Proof.
  unfold size_max.
  change 1 with (2 ^ 0). apply N.pow_lt_mono_r; lia.
Qed.

Lemma size_max_neq_0 (T : Target) : size_max T <> 0.
Proof. pose proof (size_max_gt_1 T). lia. Qed.

Lemma size_add_below (T : Target) (a b : N) : size_add T a b < size_max T.
Proof. apply N.mod_lt, size_max_neq_0. Qed.

Lemma size_add_exact (T : Target) (a b : N) :
  a + b < size_max T -> size_add T a b = a + b.
Proof. intros H. unfold size_add. apply N.mod_small, H. Qed.

(** ** The process *)

Definition world_of {A} (r : Outcome A) : World :=
  match r with
  | Done _ w => w
  | Fatal _ w => w
  | Exit _ w => w
  end.

Lemma bind_Done {A B} (m : M A) (k : A -> M B) w b w2 :
  bind m k w = Done b w2 ->
  exists a w1, m w = Done a w1 /\ k a w1 = Done b w2.
Proof.
  unfold bind. destruct (m w) as [a w1 | msg w1 | c w1]; intros H;
    try discriminate.
  exists a, w1. split; [reflexivity | exact H].
Qed.

Lemma bind_Done_eq {A B} (m : M A) (k : A -> M B) w a w1 :
  m w = Done a w1 -> bind m k w = k a w1.
Proof. intros H. unfold bind. rewrite H. reflexivity. Qed.

Lemma DCHECK_Done (T : Target) cond what w u w1 :
  DCHECK T cond what w = Done u w1 ->
  w1 = w /\ (kIsDebugBuild T = true -> cond = true).
Proof.
  unfold DCHECK, CHECK, ret.
  destruct (kIsDebugBuild T), cond; intros H; inversion H; auto.
Qed.

Lemma DCHECK_true (T : Target) what w : DCHECK T true what w = Done tt w.
Proof. unfold DCHECK, CHECK, ret. destruct (kIsDebugBuild T); reflexivity. Qed.

Lemma DCHECK_debug_false (T : Target) what w :
  kIsDebugBuild T = true ->
  DCHECK T false what w = Fatal ("Check failed: " ++ what) w.
Proof. intros H. unfold DCHECK, CHECK. rewrite H. reflexivity. Qed.

(** ** [std::map] *)

Definition sum (l : list N) : N := fold_right N.add 0 l.

Lemma keys_map_update (k : string) (f g : N -> N) (m1 m2 : std_map) :
  keys m1 = keys m2 ->
  keys (map_update k f m1) = keys (map_update k g m2).
Proof.
  revert m2. induction m1 as [| [k1 v1] m1 IH]; intros [| [k2 v2] m2] H;
    simpl in *; try discriminate; [reflexivity |].
  injection H as Hk Hm. subst k2.
  destruct (String.compare k k1); simpl; try reflexivity.
  - rewrite Hm. reflexivity.
  - rewrite Hm. reflexivity.
  - rewrite (IH m2 Hm). reflexivity.
Qed.

Lemma In_map_update (k : string) (f : N -> N) (m : std_map) k' v' :
  In (k', v') (map_update k f m) ->
  In (k', v') m \/ (exists v, In (k', v) m /\ v' = f v) \/ v' = f 0.
Proof.
  induction m as [| [k1 v1] m IH]; simpl.
  - intros [H | []]. injection H as _ H. right. right. symmetry. exact H.
  - destruct (String.compare k k1); simpl.
    + intros [H | H].
      * injection H as Hk Hv. subst. right. left. exists v1. auto.
      * auto.
    + intros [H | [H | H]].
      * injection H as _ H. right. right. symmetry. exact H.
      * auto.
      * auto.
    + intros [H | H]; [auto |].
      destruct (IH H) as [H1 | [[v [H1 H2]] | H1]]; auto.
      right. left. exists v. auto.
Qed.

Lemma sum_values_map_update (T : Target) (k : string) (n : N) (m : std_map) :
  sum (values (map_update k (fun v => size_add T v n) m)) mod size_max T
  = (sum (values m) + n) mod size_max T.
Proof.
  pose proof (size_max_neq_0 T) as HM.
  induction m as [| [k1 v1] m IH]; simpl.
  - unfold size_add. rewrite N.add_0_r, N.add_0_l. apply N.Div0.mod_mod.
  - destruct (String.compare k k1); simpl.
    + unfold size_add. rewrite N.Div0.add_mod_idemp_l. f_equal. lia.
    + unfold size_add. simpl. rewrite N.Div0.add_mod_idemp_l. f_equal. lia.
    + rewrite <- N.Div0.add_mod_idemp_r, IH, N.Div0.add_mod_idemp_r.
      f_equal. lia.
Qed.

(** The loop of [Stats::Dump] adds the values with wrap-around: it computes
    the sum modulo [size_max]. *)
Lemma fold_size_add (T : Target) (l : list N) (a : N) :
  fold_left (size_add T) l (a mod size_max T) = (a + sum l) mod size_max T.
Proof.
  revert a. induction l as [| x l IH]; intros a; simpl.
  - rewrite N.add_0_r. reflexivity.
  - unfold size_add at 2. rewrite N.Div0.add_mod_idemp_l, IH.
    f_equal. lia.
Qed.

Lemma fold_size_add_0 (T : Target) (l : list N) :
  fold_left (size_add T) l 0 = sum l mod size_max T.
Proof.
  pose proof (fold_size_add T l 0) as H.
  rewrite N.Div0.mod_0_l, N.add_0_l in H. exact H.
Qed.

Lemma map_get_In (k : string) (m : std_map) (Q : N -> Prop) :
  In k (keys m) -> (forall k' v, In (k', v) m -> Q v) -> Q (map_get k m).
Proof.
  unfold map_get. induction m as [| [k1 v1] m IH]; simpl; [intros [] |].
  intros Hin HQ. destruct (String.eqb_spec k k1) as [-> | Hne].
  - apply (HQ k1). auto.
  - destruct Hin as [Hin | Hin]; [congruence |].
    apply IH; [exact Hin |]. intros k' v Hv. apply (HQ k'). auto.
Qed.

(** ** The callback *)

(** The execution kind of a method, in the decision order of [Callback]. *)
Inductive ExecutionKind := Native | Abstract | CalleeSaveStub | Managed.

Definition execution_kind (method : Method.t) : ExecutionKind :=
  if Method.IsNative method then Native
  else if Method.IsAbstract method then Abstract
  else if Method.IsCalleeSaveMethod method then CalleeSaveStub
  else Managed.

(** What the assertions of [Callback] ask of a method that is not managed,
    and of a managed one. *)
Definition maps_absent (method : Method.t) : Prop :=
  Method.GetGcMap method = NULL /\ Method.GetGcMapLength method = 0
  /\ Method.GetMappingTable method = NULL.

Definition register_map_present (method : Method.t) : Prop :=
  Method.GetGcMap method <> NULL /\ 0 < Method.GetGcMapLength method.

(** The statistics of a managed method, added to [stats]. *)
Definition add_managed (T : Target) (method : Method.t) (stats : Stats.t)
    : Stats.t :=
  Stats.set_dex_instruction_bytes
    (size_add T (Stats.dex_instruction_bytes stats)
       (uint32_mul (Method.insns_size_in_code_units_ method) 2))
    (Stats.set_pc_mapping_table_bytes
       (size_add T (Stats.pc_mapping_table_bytes stats)
          (Method.GetMappingTableLength method))
       (Stats.set_register_map_bytes
          (size_add T (Stats.register_map_bytes stats)
             (Method.GetGcMapLength method))
          stats)).

Section Callback.
Variable T : Target.
Variable P : Printf.

Ltac run_checks :=
  unfold DCHECK, CHECK, bind, ret;
  repeat match goal with
         | |- context [N.eqb ?a ?b] => destruct (N.eqb_spec a b)
         end;
  simpl.

Lemma Callback_method_not_managed method summary stats w summary1 stats1 w1 :
  execution_kind method <> Managed ->
  ImageDump.Callback_method T P method summary stats w
  = Done (summary1, stats1) w1 ->
  stats1 = stats /\ w1 = w
  /\ (kIsDebugBuild T = true -> maps_absent method).
Proof.
  unfold execution_kind, ImageDump.Callback_method, maps_absent.
  destruct (Method.IsNative method), (Method.IsAbstract method),
    (Method.IsCalleeSaveMethod method); try congruence; intros _;
    destruct (kIsDebugBuild T) eqn:Hd; run_checks; rewrite ?Hd;
    intros H; inversion H; subst; repeat split; auto; discriminate.
Qed.

Lemma Callback_method_managed method summary stats w summary1 stats1 w1 :
  execution_kind method = Managed ->
  ImageDump.Callback_method T P method summary stats w
  = Done (summary1, stats1) w1 ->
  stats1 = add_managed T method stats /\ w1 = w
  /\ (kIsDebugBuild T = true -> register_map_present method).
Proof.
  unfold execution_kind, ImageDump.Callback_method, register_map_present,
    add_managed.
  destruct (Method.IsNative method), (Method.IsAbstract method),
    (Method.IsCalleeSaveMethod method); try congruence; intros _;
    destruct (kIsDebugBuild T) eqn:Hd; run_checks; rewrite ?Hd;
    intros H; inversion H; subst; repeat split; auto;
    try discriminate; lia.
Qed.

(** In a debug build a method that breaks what its kind asks for stops
    the process. *)
Lemma Callback_method_violation method summary stats w :
  kIsDebugBuild T = true ->
  (execution_kind method <> Managed -> ~ maps_absent method) ->
  (execution_kind method = Managed -> ~ register_map_present method) ->
  exists msg, ImageDump.Callback_method T P method summary stats w
              = Fatal msg w.
Proof.
  unfold execution_kind, ImageDump.Callback_method, register_map_present,
    maps_absent.
  intros Hd.
  destruct (Method.IsNative method), (Method.IsAbstract method),
    (Method.IsCalleeSaveMethod method); intros H1 H2;
    run_checks; rewrite ?Hd; eauto;
    exfalso;
    first [ apply H1; [discriminate | unfold NULL in *; repeat split; congruence]
          | apply H2; [reflexivity | split; [assumption | lia]] ].
Qed.

(** When the assertions hold, or are compiled out, the block runs to its
    end and leaves the process as it is. *)
Lemma Callback_method_runs method summary stats w :
  (kIsDebugBuild T = true ->
   (execution_kind method <> Managed -> maps_absent method)
   /\ (execution_kind method = Managed -> register_map_present method)) ->
  exists summary1 stats1,
    ImageDump.Callback_method T P method summary stats w
    = Done (summary1, stats1) w.
Proof.
  unfold execution_kind, ImageDump.Callback_method, register_map_present,
    maps_absent, DCHECK.
  destruct (kIsDebugBuild T) eqn:Hd.
  - intros H. destruct (H eq_refl) as [H1 H2]. clear H.
    destruct (Method.IsNative method), (Method.IsAbstract method),
      (Method.IsCalleeSaveMethod method);
      try (destruct H1 as (Hg & Hl & Hm); [discriminate |];
           rewrite Hg, Hl, Hm; unfold CHECK, bind, ret; simpl; eauto; fail).
    destruct H2 as [Hg Hl]; [reflexivity |].
    unfold CHECK, bind, ret.
    destruct (N.eqb_spec (Method.GetGcMap method) NULL); [contradiction |].
    destruct (N.eqb_spec 0 (Method.GetGcMapLength method)); [lia |].
    simpl. eauto.
  - intros _.
    destruct (Method.IsNative method), (Method.IsAbstract method),
      (Method.IsCalleeSaveMethod method); unfold bind, ret; eauto.
Qed.
End Callback.

(** ** Text *)

Lemma append_assoc (a b c : string) : (a ++ b) ++ c = a ++ (b ++ c).
Proof. induction a as [| x a IH]; simpl; [reflexivity | rewrite IH; reflexivity]. Qed.

Lemma append_nil_r (a : string) : a ++ "" = a.
Proof. induction a as [| x a IH]; simpl; [reflexivity | rewrite IH; reflexivity]. Qed.

Lemma append_inv_head (a b c : string) : a ++ b = a ++ c -> b = c.
Proof.
  induction a as [| x a IH]; simpl; intros H; [exact H |].
  injection H as H. apply IH, H.
Qed.

(** Equal texts that differ in the nesting of their concatenations. *)
Ltac same_text :=
  repeat (progress (rewrite ?append_assoc; simpl)); reflexivity.

(** [w] after [text] has been written to [os]. *)
Definition written (w : World) (text : string) : World :=
  {| os := os w ++ text; stderr := stderr w; calls := calls w |}.

Lemma written_nil (w : World) : written w "" = w.
Proof. destruct w. unfold written. simpl. rewrite append_nil_r. reflexivity. Qed.

Lemma written_written (w : World) (a b : string) :
  written (written w a) b = written w (a ++ b).
Proof. unfold written. simpl. rewrite append_assoc. reflexivity. Qed.

Lemma os_write_eq (text : string) (w : World) :
  os_write text w = Done tt (written w text).
Proof. reflexivity. Qed.

(** [w] after the lookup [c] has been made. *)
Definition called (w : World) (c : Call) : World :=
  {| os := os w; stderr := stderr w; calls := (calls w ++ [c])%list |}.

Lemma bind_call {B} (c : Call) (k : unit -> M B) (w : World) :
  bind (call c) k w = k tt (called w c).
Proof. reflexivity. Qed.

(** ** One visit *)

(** The accounting every visited object gets: its size, its padding and its
    entry under the descriptor of its class. *)
Definition account (T : Target) (obj : Object.t) (stats : Stats.t) : Stats.t :=
  let object_bytes := Object.SizeOf obj in
  let descriptor := Klass.GetDescriptor (Object.GetClass obj) in
  Stats.set_descriptor_to_count
    (map_update descriptor (fun v => size_add T v 1)
                (Stats.descriptor_to_count stats))
    (Stats.set_descriptor_to_bytes
       (map_update descriptor (fun v => size_add T v object_bytes)
                   (Stats.descriptor_to_bytes stats))
       (Stats.set_alignment_bytes
          (size_add T (Stats.alignment_bytes stats)
             (size_sub T (RoundUp T object_bytes (kObjectAlignment T))
                       object_bytes))
          (Stats.set_object_bytes
             (size_add T (Stats.object_bytes stats) object_bytes) stats))).

(** The statistics after a visit of [obj] that ran to its end. *)
Definition visit (T : Target) (obj : Object.t) (stats : Stats.t) : Stats.t :=
  let stats := account T obj stats in
  if Object.IsMethod obj then
    match execution_kind (Object.AsMethod obj) with
    | Managed => add_managed T (Object.AsMethod obj) stats
    | _ => stats
    end
  else stats.

Section Visit.
Variable T : Target.
Variable P : Printf.

Lemma Callback_method_summary method summary stats w summary1 stats1 w1 :
  ImageDump.Callback_method T P method summary stats w
  = Done (summary1, stats1) w1 ->
  exists detail, summary1 = summary ++ detail.
Proof.
  unfold ImageDump.Callback_method, DCHECK, CHECK, bind, ret.
  repeat match goal with
         | |- context [if ?b then _ else _] => destruct b
         end;
    intros H; inversion H; subst;
    rewrite ?append_assoc; eauto.
  all: exists ""; rewrite append_nil_r; reflexivity.
Qed.

Lemma Callback_outside obj state w :
  ImageDump.InDumpSpace state obj = false ->
  ImageDump.Callback T P obj state w = Done state w.
Proof. intros H. unfold ImageDump.Callback. rewrite H. reflexivity. Qed.

Lemma Callback_inside obj state w state1 w1 :
  ImageDump.InDumpSpace state obj = true ->
  ImageDump.Callback T P obj state w = Done state1 w1 ->
  state1 = ImageDump.set_stats (visit T obj (ImageDump.stats_ state)) state
  /\ exists detail,
       w1 = written w (fmt_p P (Object.this obj) ++ ": "
                       ++ ImageDump.Callback_category P obj ++ detail).
Proof.
  intros Hin. unfold ImageDump.Callback. rewrite Hin. simpl.
  fold (account T obj (ImageDump.stats_ state)).
  intros H. apply bind_Done in H. destruct H as ([summary1 stats1] & w0 & H & H1).
  unfold bind, ret in H1. rewrite os_write_eq in H1. inversion H1; subst.
  clear H1. unfold visit.
  destruct (Object.IsMethod obj).
  - destruct (Callback_method_summary _ _ _ _ _ _ _ H) as [detail ->].
    destruct (execution_kind (Object.AsMethod obj)) eqn:Hk.
    4: { apply Callback_method_managed in H; [| exact Hk].
         destruct H as (-> & -> & _). split; [reflexivity |].
         rewrite !append_assoc. eexists. reflexivity. }
    all: apply Callback_method_not_managed in H; [| congruence];
      destruct H as (-> & -> & _); split; [reflexivity |];
      rewrite !append_assoc; eexists; reflexivity.
  - unfold ret in H. inversion H; subst. split; [reflexivity |].
    rewrite !append_assoc. eexists. reflexivity.
Qed.
End Visit.

(** ** The walk over the heap *)

Lemma visit_descriptor_to_bytes (T : Target) obj stats :
  Stats.descriptor_to_bytes (visit T obj stats)
  = map_update (Klass.GetDescriptor (Object.GetClass obj))
      (fun v => size_add T v (Object.SizeOf obj))
      (Stats.descriptor_to_bytes stats).
Proof.
  unfold visit. destruct (Object.IsMethod obj); [| reflexivity].
  destruct (execution_kind (Object.AsMethod obj)); reflexivity.
Qed.

Lemma visit_descriptor_to_count (T : Target) obj stats :
  Stats.descriptor_to_count (visit T obj stats)
  = map_update (Klass.GetDescriptor (Object.GetClass obj))
      (fun v => size_add T v 1) (Stats.descriptor_to_count stats).
Proof.
  unfold visit. destruct (Object.IsMethod obj); [| reflexivity].
  destruct (execution_kind (Object.AsMethod obj)); reflexivity.
Qed.

Lemma visit_object_bytes (T : Target) obj stats :
  Stats.object_bytes (visit T obj stats)
  = size_add T (Stats.object_bytes stats) (Object.SizeOf obj).
Proof.
  unfold visit. destruct (Object.IsMethod obj); [| reflexivity].
  destruct (execution_kind (Object.AsMethod obj)); reflexivity.
Qed.

Section Walk.
Variable T : Target.
Variable P : Printf.

(** A property of the statistics that every visit keeps holds after the
    walk. *)
Lemma Walk_invariant (I : nat -> Stats.t -> Prop) :
  (forall n stats, I n stats -> I (S n) stats) ->
  (forall n obj stats, I n stats -> I (S n) (visit T obj stats)) ->
  forall objects n state w state1 w1,
    I n (ImageDump.stats_ state) ->
    ImageDump.Walk T P objects state w = Done state1 w1 ->
    I (n + List.length objects)%nat (ImageDump.stats_ state1).
Proof.
  intros Hskip Hvisit.
  induction objects as [| obj rest IH]; intros n state w state1 w1 HI H;
    simpl in H.
  - inversion H; subst. rewrite Nat.add_0_r. exact HI.
  - apply bind_Done in H. destruct H as (state0 & w0 & Hc & H).
    simpl. rewrite Nat.add_succ_r. change (S (n + List.length rest))%nat
      with (S n + List.length rest)%nat.
    apply (IH (S n) state0 w0 state1 w1); [| exact H].
    destruct (ImageDump.InDumpSpace state obj) eqn:Hin.
    + apply (Callback_inside T P) in Hc; [| exact Hin].
      destruct Hc as [-> _]. simpl. apply Hvisit, HI.
    + rewrite Callback_outside in Hc by exact Hin.
      inversion Hc; subst. apply Hskip, HI.
Qed.

Lemma Callback_dump_space obj state w state1 w1 :
  ImageDump.Callback T P obj state w = Done state1 w1 ->
  ImageDump.dump_space_ state1 = ImageDump.dump_space_ state.
Proof.
  intros H. destruct (ImageDump.InDumpSpace state obj) eqn:Hin.
  - apply (Callback_inside T P) in H; [| exact Hin].
    destruct H as [-> _]. reflexivity.
  - rewrite Callback_outside in H by exact Hin. inversion H. reflexivity.
Qed.

Lemma Walk_filter (space : Space.t) objects :
  forall state w,
    ImageDump.dump_space_ state = space ->
    ImageDump.Walk T P objects state w
    = ImageDump.Walk T P (filter (Space.Contains space) objects) state w.
Proof.
  induction objects as [| obj rest IH]; intros state w Hs; [reflexivity |].
  simpl. destruct (Space.Contains space obj) eqn:Hin.
  - simpl. unfold bind.
    destruct (ImageDump.Callback T P obj state w) as [state0 w0 | |] eqn:Hc;
      try reflexivity.
    apply IH. rewrite (Callback_dump_space _ _ _ _ _ Hc). exact Hs.
  - rewrite (bind_Done_eq _ _ w state w).
    + apply IH, Hs.
    + apply Callback_outside. unfold ImageDump.InDumpSpace.
      rewrite Hs. exact Hin.
Qed.
End Walk.

(** C6.  An object outside the dump space leaves the accumulator and the
    process (the output stream with it) exactly as they were: the callback
    returns at once.  Hence a walk gives the same statistics and the same
    output as the walk over its objects inside the dump space alone: only
    those contribute. *)
Theorem Callback_skips_objects_outside_dump_space
    (T : Target) (P : Printf) (state : ImageDump.t) :
  (forall obj w,
     ImageDump.InDumpSpace state obj = false ->
     ImageDump.Callback T P obj state w = Done state w)
  /\ (forall objects w,
        ImageDump.Walk T P objects state w
        = ImageDump.Walk T P
            (filter (ImageDump.InDumpSpace state) objects) state w).
Proof.
  split.
  - intros obj w H. apply Callback_outside, H.
  - intros objects w.
    apply (Walk_filter T P (ImageDump.dump_space_ state)). reflexivity.
Qed.

(** ** The two tables keyed by descriptor *)

(** After [n] callbacks: the tables have the same keys, and while [n] fits
    a [size_t] every count lies between 1 and [n]. *)
Definition tables_agree (T : Target) (n : nat) (stats : Stats.t) : Prop :=
  keys (Stats.descriptor_to_bytes stats)
  = keys (Stats.descriptor_to_count stats)
  /\ (N.of_nat n < size_max T ->
      forall k c, In (k, c) (Stats.descriptor_to_count stats) ->
                  1 <= c <= N.of_nat n).

Lemma tables_agree_skip (T : Target) n stats :
  tables_agree T n stats -> tables_agree T (S n) stats.
Proof.
  intros [Hk Hc]. split; [exact Hk |].
  intros Hn k c Hin. assert (1 <= c <= N.of_nat n) by (apply (Hc ltac:(lia) k), Hin).
  lia.
Qed.

Lemma tables_agree_visit (T : Target) n obj stats :
  tables_agree T n stats -> tables_agree T (S n) (visit T obj stats).
Proof.
  intros [Hk Hc]. split.
  - rewrite visit_descriptor_to_bytes, visit_descriptor_to_count.
    apply keys_map_update, Hk.
  - intros Hn k c. rewrite visit_descriptor_to_count. intros Hin.
    assert (Hn' : N.of_nat n < size_max T) by lia.
    apply In_map_update in Hin. destruct Hin as [Hin | [(v & Hin & ->) | ->]].
    + pose proof (Hc Hn' k c Hin). lia.
    + pose proof (Hc Hn' k v Hin).
      rewrite size_add_exact by lia. lia.
    + rewrite size_add_exact by (pose proof (size_max_gt_1 T); lia). lia.
Qed.

(** A walk that passes each object once makes fewer callbacks than a
    [size_t] can count: its objects have distinct addresses, none of them
    NULL, each within the range of a pointer. *)
Lemma distinct_objects_fit (T : Target) (objects : list Object.t) :
  NoDup (map Object.this objects) ->
  (forall obj, In obj objects ->
               Object.this obj <> NULL /\ Object.this obj < size_max T) ->
  N.of_nat (List.length objects) < size_max T.
Proof.
  intros Hnd Hrange.
  pose proof (size_max_gt_1 T) as HM.
  assert (Hincl : incl (map Object.this objects)
                       (map N.of_nat (seq 1 (N.to_nat (size_max T) - 1)))).
  { intros a Ha. apply in_map_iff in Ha. destruct Ha as (obj & <- & Hobj).
    destruct (Hrange obj Hobj) as [Hnull Hlt]. unfold NULL in Hnull.
    apply in_map_iff. exists (N.to_nat (Object.this obj)).
    split; [apply N2Nat.id |]. apply in_seq. lia. }
  apply NoDup_incl_length in Hincl; [| exact Hnd].
  rewrite !length_map, length_seq in Hincl. lia.
Qed.

(** C10.  Whatever objects the walk has passed to the callback so far, the
    tables [descriptor_to_bytes] and [descriptor_to_count] hold the same
    descriptors; and as long as the number of callbacks fits a [size_t],
    every count is at least 1, so the count [Stats::Dump] divides by, read
    at a descriptor of [descriptor_to_bytes], is not zero. *)
Theorem descriptor_tables_agree
    (T : Target) (P : Printf) (space : Space.t) (objects : list Object.t)
    (w : World) (state : ImageDump.t) (w1 : World) :
  ImageDump.Walk T P objects (ImageDump.make space) w = Done state w1 ->
  let bytes := Stats.descriptor_to_bytes (ImageDump.stats_ state) in
  let count := Stats.descriptor_to_count (ImageDump.stats_ state) in
  keys bytes = keys count
  /\ (N.of_nat (List.length objects) < size_max T ->
      (forall descriptor c, In (descriptor, c) count -> 1 <= c)
      /\ (forall descriptor b,
            In (descriptor, b) bytes -> 1 <= map_get descriptor count)).
Proof.
  intros H.
  pose proof (Walk_invariant T P (tables_agree T) (tables_agree_skip T)
                (tables_agree_visit T) objects 0%nat
                (ImageDump.make space) w state w1) as Hinv.
  destruct Hinv as [Hk Hc]; [| exact H |].
  { split; [reflexivity |]. intros _ k c []. }
  simpl in Hk, Hc. cbv zeta. split; [exact Hk |].
  intros Hn. specialize (Hc Hn).
  assert (Hpos : forall k c,
             In (k, c) (Stats.descriptor_to_count (ImageDump.stats_ state)) ->
             1 <= c) by (intros k c Hin; apply (Hc k c Hin)).
  split; [exact Hpos |].
  intros descriptor b Hin.
  apply (map_get_In descriptor _ (fun c => 1 <= c)); [| exact Hpos].
  rewrite <- Hk. unfold keys.
  change descriptor with (fst (descriptor, b)). apply in_map, Hin.
Qed.

(** ** The accounting invariants *)

(** The two equalities [Stats::Dump] checks, in the arithmetic of the code. *)
Definition file_bytes_invariant (T : Target) (s : Stats.t) : Prop :=
  Stats.file_bytes s
  = size_add T (size_add T (Stats.header_bytes s) (Stats.object_bytes s))
               (Stats.alignment_bytes s).

Definition object_bytes_invariant (T : Target) (s : Stats.t) : Prop :=
  Stats.object_bytes s
  = fold_left (size_add T) (values (Stats.descriptor_to_bytes s)) 0.

Lemma bind_os_write {B} (text : string) (k : unit -> M B) (w : World) :
  bind (os_write text) k w = k tt (written w text).
Proof. reflexivity. Qed.

Lemma bind_CHECK_true {B} (what : string) (k : unit -> M B) (w : World) :
  bind (CHECK true what) k w = k tt w.
Proof. reflexivity. Qed.

Lemma bind_CHECK_false {B} (what : string) (k : unit -> M B) (w : World) :
  bind (CHECK false what) k w = Fatal ("Check failed: " ++ what) w.
Proof. reflexivity. Qed.

Section Accounting.
Variable T : Target.
Variable P : Printf.
Variable E : Env.

Lemma Dump_descriptors_total s entries :
  forall total w,
  exists text,
    Stats.Dump_descriptors T P s entries total w
    = Done (fold_left (size_add T) (values entries) total) (written w text).
Proof.
  induction entries as [| [descriptor bytes] rest IH]; intros total w.
  - exists "". simpl. unfold ret. rewrite written_nil. reflexivity.
  - simpl. rewrite bind_os_write.
    match goal with
    | |- context [written w ?t] =>
        destruct (IH (size_add T total bytes) (written w t)) as [text H];
        exists (t ++ text)
    end.
    rewrite H, written_written. reflexivity.
Qed.

Lemma Stats_Dump_passes s w :
  file_bytes_invariant T s -> object_bytes_invariant T s ->
  exists text, Stats.Dump T P s w = Done tt (written w text).
Proof.
  unfold file_bytes_invariant, object_bytes_invariant. intros H1 H2.
  unfold Stats.Dump. repeat (rewrite bind_os_write; cbv beta).
  rewrite <- H1, N.eqb_refl, bind_CHECK_true, bind_os_write.
  match goal with
  | |- context [Stats.Dump_descriptors T P s ?e ?t] =>
      match goal with
      | |- context [bind _ _ ?w0] =>
          destruct (Dump_descriptors_total s e t w0) as [text H]
      end
  end.
  rewrite (bind_Done_eq _ _ _ _ _ H), bind_os_write.
  rewrite <- H2, N.eqb_refl, bind_CHECK_true.
  repeat (rewrite bind_os_write; cbv beta).
  rewrite os_write_eq, !written_written. eexists. reflexivity.
Qed.

Lemma Stats_Dump_fails s w :
  ~ (file_bytes_invariant T s /\ object_bytes_invariant T s) ->
  exists msg text, Stats.Dump T P s w = Fatal msg (written w text).
Proof.
  unfold file_bytes_invariant, object_bytes_invariant. intros Hn.
  unfold Stats.Dump. repeat (rewrite bind_os_write; cbv beta).
  match goal with
  | |- context [CHECK (N.eqb ?a ?b)] => destruct (N.eqb_spec a b) as [H1 | H1]
  end.
  2: { rewrite bind_CHECK_false, !written_written. eexists. eexists.
       reflexivity. }
  rewrite bind_CHECK_true, bind_os_write.
  match goal with
  | |- context [Stats.Dump_descriptors T P s ?e ?t] =>
      match goal with
      | |- context [bind _ _ ?w0] =>
          destruct (Dump_descriptors_total s e t w0) as [text H]
      end
  end.
  rewrite (bind_Done_eq _ _ _ _ _ H), bind_os_write.
  match goal with
  | |- context [CHECK (N.eqb ?a ?b)] => destruct (N.eqb_spec a b) as [H2 | H2]
  end.
  - exfalso. apply Hn. split; assumption.
  - rewrite bind_CHECK_false, !written_written. eexists. eexists.
    reflexivity.
Qed.

Lemma Stats_Dump_Done s w u w1 :
  Stats.Dump T P s w = Done u w1 ->
  file_bytes_invariant T s /\ object_bytes_invariant T s
  /\ exists text, w1 = written w text.
Proof.
  intros H.
  assert (Hinv : file_bytes_invariant T s /\ object_bytes_invariant T s).
  { unfold file_bytes_invariant, object_bytes_invariant.
    match goal with
    | |- ?a = ?b /\ ?c = ?d =>
        destruct (N.eq_dec a b) as [H1 | H1];
        [destruct (N.eq_dec c d) as [H2 | H2]; [auto |] |]
    end.
    - destruct (Stats_Dump_fails s w) as (msg & t & Hf);
        [intros [_ X]; exact (H2 X) | rewrite Hf in H; discriminate].
    - destruct (Stats_Dump_fails s w) as (msg & t & Hf);
        [intros [X _]; exact (H1 X) | rewrite Hf in H; discriminate]. }
  destruct Hinv as [H1 H2]. split; [exact H1 | split; [exact H2 |]].
  destruct (Stats_Dump_passes s w H1 H2) as [text Ht].
  rewrite Ht in H. inversion H. exists text. reflexivity.
Qed.

(** Every walk leaves [object_bytes] equal to the sum of the values of
    [descriptor_to_bytes], modulo the range of [size_t]. *)
Lemma Walk_object_bytes space objects w state w1 :
  ImageDump.Walk T P objects (ImageDump.make space) w = Done state w1 ->
  Stats.object_bytes (ImageDump.stats_ state)
  = sum (values (Stats.descriptor_to_bytes (ImageDump.stats_ state)))
    mod size_max T.
Proof.
  intros H.
  refine (Walk_invariant T P
            (fun _ s => Stats.object_bytes s
                        = sum (values (Stats.descriptor_to_bytes s))
                          mod size_max T)
            _ _ objects 0%nat (ImageDump.make space) w state w1 _ H).
  - auto.
  - intros _ obj stats Hs.
    rewrite visit_object_bytes, visit_descriptor_to_bytes,
      sum_values_map_update, Hs.
    unfold size_add. apply N.Div0.add_mod_idemp_l.
  - simpl. symmetry. apply N.Div0.mod_0_l.
Qed.

(** The heap part of [Dump], when it runs to its end, has walked the heap
    and passed the two checks of [Stats::Dump] on the finalized statistics;
    its output ends with the block [Stats::Dump] has rendered and a line
    feed. *)
Lemma Dump_heap_ends_with_stats image_filename runtime image_space
    image_header w w1 :
  ImageDump.Dump_heap T P E image_filename runtime image_space image_header w
  = Done tt w1 ->
  exists state w_walk w_walked w0 text,
    ImageDump.Walk T P (Runtime.live_objects runtime)
                   (ImageDump.make image_space) w_walk
    = Done state w_walked
    /\ Stats.Dump T P (ImageDump.finalize T E image_filename
                                          (ImageDump.stats_ state)) w0
       = Done tt (written w0 text)
    /\ w1 = written w0 (text ++ LF)
    /\ file_bytes_invariant T
         (ImageDump.finalize T E image_filename (ImageDump.stats_ state))
    /\ object_bytes_invariant T
         (ImageDump.finalize T E image_filename (ImageDump.stats_ state)).
Proof.
  unfold ImageDump.Dump_heap. intros H.
  repeat (rewrite bind_os_write in H; cbv beta in H).
  apply bind_Done in H. destruct H as (u1 & w2 & _ & H).
  apply bind_Done in H. destruct H as (u2 & w3 & _ & H).
  repeat (rewrite bind_os_write in H; cbv beta in H).
  apply bind_Done in H. destruct H as (state & w4 & Hwalk & H).
  repeat (rewrite bind_os_write in H; cbv beta in H).
  rewrite bind_call in H.
  apply bind_Done in H. destruct H as (u & w5 & Hstats & H).
  rewrite os_write_eq in H. inversion H; subst w1. clear H.
  destruct (Stats_Dump_Done _ _ _ _ Hstats) as (Hf & Ho & text & ->).
  destruct u. eexists state, _, _, _, text.
  split; [exact Hwalk |]. split; [exact Hstats |].
  split; [rewrite written_written; reflexivity |].
  split; assumption.
Qed.
End Accounting.

(** C1.  [Stats::Dump] renders the statistics to the end exactly when the
    two accounting equalities hold, and stops the process at the failed
    check otherwise; so whenever the heap part of [Dump] has run to its end,
    both hold of the statistics it finalized and rendered.  The second one,
    [object_bytes] against the sum of the values of [descriptor_to_bytes],
    holds after every walk, whatever objects it visits.  The equalities are
    those of the code, in [size_t] arithmetic; they are equalities of
    integers as soon as the sums fit a [size_t]. *)
Theorem accounting_invariants_checked (T : Target) (P : Printf) (E : Env) :
  (forall s w,
     file_bytes_invariant T s -> object_bytes_invariant T s ->
     exists text, Stats.Dump T P s w = Done tt (written w text))
  /\ (forall s w,
        ~ (file_bytes_invariant T s /\ object_bytes_invariant T s) ->
        exists msg text, Stats.Dump T P s w = Fatal msg (written w text))
  /\ (forall image_filename runtime image_space image_header w w1,
        ImageDump.Dump_heap T P E image_filename runtime image_space
                            image_header w = Done tt w1 ->
        exists state w_walk w_walked,
          ImageDump.Walk T P (Runtime.live_objects runtime)
                         (ImageDump.make image_space) w_walk
          = Done state w_walked
          /\ file_bytes_invariant T
               (ImageDump.finalize T E image_filename (ImageDump.stats_ state))
          /\ object_bytes_invariant T
               (ImageDump.finalize T E image_filename
                                   (ImageDump.stats_ state)))
  /\ (forall space objects image_filename w state w1,
        ImageDump.Walk T P objects (ImageDump.make space) w = Done state w1 ->
        object_bytes_invariant T
          (ImageDump.finalize T E image_filename (ImageDump.stats_ state)))
  /\ (forall s,
        file_bytes_invariant T s ->
        Stats.header_bytes s + Stats.object_bytes s + Stats.alignment_bytes s
        < size_max T ->
        Stats.file_bytes s
        = Stats.header_bytes s + Stats.object_bytes s + Stats.alignment_bytes s)
  /\ (forall s,
        object_bytes_invariant T s ->
        sum (values (Stats.descriptor_to_bytes s)) < size_max T ->
        Stats.object_bytes s = sum (values (Stats.descriptor_to_bytes s))).
Proof.
  split; [| split; [| split; [| split; [| split]]]].
  - intros s w. apply Stats_Dump_passes.
  - intros s w. apply Stats_Dump_fails.
  - intros image_filename runtime image_space image_header w w1 H.
    destruct (Dump_heap_ends_with_stats T P E _ _ _ _ _ _ H)
      as (state & w_walk & w_walked & _ & _ & Hwalk & _ & _ & Hf & Ho).
    exists state, w_walk, w_walked. auto.
  - intros space objects image_filename w state w1 H.
    unfold object_bytes_invariant, ImageDump.finalize. simpl.
    rewrite (Walk_object_bytes T P _ _ _ _ _ H), fold_size_add_0.
    reflexivity.
  - unfold file_bytes_invariant. intros s H Hs. rewrite H.
    rewrite (size_add_exact T (Stats.header_bytes s)) by lia.
    apply size_add_exact, Hs.
  - unfold object_bytes_invariant. intros s H Hs. rewrite H.
    rewrite fold_size_add_0. apply N.mod_small, Hs.
Qed.

(** ** Method objects *)

(** What the assertions of [Callback] check of a method, by its kind. *)
Definition checked_contract (method : Method.t) : Prop :=
  (execution_kind method <> Managed -> maps_absent method)
  /\ (execution_kind method = Managed -> register_map_present method).

(** The contract with a mapping table asked of a managed method too. *)
Definition contract_with_mapping_table (method : Method.t) : Prop :=
  (execution_kind method <> Managed -> maps_absent method)
  /\ (execution_kind method = Managed ->
      register_map_present method /\ Method.GetMappingTable method <> NULL).

(** The lines of a summary: the two every object gets, the addresses of the
    code and of the invoke stub of a method, and the line that names the
    kind of a method that is not managed. *)
Definition summary_head (P : Printf) (obj : Object.t) : string :=
  fmt_p P (Object.this obj) ++ ": " ++ ImageDump.Callback_category P obj ++ LF
  ++ TAB ++ "class " ++ fmt_p P (Klass.this (Object.GetClass obj)) ++ ": "
  ++ Klass.GetDescriptor (Object.GetClass obj) ++ LF.

Definition stub_lines (P : Printf) (method : Method.t) : string :=
  if Method.IsCalleeSaveMethod method then ""
  else TAB ++ "CODE     " ++ fmt_p P (Method.GetCode method) ++ LF
       ++ TAB ++ "JNI STUB " ++ fmt_p P (Method.GetInvokeStub method) ++ LF.

Definition kind_line (P : Printf) (method : Method.t) : string :=
  match execution_kind method with
  | Native =>
      if Method.IsRegistered method
      then TAB ++ "NATIVE REGISTERED "
           ++ fmt_p P (Method.GetNativeMethod method) ++ LF
      else TAB ++ "NATIVE UNREGISTERED" ++ LF
  | Abstract => TAB ++ "ABSTRACT" ++ LF
  | CalleeSaveStub => TAB ++ "CALLEE SAVE METHOD" ++ LF
  | Managed => ""
  end.

Section Methods.
Variable T : Target.
Variable P : Printf.

Lemma Callback_method_not_managed_summary method summary stats w summary1
    stats1 w1 :
  execution_kind method <> Managed ->
  ImageDump.Callback_method T P method summary stats w
  = Done (summary1, stats1) w1 ->
  summary1 = summary ++ stub_lines P method ++ kind_line P method.
Proof.
  unfold execution_kind, ImageDump.Callback_method, stub_lines, kind_line,
    execution_kind, DCHECK, CHECK, bind, ret.
  destruct (Method.IsNative method), (Method.IsAbstract method),
    (Method.IsCalleeSaveMethod method); try congruence; intros _;
    simpl negb; cbv iota;
    repeat match goal with
           | |- context [if ?b then _ else _] => destruct b
           end;
    intros H; inversion H; subst; same_text.
Qed.

Lemma Callback_not_managed_text obj state w state1 w1 :
  ImageDump.InDumpSpace state obj = true ->
  Object.IsMethod obj = true ->
  execution_kind (Object.AsMethod obj) <> Managed ->
  ImageDump.Callback T P obj state w = Done state1 w1 ->
  w1 = written w (summary_head P obj ++ stub_lines P (Object.AsMethod obj)
                  ++ kind_line P (Object.AsMethod obj)).
Proof.
  intros Hin Hm Hk. unfold ImageDump.Callback. rewrite Hin, Hm. simpl.
  intros H. apply bind_Done in H.
  destruct H as ([summary1 stats1] & w0 & H & H1).
  pose proof (Callback_method_not_managed_summary _ _ _ _ _ _ _ Hk H) as ->.
  apply Callback_method_not_managed in H; [| exact Hk].
  destruct H as (_ & -> & _).
  unfold bind, ret in H1. rewrite os_write_eq in H1. inversion H1.
  unfold summary_head. f_equal. same_text.
Qed.

Lemma Callback_runs obj state w :
  ImageDump.InDumpSpace state obj = true ->
  (Object.IsMethod obj = true -> kIsDebugBuild T = true ->
   checked_contract (Object.AsMethod obj)) ->
  exists state1 w1, ImageDump.Callback T P obj state w = Done state1 w1.
Proof.
  intros Hin Hc. unfold ImageDump.Callback. rewrite Hin. simpl.
  destruct (Object.IsMethod obj).
  - match goal with
    | |- context [ImageDump.Callback_method T P ?m ?s ?st] =>
        destruct (Callback_method_runs T P m s st w) as (s1 & st1 & H)
    end.
    { intros Hd. apply Hc; [reflexivity | exact Hd]. }
    rewrite (bind_Done_eq _ _ _ _ _ H). simpl.
    rewrite bind_os_write. unfold ret. eauto.
  - unfold ret at 1. rewrite (bind_Done_eq _ _ w _ w eq_refl).
    rewrite bind_os_write. unfold ret. eauto.
Qed.

Lemma Callback_stops obj state w :
  kIsDebugBuild T = true ->
  ImageDump.InDumpSpace state obj = true ->
  Object.IsMethod obj = true ->
  ~ checked_contract (Object.AsMethod obj) ->
  exists msg, ImageDump.Callback T P obj state w = Fatal msg w.
Proof.
  intros Hd Hin Hm Hc. unfold ImageDump.Callback. rewrite Hin, Hm. simpl.
  match goal with
  | |- context [ImageDump.Callback_method T P ?m ?s ?st] =>
      destruct (Callback_method_violation T P m s st w Hd) as [msg H]
  end.
  - intros Hk Ha. apply Hc. split; [intros _; exact Ha | congruence].
  - intros Hk Hp. apply Hc. split; [congruence | intros _; exact Hp].
  - exists msg. unfold bind at 1. rewrite H. reflexivity.
Qed.

Lemma Callback_checks obj state w state1 w1 :
  kIsDebugBuild T = true ->
  ImageDump.InDumpSpace state obj = true ->
  Object.IsMethod obj = true ->
  ImageDump.Callback T P obj state w = Done state1 w1 ->
  checked_contract (Object.AsMethod obj).
Proof.
  intros Hd Hin Hm. unfold ImageDump.Callback. rewrite Hin, Hm. simpl.
  intros H. apply bind_Done in H.
  destruct H as ([summary1 stats1] & w0 & H & _).
  split; intros Hk.
  - apply Callback_method_not_managed in H; [| exact Hk].
    destruct H as (_ & _ & H). apply H, Hd.
  - apply Callback_method_managed in H; [| exact Hk].
    destruct H as (_ & _ & H). apply H, Hd.
Qed.
End Methods.

(** C2, as the code has it.  In a build with [DCHECK] compiled in, for an
    object of the dump space that is a method: the callback runs to its end
    exactly when the method keeps what the assertions check, and stops the
    process otherwise.  A native, abstract or callee-save method then has a
    NULL register map of length 0 and a NULL mapping table; nothing is
    added for it to the register-map, mapping-table and dex-instruction
    totals, and its summary is the two lines of every object, the addresses
    of its code and stub and the line of its kind, with no size in it.  A
    managed method has a register map that is not NULL and whose length is
    greater than 0.  No assertion reads the mapping table of a managed
    method. *)
Theorem method_presence_contract
    (T : Target) (P : Printf) (obj : Object.t) (state : ImageDump.t)
    (w : World) :
  kIsDebugBuild T = true ->
  ImageDump.InDumpSpace state obj = true ->
  Object.IsMethod obj = true ->
  let method := Object.AsMethod obj in
  (forall state1 w1,
     ImageDump.Callback T P obj state w = Done state1 w1 ->
     (execution_kind method <> Managed ->
      maps_absent method
      /\ Stats.register_map_bytes (ImageDump.stats_ state1)
         = Stats.register_map_bytes (ImageDump.stats_ state)
      /\ Stats.pc_mapping_table_bytes (ImageDump.stats_ state1)
         = Stats.pc_mapping_table_bytes (ImageDump.stats_ state)
      /\ Stats.dex_instruction_bytes (ImageDump.stats_ state1)
         = Stats.dex_instruction_bytes (ImageDump.stats_ state)
      /\ w1 = written w (summary_head P obj ++ stub_lines P method
                         ++ kind_line P method))
     /\ (execution_kind method = Managed -> register_map_present method))
  /\ (checked_contract method ->
      exists state1 w1, ImageDump.Callback T P obj state w = Done state1 w1)
  /\ (~ checked_contract method ->
      exists msg, ImageDump.Callback T P obj state w = Fatal msg w).
Proof.
  intros Hd Hin Hm method. split; [| split].
  - intros state1 w1 H.
    destruct (Callback_checks T P _ _ _ _ _ Hd Hin Hm H) as [Ha Hp].
    split; [| exact Hp].
    intros Hk. split; [apply Ha, Hk |].
    pose proof (Callback_not_managed_text T P _ _ _ _ _ Hin Hm Hk H) as Htext.
    apply (Callback_inside T P) in H; [| exact Hin]. destruct H as [-> _].
    unfold visit. rewrite Hm. fold method.
    destruct (execution_kind method); try congruence; simpl; auto.
  - intros Hc. apply Callback_runs; [exact Hin | intros _ _; exact Hc].
  - intros Hc. apply Callback_stops; assumption.
Qed.

(** C3, as the code has it.  A visit of a managed method of the dump space
    that runs to its end adds the byte length of its code item (the
    instruction-unit count times 2, computed in 32 bits) to
    [dex_instruction_bytes], the length of its register map to
    [register_map_bytes] and the length of its mapping table to
    [pc_mapping_table_bytes], each in [size_t] arithmetic; it leaves
    [managed_code_bytes] and the two other code totals as they were. *)
Theorem managed_method_contributions
    (T : Target) (P : Printf) (obj : Object.t) (state : ImageDump.t)
    (w : World) (state1 : ImageDump.t) (w1 : World) :
  ImageDump.InDumpSpace state obj = true ->
  Object.IsMethod obj = true ->
  execution_kind (Object.AsMethod obj) = Managed ->
  ImageDump.Callback T P obj state w = Done state1 w1 ->
  let method := Object.AsMethod obj in
  let s := ImageDump.stats_ state in
  let s1 := ImageDump.stats_ state1 in
  Stats.dex_instruction_bytes s1
  = size_add T (Stats.dex_instruction_bytes s)
      (uint32_mul (Method.insns_size_in_code_units_ method) 2)
  /\ (Method.insns_size_in_code_units_ method < 2 ^ 31 ->
      uint32_mul (Method.insns_size_in_code_units_ method) 2
      = Method.insns_size_in_code_units_ method * 2)
  /\ Stats.register_map_bytes s1
     = size_add T (Stats.register_map_bytes s) (Method.GetGcMapLength method)
  /\ Stats.pc_mapping_table_bytes s1
     = size_add T (Stats.pc_mapping_table_bytes s)
         (Method.GetMappingTableLength method)
  /\ Stats.managed_code_bytes s1 = Stats.managed_code_bytes s
  /\ Stats.managed_to_native_code_bytes s1
     = Stats.managed_to_native_code_bytes s
  /\ Stats.native_to_managed_code_bytes s1
     = Stats.native_to_managed_code_bytes s.
Proof.
  intros Hin Hm Hk H method s s1.
  apply (Callback_inside T P) in H; [| exact Hin]. destruct H as [Hs _].
  subst s1 s. rewrite Hs. unfold visit. rewrite Hm, Hk. simpl.
  repeat split.
  intros Hn. unfold uint32_mul, uint32_max. apply N.mod_small.
  change (2 ^ 32) with (2 ^ 31 * 2). lia.
Qed.

(** ** The category of an object *)

Inductive Category := CLASS | METHOD | FIELD | ARRAY | STRING | OBJECT.

(** The word a summary line shows for a category. *)
Definition category_tag (c : Category) : string :=
  match c with
  | CLASS => "CLASS "
  | METHOD => "METHOD "
  | FIELD => "FIELD "
  | ARRAY => "ARRAY "
  | STRING => "STRING "
  | OBJECT => "OBJECT"
  end.

(** [text], written for [obj], shows the category [c]: it starts with the
    address of the object, ": " and the word of [c]. *)
Definition shows_category (P : Printf) (obj : Object.t) (text : string)
    (c : Category) : Prop :=
  exists detail,
    text = fmt_p P (Object.this obj) ++ ": " ++ category_tag c ++ detail.

Lemma shows_category_unique (P : Printf) obj text c1 c2 :
  shows_category P obj text c1 -> shows_category P obj text c2 -> c1 = c2.
Proof.
  intros [d1 H1] [d2 H2]. rewrite H1 in H2.
  apply append_inv_head in H2. apply (append_inv_head ": ") in H2.
  destruct c1, c2; simpl in H2; try reflexivity; discriminate.
Qed.

Lemma Callback_category_shows (P : Printf) obj detail :
  let text := fmt_p P (Object.this obj) ++ ": "
              ++ ImageDump.Callback_category P obj ++ detail in
  (Object.IsClass obj = true -> shows_category P obj text CLASS)
  /\ (Object.IsClass obj = false -> Object.IsMethod obj = true ->
      shows_category P obj text METHOD)
  /\ (Object.IsClass obj = false -> Object.IsMethod obj = false ->
      Object.IsField obj = true -> shows_category P obj text FIELD)
  /\ (Object.IsClass obj = false -> Object.IsMethod obj = false ->
      Object.IsField obj = false -> Object.IsArrayInstance obj = true ->
      shows_category P obj text ARRAY)
  /\ (Object.IsClass obj = false -> Object.IsMethod obj = false ->
      Object.IsField obj = false -> Object.IsArrayInstance obj = false ->
      Klass.IsStringClass (Object.GetClass obj) = true ->
      shows_category P obj text STRING)
  /\ (Object.IsClass obj = false -> Object.IsMethod obj = false ->
      Object.IsField obj = false -> Object.IsArrayInstance obj = false ->
      Klass.IsStringClass (Object.GetClass obj) = false ->
      shows_category P obj text OBJECT).
Proof.
  unfold shows_category, ImageDump.Callback_category.
  repeat split; intros;
    repeat match goal with H : _ = _ |- _ => rewrite H; clear H end;
    rewrite ?append_assoc; eexists; reflexivity.
Qed.

(** C5.  The summary the callback writes for an object of the dump space
    shows exactly one category, and it is the first in the order class,
    method, field, array, string (the class of the object is the string
    class) whose test the object passes, a plain object when it passes
    none; tests further down the order are not consulted. *)
Theorem Callback_category_precedence
    (T : Target) (P : Printf) (obj : Object.t) (state : ImageDump.t)
    (w : World) (state1 : ImageDump.t) (w1 : World) :
  ImageDump.InDumpSpace state obj = true ->
  ImageDump.Callback T P obj state w = Done state1 w1 ->
  exists text,
    w1 = written w text
    /\ (exists c, shows_category P obj text c
                  /\ forall c', shows_category P obj text c' -> c' = c)
    /\ (Object.IsClass obj = true -> shows_category P obj text CLASS)
    /\ (Object.IsClass obj = false -> Object.IsMethod obj = true ->
        shows_category P obj text METHOD)
    /\ (Object.IsClass obj = false -> Object.IsMethod obj = false ->
        Object.IsField obj = true -> shows_category P obj text FIELD)
    /\ (Object.IsClass obj = false -> Object.IsMethod obj = false ->
        Object.IsField obj = false -> Object.IsArrayInstance obj = true ->
        shows_category P obj text ARRAY)
    /\ (Object.IsClass obj = false -> Object.IsMethod obj = false ->
        Object.IsField obj = false -> Object.IsArrayInstance obj = false ->
        Klass.IsStringClass (Object.GetClass obj) = true ->
        shows_category P obj text STRING)
    /\ (Object.IsClass obj = false -> Object.IsMethod obj = false ->
        Object.IsField obj = false -> Object.IsArrayInstance obj = false ->
        Klass.IsStringClass (Object.GetClass obj) = false ->
        shows_category P obj text OBJECT).
Proof.
  intros Hin H.
  apply (Callback_inside T P) in H; [| exact Hin].
  destruct H as (_ & detail & ->).
  eexists. split; [reflexivity |].
  pose proof (Callback_category_shows P obj detail) as Hs. cbv zeta in Hs.
  split; [| exact Hs].
  destruct Hs as (H1 & H2 & H3 & H4 & H5 & H6).
  assert (Hex : exists c,
             shows_category P obj
               (fmt_p P (Object.this obj) ++ ": "
                ++ ImageDump.Callback_category P obj ++ detail) c).
  { destruct (Object.IsClass obj); [eauto |].
    destruct (Object.IsMethod obj); [eauto |].
    destruct (Object.IsField obj); [eauto |].
    destruct (Object.IsArrayInstance obj); [eauto |].
    destruct (Klass.IsStringClass (Object.GetClass obj)); eauto. }
  destruct Hex as [c Hc]. exists c. split; [exact Hc |].
  intros c' Hc'. apply (shows_category_unique P obj _ _ _ Hc' Hc).
Qed.

(** ** The walk over the class data *)

Lemma bind_assoc {A B C} (m : M A) (f : A -> M B) (g : B -> M C) (w : World) :
  bind (bind m f) g w = bind m (fun a => bind (f a) g) w.
Proof. unfold bind. destruct (m w); reflexivity. Qed.

Lemma bind_ret_l {A B} (a : A) (k : A -> M B) (w : World) :
  bind (ret a) k w = k a w.
Proof. reflexivity. Qed.

Lemma bind_ext {A B} (m : M A) (f g : A -> M B) (w : World) :
  (forall a w1, f a w1 = g a w1) -> bind m f w = bind m g w.
Proof. intros H. unfold bind. destruct (m w); auto. Qed.

Lemma bind_cong_l {A B} (m m' : M A) (k : A -> M B) (w : World) :
  m w = m' w -> bind m k w = bind m' k w.
Proof. intros H. unfold bind. rewrite H. reflexivity. Qed.

Lemma for_each_app {A} (l1 l2 : list A) (body : A -> M unit) (w : World) :
  for_each (l1 ++ l2)%list body w
  = bind (for_each l1 body) (fun _ => for_each l2 body) w.
Proof.
  revert w. induction l1 as [| a l1 IH]; intros w; simpl; [reflexivity |].
  rewrite bind_assoc. apply bind_ext. intros _ w1. apply IH.
Qed.

(** The methods of a run with the ordinals the loops give them, from
    [method_index] on, and the ordinal the loops end with. *)
Fixpoint numbered (method_index : N) (members : list N) : list (N * N) :=
  match members with
  | [] => []
  | method_idx :: rest =>
      (method_index, method_idx) :: numbered (uint32_add method_index 1) rest
  end.

Fixpoint advance (method_index : N) (members : list N) : N :=
  match members with
  | [] => method_index
  | _ :: rest => advance (uint32_add method_index 1) rest
  end.

Lemma numbered_app (method_index : N) (l1 l2 : list N) :
  numbered method_index (l1 ++ l2)%list
  = (numbered method_index l1 ++ numbered (advance method_index l1) l2)%list.
Proof.
  revert method_index. induction l1 as [| m l1 IH]; intros method_index;
    simpl; [reflexivity |].
  rewrite IH. reflexivity.
Qed.

Lemma numbered_length (method_index : N) (l : list N) :
  List.length (numbered method_index l) = List.length l.
Proof.
  revert method_index. induction l as [| m l IH]; intros method_index; simpl;
    [reflexivity | rewrite IH; reflexivity].
Qed.

(** While the ordinals fit 32 bits they are the positions 0, 1, 2, ... *)
Lemma numbered_from (start : nat) (l : list N) :
  N.of_nat start + N.of_nat (List.length l) <= uint32_max ->
  numbered (N.of_nat start) l
  = combine (map N.of_nat (seq start (List.length l))) l.
Proof.
  revert start. induction l as [| m l IH]; intros start H; simpl;
    [reflexivity |].
  f_equal. destruct l as [| m' l]; [reflexivity |].
  replace (uint32_add (N.of_nat start) 1) with (N.of_nat (S start)).
  - apply IH. simpl List.length in *. lia.
  - unfold uint32_add. rewrite N.mod_small; simpl List.length in *; lia.
Qed.

Lemma numbered_indexed (l : list N) :
  N.of_nat (List.length l) <= uint32_max -> numbered 0 l = indexed l.
Proof.
  intros H. unfold indexed, indices. rewrite Nat2N.id.
  apply (numbered_from 0 l). simpl. exact H.
Qed.

Lemma indexed_length {A} (l : list A) :
  List.length (indexed l) = List.length l.
Proof.
  unfold indexed, indices.
  rewrite length_combine, length_map, length_seq, Nat2N.id. apply Nat.min_id.
Qed.

Section ClassWalk.
Import ClassDataItemIterator.
Variable P : Printf.
Variable oat_file : OatFile.t.
Variable oat_class : OatClass.t.
Variable dex_file : DexFile.t.

(** One rendered method: its ordinal and its member index. *)
Definition dump_entry (entry : N * N) : M unit :=
  let '(method_index, method_idx) := entry in
  OatDump.DumpOatMethod P method_index oat_file
    (OatClass.GetOatMethod oat_class method_index) dex_file method_idx.

Lemma DumpOatMethod_writes method_index oat_method method_idx :
  exists text, forall w,
    OatDump.DumpOatMethod P method_index oat_file oat_method dex_file
                          method_idx w
    = Done tt (written w text).
Proof.
  eexists. intros w. unfold OatDump.DumpOatMethod.
  repeat (rewrite bind_os_write; cbv beta).
  rewrite os_write_eq, !written_written. reflexivity.
Qed.

Lemma for_each_dump_entry_writes (entries : list (N * N)) :
  exists text, forall w,
    for_each entries dump_entry w = Done tt (written w text).
Proof.
  induction entries as [| [i m] rest [text IH]].
  - exists "". intros w. simpl. unfold ret. rewrite written_nil.
    reflexivity.
  - destruct (DumpOatMethod_writes i (OatClass.GetOatMethod oat_class i) m)
      as [t Ht].
    exists (t ++ text). intros w. simpl.
    rewrite (bind_Done_eq _ _ _ _ _ (Ht w)), IH, written_written.
    reflexivity.
Qed.

(** The nine lines [DumpOatMethod] writes for the method with the ordinal
    [method_index] and the member index [method_idx]. *)
Definition method_entry (method_index method_idx : N) : string :=
  let oat_method := OatClass.GetOatMethod oat_class method_index in
  TAB ++ fmt_d P (Z.of_N method_index) ++ ": "
  ++ DexFile.GetMethodName dex_file method_idx ++ " "
  ++ DexFile.GetMethodSignature dex_file method_idx
  ++ " (method_idx=" ++ fmt_d P (Z.of_N method_idx) ++ ")" ++ LF
  ++ TAB ++ TAB ++ "code: " ++ fmt_p P (OatMethod.GetCode oat_method)
  ++ " (offset=" ++ fmt_08x P (OatMethod.GetCodeOffset oat_method)
  ++ ")" ++ LF
  ++ TAB ++ TAB ++ "frame_size_in_bytes: "
  ++ fmt_zd P (OatMethod.GetFrameSizeInBytes oat_method) ++ LF
  ++ TAB ++ TAB ++ "core_spill_mask: "
  ++ fmt_08x P (OatMethod.GetCoreSpillMask oat_method) ++ LF
  ++ TAB ++ TAB ++ "fp_spill_mask: "
  ++ fmt_08x P (OatMethod.GetFpSpillMask oat_method) ++ LF
  ++ TAB ++ TAB ++ "mapping_table: "
  ++ fmt_p P (OatMethod.GetMappingTable oat_method)
  ++ " (offset=" ++ fmt_08x P (OatMethod.GetMappingTableOffset oat_method)
  ++ ")" ++ LF
  ++ TAB ++ TAB ++ "vmap_table: "
  ++ fmt_p P (OatMethod.GetVmapTable oat_method)
  ++ " (offset=" ++ fmt_08x P (OatMethod.GetVmapTableOffset oat_method)
  ++ ")" ++ LF
  ++ TAB ++ TAB ++ "gc_map: " ++ fmt_p P (OatMethod.GetGcMap oat_method)
  ++ " (offset=" ++ fmt_08x P (OatMethod.GetGcMapOffset oat_method)
  ++ ")" ++ LF
  ++ TAB ++ TAB ++ "invoke_stub: "
  ++ fmt_p P (OatMethod.GetInvokeStub oat_method)
  ++ " (offset=" ++ fmt_08x P (OatMethod.GetInvokeStubOffset oat_method)
  ++ ")" ++ LF.

(** The entries of methods given with their ordinals, one after the
    other. *)
Definition method_entries (entries : list (N * N)) : string :=
  concatenated
    (map (fun '(method_index, method_idx) =>
            method_entry method_index method_idx) entries).

Lemma dump_entry_text (method_index method_idx : N) (w : World) :
  dump_entry (method_index, method_idx) w
  = Done tt (written w (method_entry method_index method_idx)).
Proof.
  unfold dump_entry, OatDump.DumpOatMethod, method_entry.
  repeat (rewrite bind_os_write; cbv beta).
  rewrite os_write_eq, !written_written. f_equal. f_equal. same_text.
Qed.

Lemma for_each_dump_entry_text (entries : list (N * N)) :
  forall w,
    for_each entries dump_entry w
    = Done tt (written w (method_entries entries)).
Proof.
  unfold method_entries.
  induction entries as [| [i m] rest IH]; intros w.
  - simpl. unfold ret. rewrite written_nil. reflexivity.
  - cbn [for_each map concatenated fold_right].
    rewrite (bind_Done_eq _ _ _ _ _ (dump_entry_text i m w)), IH,
      written_written.
    reflexivity.
Qed.

Lemma skip_static_fields_unfold it :
  OatDump.skip_static_fields it
  = if HasNextStaticField it then OatDump.skip_static_fields (Next it)
    else it.
Proof.
  rewrite OatDump.skip_static_fields_equation_1.
  destruct (inspect (HasNextStaticField it)) as [[|] e]; simpl; rewrite e;
    reflexivity.
Qed.

Lemma skip_instance_fields_unfold it :
  OatDump.skip_instance_fields it
  = if HasNextInstanceField it then OatDump.skip_instance_fields (Next it)
    else it.
Proof.
  rewrite OatDump.skip_instance_fields_equation_1.
  destruct (inspect (HasNextInstanceField it)) as [[|] e]; simpl; rewrite e;
    reflexivity.
Qed.

Lemma dump_direct_methods_unfold it method_index :
  OatDump.dump_direct_methods P oat_file oat_class dex_file it method_index
  = if HasNextDirectMethod it then
      dump_entry (method_index, GetMemberIndex it) ;;
      OatDump.dump_direct_methods P oat_file oat_class dex_file (Next it)
                                  (uint32_add method_index 1)
    else ret (it, method_index).
Proof.
  rewrite OatDump.dump_direct_methods_equation_1.
  destruct (inspect (HasNextDirectMethod it)) as [[|] e]; simpl; rewrite e;
    reflexivity.
Qed.

Lemma dump_virtual_methods_unfold it method_index :
  OatDump.dump_virtual_methods P oat_file oat_class dex_file it method_index
  = if HasNextVirtualMethod it then
      dump_entry (method_index, GetMemberIndex it) ;;
      OatDump.dump_virtual_methods P oat_file oat_class dex_file (Next it)
                                   (uint32_add method_index 1)
    else ret (it, method_index).
Proof.
  rewrite OatDump.dump_virtual_methods_equation_1.
  destruct (inspect (HasNextVirtualMethod it)) as [[|] e]; simpl; rewrite e;
    reflexivity.
Qed.
End ClassWalk.

Lemma skipn_cons_nth {A} (j : nat) (l : list A) (d : A) :
  (j < List.length l)%nat -> skipn j l = nth j l d :: skipn (S j) l.
Proof.
  revert j. induction l as [| a l IH]; intros j H; simpl in H; [lia |].
  destruct j as [| j]; [reflexivity |].
  simpl. apply IH. lia.
Qed.

Section ClassWalkRuns.
Import ClassDataItemIterator.
Variable P : Printf.
Variable oat_file : OatFile.t.
Variable oat_class : OatClass.t.
Variable dex_file : DexFile.t.
Variable class_data : ClassData.t.

Abbreviation statics := (List.length (ClassData.static_fields class_data)).
Abbreviation instances := (List.length (ClassData.instance_fields class_data)).
Abbreviation directs := (List.length (ClassData.direct_methods class_data)).
Abbreviation virtuals := (List.length (ClassData.virtual_methods class_data)).

(** The cursor at [pos]. *)
Definition cursor (pos : nat) : ClassDataItemIterator.t :=
  {| data := class_data; pos_ := pos |}.

Lemma skip_static_fields_run (k pos : nat) :
  (pos + k = statics)%nat ->
  OatDump.skip_static_fields (cursor pos) = cursor statics.
Proof.
  revert pos. induction k as [| k IH]; intros pos H;
    rewrite skip_static_fields_unfold; unfold HasNextStaticField,
    EndOfStaticFieldsPos; simpl.
  - replace pos with statics by lia. rewrite Nat.ltb_irrefl. reflexivity.
  - replace (pos <? statics)%nat with true
      by (symmetry; apply Nat.ltb_lt; lia).
    apply (IH (S pos)). lia.
Qed.

Lemma skip_instance_fields_run (k pos : nat) :
  (statics <= pos)%nat -> (pos + k = statics + instances)%nat ->
  OatDump.skip_instance_fields (cursor pos) = cursor (statics + instances).
Proof.
  revert pos. induction k as [| k IH]; intros pos Hs H;
    rewrite skip_instance_fields_unfold; unfold HasNextInstanceField,
    EndOfInstanceFieldsPos, EndOfStaticFieldsPos; simpl.
  - replace pos with (statics + instances)%nat by lia.
    rewrite Nat.ltb_irrefl, andb_false_r. reflexivity.
  - replace (statics <=? pos)%nat with true
      by (symmetry; apply Nat.leb_le; lia).
    replace (pos <? statics + instances)%nat with true
      by (symmetry; apply Nat.ltb_lt; lia).
    apply (IH (S pos)); lia.
Qed.

Lemma GetMemberIndex_direct (pos : nat) :
  (statics + instances <= pos)%nat ->
  (pos < statics + instances + directs)%nat ->
  GetMemberIndex (cursor pos)
  = nth (pos - (statics + instances))
        (ClassData.direct_methods class_data) 0.
Proof.
  intros H1 H2. unfold GetMemberIndex, entries. simpl.
  rewrite app_nth2 by lia. rewrite app_nth2 by lia.
  rewrite app_nth1 by lia. f_equal. lia.
Qed.

Lemma GetMemberIndex_virtual (pos : nat) :
  (statics + instances + directs <= pos)%nat ->
  GetMemberIndex (cursor pos)
  = nth (pos - (statics + instances + directs))
        (ClassData.virtual_methods class_data) 0.
Proof.
  intros H1. unfold GetMemberIndex, entries. simpl.
  rewrite app_nth2 by lia. rewrite app_nth2 by lia.
  rewrite app_nth2 by lia. f_equal. lia.
Qed.

Lemma dump_direct_methods_run (k pos : nat) :
  forall method_index w,
    (statics + instances <= pos)%nat ->
    (pos + k = statics + instances + directs)%nat ->
    let members :=
      skipn (pos - (statics + instances))
            (ClassData.direct_methods class_data) in
    OatDump.dump_direct_methods P oat_file oat_class dex_file
                                (cursor pos) method_index w
    = bind (for_each (numbered method_index members)
                     (dump_entry P oat_file oat_class dex_file))
           (fun _ => ret (cursor (statics + instances + directs),
                          advance method_index members)) w.
Proof.
  revert pos. induction k as [| k IH]; intros pos method_index w Hs H members;
    rewrite dump_direct_methods_unfold; unfold HasNextDirectMethod,
    EndOfDirectMethodsPos, EndOfInstanceFieldsPos, EndOfStaticFieldsPos;
    simpl; subst members.
  - replace pos with (statics + instances + directs)%nat by lia.
    rewrite Nat.ltb_irrefl, andb_false_r.
    rewrite skipn_all2 by lia. reflexivity.
  - replace (statics + instances <=? pos)%nat with true
      by (symmetry; apply Nat.leb_le; lia).
    replace (pos <? statics + instances + directs)%nat with true
      by (symmetry; apply Nat.ltb_lt; lia).
    simpl andb. cbv iota.
    rewrite (skipn_cons_nth _ _ 0) by lia.
    rewrite GetMemberIndex_direct by lia.
    cbn [numbered advance for_each]. rewrite bind_assoc.
    apply bind_ext. intros _ w1.
    change (Next (cursor pos)) with (cursor (S pos)).
    rewrite (IH (S pos)) by lia.
    replace (S pos - (statics + instances))%nat
      with (S (pos - (statics + instances))) by lia.
    reflexivity.
Qed.

Lemma dump_virtual_methods_run (k pos : nat) :
  forall method_index w,
    (statics + instances + directs <= pos)%nat ->
    (pos + k = statics + instances + directs + virtuals)%nat ->
    let members :=
      skipn (pos - (statics + instances + directs))
            (ClassData.virtual_methods class_data) in
    OatDump.dump_virtual_methods P oat_file oat_class dex_file
                                 (cursor pos) method_index w
    = bind (for_each (numbered method_index members)
                     (dump_entry P oat_file oat_class dex_file))
           (fun _ => ret (cursor (statics + instances + directs + virtuals),
                          advance method_index members)) w.
Proof.
  revert pos. induction k as [| k IH]; intros pos method_index w Hs H members;
    rewrite dump_virtual_methods_unfold; unfold HasNextVirtualMethod,
    EndOfVirtualMethodsPos, EndOfDirectMethodsPos, EndOfInstanceFieldsPos,
    EndOfStaticFieldsPos; simpl; subst members.
  - replace pos with (statics + instances + directs + virtuals)%nat by lia.
    rewrite Nat.ltb_irrefl, andb_false_r.
    rewrite skipn_all2 by lia. reflexivity.
  - replace (statics + instances + directs <=? pos)%nat with true
      by (symmetry; apply Nat.leb_le; lia).
    replace (pos <? statics + instances + directs + virtuals)%nat with true
      by (symmetry; apply Nat.ltb_lt; lia).
    simpl andb. cbv iota.
    rewrite (skipn_cons_nth _ _ 0) by lia.
    rewrite GetMemberIndex_virtual by lia.
    cbn [numbered advance for_each]. rewrite bind_assoc.
    apply bind_ext. intros _ w1.
    change (Next (cursor pos)) with (cursor (S pos)).
    rewrite (IH (S pos)) by lia.
    replace (S pos - (statics + instances + directs))%nat
      with (S (pos - (statics + instances + directs))) by lia.
    reflexivity.
Qed.

(** The walk renders the direct methods and then the virtual methods, and
    ends with the cursor behind the last entry. *)
Lemma DumpOatClass_walk_run (w : World) :
  let methods := (ClassData.direct_methods class_data
                  ++ ClassData.virtual_methods class_data)%list in
  OatDump.DumpOatClass_walk P oat_file oat_class dex_file class_data w
  = bind (for_each (numbered 0 methods)
                   (dump_entry P oat_file oat_class dex_file))
         (fun _ => ret (cursor (statics + instances + directs + virtuals),
                        advance 0 methods)) w.
Proof.
  intros methods. unfold OatDump.DumpOatClass_walk.
  change (make class_data) with (cursor 0).
  rewrite (skip_static_fields_run statics 0) by lia.
  rewrite (skip_instance_fields_run instances statics) by lia.
  cbv zeta.
  rewrite (bind_ext _ _
             (fun r => OatDump.dump_virtual_methods P oat_file oat_class
                         dex_file (fst r) (snd r)))
    by (intros [it method_index] w1; reflexivity).
  rewrite (bind_cong_l _ _ _ _
             (dump_direct_methods_run directs (statics + instances) 0 w
                ltac:(lia) ltac:(lia))).
  rewrite Nat.sub_diag. simpl skipn. rewrite bind_assoc.
  subst methods. rewrite numbered_app.
  rewrite (bind_cong_l _ _ _ _ (for_each_app _ _ _ w)), bind_assoc.
  apply bind_ext. intros _ w1. rewrite bind_ret_l. simpl fst. simpl snd.
  rewrite (dump_virtual_methods_run virtuals (statics + instances + directs))
    by lia.
  rewrite Nat.sub_diag. simpl skipn.
  apply bind_ext. intros _ w2. f_equal. f_equal.
  clear. generalize 0 as method_index.
  induction (ClassData.direct_methods class_data) as [| m l IH];
    intros method_index; simpl; [reflexivity | apply IH].
Qed.
End ClassWalkRuns.

Lemma combine_fst {A B} (l : list A) :
  forall (l' : list B),
    List.length l = List.length l' -> map fst (combine l l') = l.
Proof.
  induction l as [| a l IH]; intros [| b l'] H; simpl in *;
    try discriminate; [reflexivity |].
  rewrite IH by lia. reflexivity.
Qed.

Lemma combine_snd {A B} (l : list A) :
  forall (l' : list B),
    List.length l = List.length l' -> map snd (combine l l') = l'.
Proof.
  induction l as [| a l IH]; intros [| b l'] H; simpl in *;
    try discriminate; [reflexivity |].
  rewrite IH by lia. reflexivity.
Qed.

Lemma indices_length (n : N) : List.length (indices n) = N.to_nat n.
Proof. unfold indices. rewrite length_map, length_seq. reflexivity. Qed.

(** C4.  For a class with class data whose methods can be numbered in 32
    bits, what [DumpOatClass] writes is the entries of the direct methods
    followed by those of the virtual methods, one after the other and
    nothing else: nothing for the static and the instance fields.  The
    entry of the k-th of these methods (from 0, counted anew for the class)
    is the nine lines of [DumpOatMethod] with the ordinal k, the oat method
    of that ordinal and the method's own member index; the ordinals are
    0, 1, ... and there are as many entries as the class data has direct
    and virtual methods together.  The walk ends with the cursor behind the
    last entry, so the final assertion holds and the dump of the class runs
    to its end. *)
Theorem DumpOatClass_renders_direct_then_virtual
    (T : Target) (P : Printf) (oat_file : OatFile.t) (oat_class : OatClass.t)
    (dex_file : DexFile.t) (class_def : ClassDef.t)
    (class_data : ClassData.t) (w : World) :
  DexFile.GetClassData dex_file class_def = Some class_data ->
  N.of_nat (List.length (ClassData.direct_methods class_data)
            + List.length (ClassData.virtual_methods class_data))
  <= uint32_max ->
  let methods := (ClassData.direct_methods class_data
                  ++ ClassData.virtual_methods class_data)%list in
  OatDump.DumpOatClass T P oat_file oat_class dex_file class_def w
  = Done tt (written w (method_entries P oat_class dex_file
                                       (indexed methods)))
  /\ map fst (indexed methods)
     = indices (N.of_nat
                  (List.length (ClassData.direct_methods class_data)
                   + List.length (ClassData.virtual_methods class_data)))
  /\ map snd (indexed methods) = methods
  /\ List.length (indexed methods)
     = (List.length (ClassData.direct_methods class_data)
        + List.length (ClassData.virtual_methods class_data))%nat
  /\ (exists it method_index,
        OatDump.DumpOatClass_walk P oat_file oat_class dex_file class_data w
        = Done (it, method_index)
               (written w (method_entries P oat_class dex_file
                                          (indexed methods)))
        /\ ClassDataItemIterator.remaining it = 0%nat
        /\ ClassDataItemIterator.HasNext it = false).
Proof.
  intros Hcd Hn methods.
  assert (Hcount : List.length methods
                   = (List.length (ClassData.direct_methods class_data)
                      + List.length (ClassData.virtual_methods class_data))%nat)
    by (subst methods; apply length_app).
  assert (Hlen : N.of_nat (List.length methods) <= uint32_max)
    by (rewrite Hcount; exact Hn).
  pose proof (DumpOatClass_walk_run P oat_file oat_class dex_file class_data w)
    as Hwalk.
  cbv zeta in Hwalk. fold methods in Hwalk.
  rewrite (numbered_indexed methods Hlen) in Hwalk.
  rewrite (bind_Done_eq _ _ _ _ _
             (for_each_dump_entry_text P oat_file oat_class dex_file
                (indexed methods) w)) in Hwalk.
  unfold ret in Hwalk.
  assert (Hend : forall class_data pos,
             pos = ClassDataItemIterator.EndOfVirtualMethodsPos
                     (cursor class_data pos) ->
             ClassDataItemIterator.remaining (cursor class_data pos) = 0%nat
             /\ ClassDataItemIterator.HasNext (cursor class_data pos) = false).
  { intros cd pos Hpos. unfold ClassDataItemIterator.remaining,
      ClassDataItemIterator.HasNext. rewrite <- Hpos. simpl.
    rewrite Nat.sub_diag, Nat.ltb_irrefl. auto. }
  match type of Hwalk with
  | _ = Done (cursor _ ?pos, _) _ =>
      destruct (Hend class_data pos eq_refl) as [Hrem Hnext]
  end.
  split; [| split; [| split; [| split]]].
  - unfold OatDump.DumpOatClass. rewrite Hcd.
    rewrite (bind_Done_eq _ _ _ _ _ Hwalk). rewrite Hnext. simpl negb.
    apply DCHECK_true.
  - unfold indexed. rewrite combine_fst.
    + rewrite Hcount. reflexivity.
    + rewrite indices_length, Nat2N.id. reflexivity.
  - unfold indexed. apply combine_snd.
    rewrite indices_length, Nat2N.id. reflexivity.
  - rewrite indexed_length. exact Hcount.
  - eexists. eexists. split; [exact Hwalk |]. split; assumption.
Qed.

(** C9.  For a class definition without class data, [DumpOatClass] returns
    at once: it writes nothing and fails no check.  The loop of
    [DumpOatDexFile] has then written the entry of the class alone, with no
    method after it, and goes on with the next class definition. *)
Theorem DumpOatClass_empty_class
    (T : Target) (P : Printf) (oat_file : OatFile.t)
    (oat_dex_file : OatDexFile.t) (dex_file : DexFile.t)
    (class_def_index : N) (oat_class : OatClass.t)
    (rest : list N) (w : World) :
  let class_def := DexFile.GetClassDef dex_file class_def_index in
  let entry :=
    fmt_zd P class_def_index ++ ": "
    ++ DexFile.GetClassDescriptor dex_file class_def
    ++ " (type_idx=" ++ fmt_d P (Z.of_N (ClassDef.class_idx_ class_def))
    ++ ") (" ++ OatClass.GetStatus oat_class ++ ")" ++ LF in
  DexFile.GetClassData dex_file class_def = None ->
  OatDexFile.GetOatClass oat_dex_file class_def_index = Some oat_class ->
  OatDump.DumpOatClass T P oat_file oat_class dex_file class_def w = Done tt w
  /\ OatDump.DumpOatDexFile_class T P oat_file oat_dex_file dex_file
       class_def_index w
     = Done tt (written w entry)
  /\ for_each (class_def_index :: rest)
       (OatDump.DumpOatDexFile_class T P oat_file oat_dex_file dex_file) w
     = for_each rest
         (OatDump.DumpOatDexFile_class T P oat_file oat_dex_file dex_file)
         (written w entry).
Proof.
  intros class_def entry Hcd Hoc.
  assert (H1 : forall w0,
             OatDump.DumpOatClass T P oat_file oat_class dex_file class_def w0
             = Done tt w0).
  { intros w0. unfold OatDump.DumpOatClass. rewrite Hcd. reflexivity. }
  assert (H2 : OatDump.DumpOatDexFile_class T P oat_file oat_dex_file dex_file
                 class_def_index w = Done tt (written w entry)).
  { unfold OatDump.DumpOatDexFile_class. rewrite Hoc. simpl CHECK_NOTNULL.
    rewrite bind_ret_l. repeat (rewrite bind_os_write; cbv beta).
    fold class_def. rewrite H1, !written_written. subst entry.
    rewrite !append_assoc. reflexivity. }
  split; [apply H1 | split; [exact H2 |]].
  simpl. rewrite (bind_Done_eq _ _ _ _ _ H2). reflexivity.
Qed.

(** ** Output and lookups only grow *)

(** [w1] has the output and the lookups of [w], and possibly more after
    them. *)
Definition extends (w w1 : World) : Prop :=
  (exists text, os w1 = os w ++ text)
  /\ (exists later, calls w1 = (calls w ++ later)%list).

Definition append_only {A} (m : M A) : Prop :=
  forall w, extends w (world_of (m w)).

Lemma extends_refl (w : World) : extends w w.
Proof.
  split; [exists ""; symmetry; apply append_nil_r
         | exists []; symmetry; apply app_nil_r].
Qed.

Lemma extends_trans (w w1 w2 : World) :
  extends w w1 -> extends w1 w2 -> extends w w2.
Proof.
  intros [[t1 H1] [c1 G1]] [[t2 H2] [c2 G2]]. split.
  - exists (t1 ++ t2). rewrite H2, H1. apply append_assoc.
  - exists (c1 ++ c2)%list. rewrite G2, G1. symmetry. apply app_assoc.
Qed.

Lemma append_only_ret {A} (a : A) : append_only (ret a).
Proof. intros w. apply extends_refl. Qed.

Lemma append_only_bind {A B} (m : M A) (k : A -> M B) :
  append_only m -> (forall a, append_only (k a)) -> append_only (bind m k).
Proof.
  intros Hm Hk w. specialize (Hm w). unfold bind.
  destruct (m w) as [a w1 | msg w1 | c w1]; simpl in *; try exact Hm.
  apply (extends_trans _ _ _ Hm), Hk.
Qed.

Lemma append_only_os_write (text : string) : append_only (os_write text).
Proof.
  intros w. split; simpl; [exists text; reflexivity |].
  exists []. symmetry. apply app_nil_r.
Qed.

Lemma append_only_call (c : Call) : append_only (call c).
Proof.
  intros w. split; simpl; [| exists [c]; reflexivity].
  exists "". symmetry. apply append_nil_r.
Qed.

Lemma append_only_CHECK (cond : bool) (what : string) :
  append_only (CHECK cond what).
Proof. intros w. unfold CHECK. destruct cond; apply extends_refl. Qed.

Lemma append_only_DCHECK (T : Target) (cond : bool) (what : string) :
  append_only (DCHECK T cond what).
Proof.
  unfold DCHECK. destruct (kIsDebugBuild T);
    [apply append_only_CHECK | apply append_only_ret].
Qed.

Lemma append_only_CHECK_NOTNULL {A} (p : option A) (what : string) :
  append_only (CHECK_NOTNULL p what).
Proof. intros w. destruct p; apply extends_refl. Qed.

Lemma append_only_for_each {A} (l : list A) (body : A -> M unit) :
  (forall a, append_only (body a)) -> append_only (for_each l body).
Proof.
  intros H. induction l as [| a l IH]; simpl.
  - apply append_only_ret.
  - apply append_only_bind; [apply H | intros _; exact IH].
Qed.

Create HintDb append_only.
#[local] Hint Resolve append_only_ret append_only_os_write append_only_call
  append_only_CHECK append_only_DCHECK append_only_CHECK_NOTNULL
  : append_only.

Ltac append_only_steps :=
  repeat first
    [ apply append_only_bind; [| intro]
    | apply append_only_for_each; intro
    | solve [auto with append_only] ].

Section AppendOnly.
Import ClassDataItemIterator.
Variable T : Target.
Variable P : Printf.
Variable E : Env.

Lemma append_only_DumpOatMethod method_index oat_file oat_method dex_file
    method_idx :
  append_only (OatDump.DumpOatMethod P method_index oat_file oat_method
                                     dex_file method_idx).
Proof. unfold OatDump.DumpOatMethod. append_only_steps. Qed.

Lemma append_only_dump_direct_methods oat_file oat_class dex_file (n : nat) :
  forall it method_index,
    (remaining it <= n)%nat ->
    append_only (OatDump.dump_direct_methods P oat_file oat_class dex_file
                                             it method_index).
Proof.
  induction n as [| n IH]; intros it method_index Hn;
    rewrite dump_direct_methods_unfold;
    destruct (HasNextDirectMethod it) eqn:Hd; try apply append_only_ret;
    pose proof (remaining_Next it (HasNextDirectMethod_HasNext it Hd)).
  - lia.
  - apply append_only_bind; [apply append_only_DumpOatMethod |].
    intros _. apply IH. lia.
Qed.

Lemma append_only_dump_virtual_methods oat_file oat_class dex_file (n : nat) :
  forall it method_index,
    (remaining it <= n)%nat ->
    append_only (OatDump.dump_virtual_methods P oat_file oat_class dex_file
                                              it method_index).
Proof.
  induction n as [| n IH]; intros it method_index Hn;
    rewrite dump_virtual_methods_unfold;
    destruct (HasNextVirtualMethod it) eqn:Hd; try apply append_only_ret;
    pose proof (remaining_Next it (HasNextVirtualMethod_HasNext it Hd)).
  - lia.
  - apply append_only_bind; [apply append_only_DumpOatMethod |].
    intros _. apply IH. lia.
Qed.

Lemma append_only_DumpOatClass oat_file oat_class dex_file class_def :
  append_only (OatDump.DumpOatClass T P oat_file oat_class dex_file class_def).
Proof.
  unfold OatDump.DumpOatClass, OatDump.DumpOatClass_walk.
  destruct (DexFile.GetClassData dex_file class_def); [| apply append_only_ret].
  apply append_only_bind.
  - apply append_only_bind.
    + eapply append_only_dump_direct_methods. apply Nat.le_refl.
    + intros [it method_index].
      eapply append_only_dump_virtual_methods. apply Nat.le_refl.
  - intros [it method_index]. apply append_only_DCHECK.
Qed.

Lemma append_only_DumpOatDexFile_class oat_file oat_dex_file dex_file
    class_def_index :
  append_only (OatDump.DumpOatDexFile_class T P oat_file oat_dex_file
                                            dex_file class_def_index).
Proof.
  unfold OatDump.DumpOatDexFile_class. append_only_steps.
  apply append_only_DumpOatClass.
Qed.

Lemma append_only_OatDump_Dump oat_filename host_prefix oat_file :
  append_only (OatDump.Dump T P E oat_filename host_prefix oat_file).
Proof.
  unfold OatDump.Dump, OatDump.DumpOatDexFile. append_only_steps.
  - destruct (negb (empty host_prefix)); append_only_steps.
  - destruct (open_dex_file E _); append_only_steps.
    apply append_only_DumpOatClass.
Qed.
End AppendOnly.

(** ** The location of the oat file and of the dex files *)

(** C8.  With a host prefix that is not empty, the oat file an image names
    is looked up at the prefix followed by the stored location, and a dex
    file is opened at the prefix followed by its stored location: that
    lookup is the first one made, and its answer at that one string is all
    the dump uses of the lookup. *)
Theorem lookups_use_host_prefix
    (T : Target) (P : Printf) (E : Env) (host_prefix : string) :
  empty host_prefix = false ->
  (forall runtime image_header w,
     let stored :=
       Object.ToModifiedUtf8
         (ImageHeader.GetImageRoot image_header (kOatLocation T)) in
     (exists later,
        calls (world_of (ImageDump.Dump_oat_location T P E host_prefix
                           runtime image_header w))
        = (calls w
           ++ FindOatFileFromOatLocation (host_prefix ++ stored) :: later)%list)
     /\ (forall runtime',
           Runtime.find_oat_file runtime' (host_prefix ++ stored)
           = Runtime.find_oat_file runtime (host_prefix ++ stored) ->
           ImageDump.Dump_oat_location T P E host_prefix runtime'
                                       image_header w
           = ImageDump.Dump_oat_location T P E host_prefix runtime
                                         image_header w))
  /\ (forall oat_file oat_dex_file w,
        let stored := OatDexFile.GetDexFileLocation oat_dex_file in
        (exists later,
           calls (world_of (OatDump.DumpOatDexFile T P E host_prefix oat_file
                              oat_dex_file w))
           = (calls w ++ DexFile_Open (host_prefix ++ stored) :: later)%list)
        /\ (forall E',
              open_dex_file E' (host_prefix ++ stored)
              = open_dex_file E (host_prefix ++ stored) ->
              OatDump.DumpOatDexFile T P E' host_prefix oat_file
                                     oat_dex_file w
              = OatDump.DumpOatDexFile T P E host_prefix oat_file
                                       oat_dex_file w)).
Proof.
  intros Hp. split.
  - intros runtime image_header w stored.
    assert (Hrun : forall rt,
               ImageDump.Dump_oat_location T P E host_prefix rt image_header w
               = match Runtime.find_oat_file rt (host_prefix ++ stored) with
                 | None => os_write ("NOT FOUND" ++ LF)
                 | Some oat_file =>
                     os_write LF ;;
                     OatDump.Dump T P E (host_prefix ++ stored) host_prefix
                                  oat_file
                 end
                   (called
                      (written w
                         (("OAT LOCATION:" ++ LF) ++ stored
                          ++ (" (" ++ (host_prefix ++ stored) ++ ")") ++ LF))
                      (FindOatFileFromOatLocation (host_prefix ++ stored)))).
    { intros rt. unfold ImageDump.Dump_oat_location. fold stored.
      rewrite Hp. simpl negb. cbv iota.
      rewrite !bind_os_write, bind_assoc, bind_os_write, bind_ret_l,
        bind_os_write, bind_call, !written_written.
      reflexivity. }
    split.
    + rewrite Hrun.
      destruct (Runtime.find_oat_file runtime (host_prefix ++ stored))
        as [oat_file |].
      * rewrite bind_os_write.
        match goal with
        | |- context [OatDump.Dump T P E ?f ?h ?o ?w0] =>
            destruct (append_only_OatDump_Dump T P E f h o w0)
              as [_ [later ->]]
        end.
        exists later. simpl. rewrite <- app_assoc. reflexivity.
      * exists []. reflexivity.
    + intros runtime' H. rewrite !Hrun, H. reflexivity.
  - intros oat_file oat_dex_file w stored.
    assert (Hrun : forall E0,
               OatDump.DumpOatDexFile T P E0 host_prefix oat_file
                                      oat_dex_file w
               = match open_dex_file E0 (host_prefix ++ stored) with
                 | None => os_write ("NOT FOUND" ++ LF ++ LF)
                 | Some dex_file =>
                     for_each (indices (DexFile.NumClassDefs dex_file))
                       (OatDump.DumpOatDexFile_class T P oat_file
                                                     oat_dex_file dex_file)
                 end
                   (called
                      (written w
                         (("OAT DEX FILE:" ++ LF) ++ ("location: " ++ stored)
                          ++ (" (" ++ (host_prefix ++ stored) ++ ")") ++ LF
                          ++ "checksum: "
                          ++ fmt_08x P
                               (OatDexFile.GetDexFileLocationChecksum
                                  oat_dex_file)
                          ++ LF))
                      (DexFile_Open (host_prefix ++ stored)))).
    { intros E0. unfold OatDump.DumpOatDexFile. fold stored.
      rewrite Hp. simpl negb. cbv iota.
      rewrite !bind_os_write, bind_assoc, bind_os_write, bind_ret_l,
        !bind_os_write, bind_call, !written_written.
      reflexivity. }
    split.
    + rewrite Hrun.
      destruct (open_dex_file E (host_prefix ++ stored)) as [dex_file |].
      * match goal with
        | |- context [for_each ?l ?body ?w0] =>
            destruct (append_only_for_each l body
                        (append_only_DumpOatDexFile_class T P oat_file
                           oat_dex_file dex_file) w0)
              as [_ [later ->]]
        end.
        exists later. simpl. rewrite <- app_assoc. reflexivity.
      * exists []. reflexivity.
    + intros E' H. rewrite !Hrun, H. reflexivity.
Qed.

(** ** A missing oat file *)

Section MissingOatFile.
Variable T : Target.
Variable P : Printf.
Variable E : Env.

(** Arguments that are accepted leave the process as it was. *)
Lemma parse_arguments_Done argv :
  forall a w a1 w1,
    parse_arguments E argv a w = Done a1 w1 -> w1 = w.
Proof.
  induction argv as [| option rest IH]; intros a w a1 w1 H; simpl in H.
  - inversion H. reflexivity.
  - repeat match type of H with
           | (if ?b then _ else _) _ = _ => destruct b
           end;
      try (apply IH in H; exact H); discriminate.
Qed.

(** The location part of [Dump] when the lookup finds nothing. *)
Lemma Dump_oat_location_not_found host_prefix runtime image_header w :
  let stored :=
    Object.ToModifiedUtf8
      (ImageHeader.GetImageRoot image_header (kOatLocation T)) in
  let location :=
    if empty host_prefix then stored else host_prefix ++ stored in
  let report :=
    "OAT LOCATION:" ++ LF ++ stored
    ++ (if empty host_prefix then "" else " (" ++ location ++ ")")
    ++ LF ++ "NOT FOUND" ++ LF in
  Runtime.find_oat_file runtime location = None ->
  ImageDump.Dump_oat_location T P E host_prefix runtime image_header w
  = Done tt (called (written w report)
                    (FindOatFileFromOatLocation location)).
Proof.
  intros stored location report Hnone.
  unfold ImageDump.Dump_oat_location. fold stored.
  subst report location. destruct (empty host_prefix); simpl negb; cbv iota.
  - rewrite !bind_os_write, bind_ret_l, bind_os_write, bind_call, Hnone.
    rewrite os_write_eq. unfold called, written. same_text.
  - rewrite !bind_os_write, bind_assoc, bind_os_write, bind_ret_l,
      bind_os_write, bind_call, Hnone.
    rewrite os_write_eq. unfold called, written. same_text.
Qed.
End MissingOatFile.

(** C7.  [oatdump] is run on an image: the runtime has started, the image
    header is valid, and the heap part of the dump has run to its end with
    the output [os w1].  When the lookup of the oat file the image names
    finds nothing, the dump writes the location and the line "NOT FOUND"
    after that output and returns: the output still ends its heap part with
    the statistics block [Stats::Dump] rendered, and [oatdump] returns
    [EXIT_SUCCESS]. *)
Theorem missing_oat_file_is_reported
    (T : Target) (P : Printf) (E : Env) (argv : list string)
    (a : Arguments_) (image_file : string) (runtime : Runtime.t)
    (image_space : Space.t) (image_header : ImageHeader.t)
    (w w0 w1 : World) :
  argv <> [] ->
  parse_arguments E argv no_arguments w = Done a w0 ->
  image_filename a = Some image_file ->
  oat_filename a = None ->
  create_runtime E (runtime_options a) = Some runtime ->
  Runtime.image_space runtime = Some (image_space, image_header) ->
  ImageHeader.IsValid image_header = true ->
  ImageDump.Dump_heap T P E image_file runtime image_space image_header w0
  = Done tt w1 ->
  let stored :=
    Object.ToModifiedUtf8
      (ImageHeader.GetImageRoot image_header (kOatLocation T)) in
  let location :=
    if empty (host_prefix a) then stored else host_prefix a ++ stored in
  Runtime.find_oat_file runtime location = None ->
  let report :=
    "OAT LOCATION:" ++ LF ++ stored
    ++ (if empty (host_prefix a) then "" else " (" ++ location ++ ")")
    ++ LF ++ "NOT FOUND" ++ LF in
  oatdump T P E argv w
  = Done EXIT_SUCCESS
      (called (written w1 report) (FindOatFileFromOatLocation location))
  /\ exit_status (oatdump T P E argv w) = Some EXIT_SUCCESS
  /\ contains (output (oatdump T P E argv w)) "NOT FOUND"
  /\ exists state w2 stats_block,
       Stats.Dump T P (ImageDump.finalize T E image_file
                                          (ImageDump.stats_ state)) w2
       = Done tt (written w2 stats_block)
       /\ output (oatdump T P E argv w)
          = os w2 ++ stats_block ++ LF ++ report.
Proof.
  intros Hargv Hparse Himage Hoat Hrt Hspace Hvalid Hheap stored location
    Hnone report.
  pose proof (parse_arguments_Done E _ _ _ _ _ Hparse) as ->.
  assert (Hrun : oatdump T P E argv w
                 = Done EXIT_SUCCESS
                     (called (written w1 report)
                             (FindOatFileFromOatLocation location))).
  { unfold oatdump. destruct argv as [| arg rest]; [congruence |].
    simpl List.length. simpl Nat.eqb. cbv iota. rewrite bind_ret_l.
    rewrite (bind_Done_eq _ _ _ _ _ Hparse).
    rewrite Himage, Hoat, Hrt, Hspace. simpl CHECK_NOTNULL.
    rewrite bind_ret_l, Hvalid. change (negb true) with false. cbv iota.
    unfold ImageDump.Dump. rewrite bind_assoc.
    rewrite (bind_Done_eq _ _ _ _ _ Hheap).
    rewrite (bind_Done_eq _ _ _ _ _
               (Dump_oat_location_not_found T P E (host_prefix a) runtime
                  image_header w1 Hnone)).
    reflexivity. }
  rewrite Hrun. split; [reflexivity |]. split; [reflexivity |]. split.
  - exists (os w1 ++ "OAT LOCATION:" ++ LF ++ stored
            ++ (if empty (host_prefix a) then "" else " (" ++ location ++ ")")
            ++ LF), LF.
    simpl output. subst report. same_text.
  - destruct (Dump_heap_ends_with_stats T P E _ _ _ _ _ _ Hheap)
      as (state & _ & _ & w2 & stats_block & _ & Hstats & -> & _).
    exists state, w2, stats_block. split; [exact Hstats |].
    simpl output. same_text.
Qed.

(* ================================================================== *)
(** * A sample run

    An oat file with one dex file and two classes (a marker interface
    without class data; a class with one static field, one native direct
    method and one managed virtual method), and an image over the heap of
    [Sample] whose oat file cannot be found. *)

Module SampleRun.
Import Sample.

Definition oat_method (code : N) : OatMethod.t :=
  {| OatMethod.GetCode := code; OatMethod.GetCodeOffset := code - 4096;
     OatMethod.GetFrameSizeInBytes := 32;
     OatMethod.GetCoreSpillMask := 16; OatMethod.GetFpSpillMask := 0;
     OatMethod.GetMappingTable := 0; OatMethod.GetMappingTableOffset := 0;
     OatMethod.GetVmapTable := 0; OatMethod.GetVmapTableOffset := 0;
     OatMethod.GetGcMap := 0; OatMethod.GetGcMapOffset := 0;
     OatMethod.GetInvokeStub := code + 256;
     OatMethod.GetInvokeStubOffset := code - 3840 |}.

Definition oat_class : OatClass.t :=
  {| OatClass.GetStatus := "StatusVerified";
     OatClass.GetOatMethod := fun method_index =>
       oat_method (8192 + 4096 * method_index) |}.

(** One static field, the direct method 7 and the virtual method 9. *)
Definition foo_class_data : ClassData.t :=
  {| ClassData.static_fields := [3]; ClassData.instance_fields := [];
     ClassData.direct_methods := [7]; ClassData.virtual_methods := [9] |}.

Definition marker_class_def : ClassDef.t := {| ClassDef.class_idx_ := 4 |}.
Definition foo_class_def : ClassDef.t := {| ClassDef.class_idx_ := 5 |}.

Definition dex_file : DexFile.t :=
  {| DexFile.NumClassDefs := 2;
     DexFile.GetClassDef := fun i =>
       if N.eqb i 0 then marker_class_def else foo_class_def;
     DexFile.GetClassDescriptor := fun class_def =>
       if N.eqb (ClassDef.class_idx_ class_def) 4 then "LMarker;" else "LFoo;";
     DexFile.GetClassData := fun class_def =>
       if N.eqb (ClassDef.class_idx_ class_def) 4 then None
       else Some foo_class_data;
     DexFile.GetMethodName := fun method_idx =>
       if N.eqb method_idx 7 then "direct" else "virtual";
     DexFile.GetMethodSignature := fun method_idx =>
       if N.eqb method_idx 7 then "()V" else "()I" |}.

Definition oat_dex_file : OatDexFile.t :=
  {| OatDexFile.GetDexFileLocation := "/system/framework/foo.jar";
     OatDexFile.GetDexFileLocationChecksum := 3735928559;
     OatDexFile.GetOatClass := fun _ => Some oat_class |}.

Definition oat_file : OatFile.t :=
  {| OatFile.GetOatHeader :=
       {| OatHeader.GetMagic := "oat"; OatHeader.GetChecksum := 305419896;
          OatHeader.GetDexFileCount := 1;
          OatHeader.GetExecutableOffset := 4096 |};
     OatFile.Begin := 1610612736; OatFile.End_ := 1610678272;
     OatFile.GetOatDexFiles := [Some oat_dex_file] |}.

Definition image_header : ImageHeader.t :=
  {| ImageHeader.IsValid := true;
     ImageHeader.GetMagic := "art";
     ImageHeader.GetImageBegin := 65536;
     ImageHeader.GetOatChecksum := 305419896;
     ImageHeader.GetOatBegin := 1610612736;
     ImageHeader.GetOatEnd := 1610678272;
     ImageHeader.GetImageRoots := 65920;
     ImageHeader.GetImageRoot := fun i =>
       if N.eqb i 8 then oat_location_object else object_inside |}.

(** No oat file is found at any location. *)
Definition runtime : Runtime.t :=
  {| Runtime.image_space := Some (image_space, image_header);
     Runtime.live_objects := heap;
     Runtime.find_oat_file := fun _ => None |}.

(** The image file is as long as its header and its objects with their
    padding. *)
Definition env : Env :=
  {| open_dex_file := fun location =>
       if String.eqb location "/root/system/framework/foo.jar"
       then Some dex_file else None;
     open_oat_file := fun _ => Some oat_file;
     file_length := fun _ => 248;
     ofstream_good := fun _ => true;
     create_runtime := fun _ => Some runtime |}.

Definition image_arguments : list string :=
  ["--image=/system/framework/boot.art"; "--host-prefix=/root"].
Definition oat_arguments : list string :=
  ["--oat-file=/system/framework/boot.oat"; "--host-prefix=/root"].
End SampleRun.

(** What the walk over the sample heap and the heap part of the dump of the
    sample image give. *)
Definition walked_stats : Stats.t :=
  Eval vm_compute in
    match ImageDump.Walk (Sample.target true) Sample.printf Sample.heap
            (ImageDump.make Sample.image_space) initial_world with
    | Done state _ => ImageDump.stats_ state
    | _ => Stats.init
    end.

Definition walked_world : World :=
  Eval vm_compute in
    world_of (ImageDump.Walk (Sample.target true) Sample.printf Sample.heap
                (ImageDump.make Sample.image_space) initial_world).

Definition heap_world : World :=
  Eval vm_compute in
    world_of (ImageDump.Dump_heap (Sample.target true) Sample.printf
                SampleRun.env "/system/framework/boot.art" SampleRun.runtime
                Sample.image_space SampleRun.image_header initial_world).

(** The totals of the sample heap: four objects inside the dump space, one
    of them a managed method with a 4-byte register map, an 8-byte mapping
    table and three code units. *)
Example sample_walk_totals :
  Stats.object_bytes walked_stats = 196
  /\ Stats.alignment_bytes walked_stats = 12
  /\ Stats.register_map_bytes walked_stats = 4
  /\ Stats.pc_mapping_table_bytes walked_stats = 8
  /\ Stats.dex_instruction_bytes walked_stats = 6
  /\ Stats.managed_code_bytes walked_stats = 0.
Proof. repeat split. Qed.

(** With an image file one byte longer than its header, objects and padding
    the first check of [Stats::Dump] stops the process. *)
Example wrong_file_length_is_fatal :
  exists msg text,
    Stats.Dump (Sample.target true) Sample.printf
      (Stats.set_file_bytes 249
         (ImageDump.finalize (Sample.target true) SampleRun.env
            "/system/framework/boot.art" walked_stats))
      initial_world
    = Fatal msg (written initial_world text).
Proof.
  apply Stats_Dump_fails. intros [H _]. vm_compute in H. discriminate H.
Qed.

Lemma Walk_sample_heap :
  ImageDump.Walk (Sample.target true) Sample.printf Sample.heap
    (ImageDump.make Sample.image_space) initial_world
  = Done (ImageDump.set_stats walked_stats
            (ImageDump.make Sample.image_space))
         walked_world.
Proof. vm_compute. reflexivity. Qed.

(** C10 on the sample heap: five callbacks, three descriptors, and the count
    read at each of them is at least 1. *)
Lemma descriptor_tables_agree_witness :
  keys (Stats.descriptor_to_bytes walked_stats)
  = ["Ljava/lang/Object;"; "Ljava/lang/String;"; "Ljava/lang/reflect/Method;"]
  /\ keys (Stats.descriptor_to_bytes walked_stats)
     = keys (Stats.descriptor_to_count walked_stats)
  /\ (forall descriptor b,
        In (descriptor, b) (Stats.descriptor_to_bytes walked_stats) ->
        1 <= map_get descriptor (Stats.descriptor_to_count walked_stats)).
Proof.
  split; [reflexivity |].
  destruct (descriptor_tables_agree (Sample.target true) Sample.printf
              Sample.image_space Sample.heap initial_world _ _
              Walk_sample_heap) as [Hk Hc].
  split; [exact Hk |].
  apply Hc. vm_compute. reflexivity.
Defined.

Lemma native_method_not_managed :
  execution_kind Sample.native_method <> Managed.
Proof. discriminate. Qed.

Lemma native_method_checked : checked_contract Sample.native_method.
Proof.
  split; [intros _; repeat split | intros H; discriminate H].
Qed.

(** C2 on the native method of the sample heap, in a debug build: the
    callback runs to its end, the maps of the method are absent, and
    nothing is added to the register-map total. *)
Lemma method_presence_contract_witness :
  kIsDebugBuild (Sample.target true) = true
  /\ ImageDump.InDumpSpace (ImageDump.make Sample.image_space)
       Sample.native_object = true
  /\ Object.IsMethod Sample.native_object = true
  /\ exists state1 w1,
       ImageDump.Callback (Sample.target true) Sample.printf
         Sample.native_object (ImageDump.make Sample.image_space)
         initial_world = Done state1 w1
       /\ maps_absent Sample.native_method
       /\ Stats.register_map_bytes (ImageDump.stats_ state1) = 0.
Proof.
  assert (Hd : kIsDebugBuild (Sample.target true) = true) by reflexivity.
  assert (Hin : ImageDump.InDumpSpace (ImageDump.make Sample.image_space)
                  Sample.native_object = true) by reflexivity.
  assert (Hm : Object.IsMethod Sample.native_object = true) by reflexivity.
  repeat (split; [assumption |]).
  destruct (method_presence_contract (Sample.target true) Sample.printf
              Sample.native_object (ImageDump.make Sample.image_space)
              initial_world Hd Hin Hm) as (H1 & H2 & _).
  destruct (H2 native_method_checked) as (state1 & w1 & Hc).
  exists state1, w1. split; [exact Hc |].
  destruct (H1 state1 w1 Hc) as [Ha _].
  destruct (Ha native_method_not_managed) as (Habsent & Hr & _).
  split; [exact Habsent | exact Hr].
Defined.

(** C2 as the specification states it does not hold.  In a debug build the callback runs to its end on
    a managed method of the dump space whose mapping table is NULL, although
    the contract with a mapping table does not hold of it.  In a build
    without [DCHECK] it runs to its end on a native method that has a
    register map. *)
Lemma managed_method_without_mapping_table_passes :
  (kIsDebugBuild (Sample.target true) = true
   /\ ImageDump.InDumpSpace (ImageDump.make Sample.image_space)
        Sample.managed_object_without_mapping_table = true
   /\ execution_kind Sample.managed_method_without_mapping_table = Managed
   /\ Method.GetMappingTable Sample.managed_method_without_mapping_table
      = NULL
   /\ ~ contract_with_mapping_table
          Sample.managed_method_without_mapping_table
   /\ exists state1 w1,
        ImageDump.Callback (Sample.target true) Sample.printf
          Sample.managed_object_without_mapping_table
          (ImageDump.make Sample.image_space) initial_world
        = Done state1 w1)
  /\ (kIsDebugBuild (Sample.target false) = false
      /\ ImageDump.InDumpSpace (ImageDump.make Sample.image_space)
           Sample.native_object_with_register_map = true
      /\ execution_kind Sample.native_method_with_register_map = Native
      /\ ~ maps_absent Sample.native_method_with_register_map
      /\ exists state1 w1,
           ImageDump.Callback (Sample.target false) Sample.printf
             Sample.native_object_with_register_map
             (ImageDump.make Sample.image_space) initial_world
           = Done state1 w1).
Proof.
  split.
  - repeat (split; [reflexivity |]).
    split.
    + intros [_ H]. destruct (H eq_refl) as [_ Hm]. apply Hm. reflexivity.
    + apply Callback_runs; [reflexivity |].
      intros _ _. split; [intros H; exfalso; apply H; reflexivity |].
      intros _. split; [discriminate | reflexivity].
  - repeat (split; [reflexivity |]).
    split.
    + intros [H _]. discriminate H.
    + apply Callback_runs; [reflexivity |]. intros _ H. discriminate H.
Qed.

(** C3 on the managed method of the sample heap: three code units, a
    4-byte register map and an 8-byte mapping table. *)
Lemma managed_method_contributions_witness :
  exists state1 w1,
    ImageDump.Callback (Sample.target true) Sample.printf
      Sample.managed_object (ImageDump.make Sample.image_space)
      initial_world = Done state1 w1
    /\ Stats.dex_instruction_bytes (ImageDump.stats_ state1) = 6
    /\ Stats.register_map_bytes (ImageDump.stats_ state1) = 4
    /\ Stats.pc_mapping_table_bytes (ImageDump.stats_ state1) = 8
    /\ Stats.managed_code_bytes (ImageDump.stats_ state1) = 0.
Proof.
  destruct (Callback_runs (Sample.target true) Sample.printf
              Sample.managed_object (ImageDump.make Sample.image_space)
              initial_world eq_refl) as (state1 & w1 & Hc).
  { intros _ _. split; [intros H; exfalso; apply H; reflexivity |].
    intros _. split; [discriminate | reflexivity]. }
  exists state1, w1. split; [exact Hc |].
  destruct (managed_method_contributions (Sample.target true) Sample.printf
              Sample.managed_object (ImageDump.make Sample.image_space)
              initial_world state1 w1 eq_refl eq_refl eq_refl Hc)
    as (Hdex & _ & Hreg & Hpc & Hcode & _).
  rewrite Hdex, Hreg, Hpc, Hcode. repeat split.
Defined.

(** C3 as the specification states it does not hold: the visit of the managed method of the sample heap
    runs to its end and adds its dex-instruction, register-map and
    mapping-table bytes, and [managed_code_bytes] is 0 after it as before:
    no contribution other than 0 has been added to it. *)
Lemma managed_code_bytes_not_accumulated :
  execution_kind Sample.managed_method = Managed
  /\ exists state1 w1,
       ImageDump.Callback (Sample.target true) Sample.printf
         Sample.managed_object (ImageDump.make Sample.image_space)
         initial_world = Done state1 w1
       /\ Stats.dex_instruction_bytes (ImageDump.stats_ state1) = 6
       /\ Stats.managed_code_bytes (ImageDump.stats_ state1) = 0
       /\ ~ (exists contribution,
               0 < contribution < size_max (Sample.target true)
               /\ Stats.managed_code_bytes (ImageDump.stats_ state1)
                  = size_add (Sample.target true)
                      (Stats.managed_code_bytes Stats.init) contribution).
Proof.
  split; [reflexivity |].
  destruct (Callback_runs (Sample.target true) Sample.printf
              Sample.managed_object (ImageDump.make Sample.image_space)
              initial_world eq_refl) as (state1 & w1 & Hc).
  { intros _ _. split; [intros H; exfalso; apply H; reflexivity |].
    intros _. split; [discriminate | reflexivity]. }
  exists state1, w1. split; [exact Hc |].
  apply (Callback_inside (Sample.target true) Sample.printf) in Hc;
    [| reflexivity].
  destruct Hc as [-> _]. split; [reflexivity |]. split; [reflexivity |].
  intros (contribution & Hrange & H). simpl in H.
  rewrite size_add_exact in H by (simpl; lia). simpl in H. lia.
Qed.

(** C4 on the sample class: one static field, which gives no output, then
    the direct method 7 with the ordinal 0 and the virtual method 9 with
    the ordinal 1. *)
Lemma DumpOatClass_renders_direct_then_virtual_witness :
  DexFile.GetClassData SampleRun.dex_file SampleRun.foo_class_def
  = Some SampleRun.foo_class_data
  /\ N.of_nat (List.length (ClassData.direct_methods SampleRun.foo_class_data)
               + List.length
                   (ClassData.virtual_methods SampleRun.foo_class_data))
     <= uint32_max
  /\ OatDump.DumpOatClass (Sample.target true) Sample.printf
       SampleRun.oat_file SampleRun.oat_class SampleRun.dex_file
       SampleRun.foo_class_def initial_world
     = Done tt
         (written initial_world
            (TAB ++ "0: direct ()V (method_idx=7)" ++ LF
             ++ TAB ++ TAB ++ "code: 0x2000 (offset=00001000)" ++ LF
             ++ TAB ++ TAB ++ "frame_size_in_bytes: 32" ++ LF
             ++ TAB ++ TAB ++ "core_spill_mask: 00000010" ++ LF
             ++ TAB ++ TAB ++ "fp_spill_mask: 00000000" ++ LF
             ++ TAB ++ TAB ++ "mapping_table: (nil) (offset=00000000)" ++ LF
             ++ TAB ++ TAB ++ "vmap_table: (nil) (offset=00000000)" ++ LF
             ++ TAB ++ TAB ++ "gc_map: (nil) (offset=00000000)" ++ LF
             ++ TAB ++ TAB ++ "invoke_stub: 0x2100 (offset=00001100)" ++ LF
             ++ TAB ++ "1: virtual ()I (method_idx=9)" ++ LF
             ++ TAB ++ TAB ++ "code: 0x3000 (offset=00002000)" ++ LF
             ++ TAB ++ TAB ++ "frame_size_in_bytes: 32" ++ LF
             ++ TAB ++ TAB ++ "core_spill_mask: 00000010" ++ LF
             ++ TAB ++ TAB ++ "fp_spill_mask: 00000000" ++ LF
             ++ TAB ++ TAB ++ "mapping_table: (nil) (offset=00000000)" ++ LF
             ++ TAB ++ TAB ++ "vmap_table: (nil) (offset=00000000)" ++ LF
             ++ TAB ++ TAB ++ "gc_map: (nil) (offset=00000000)" ++ LF
             ++ TAB ++ TAB ++ "invoke_stub: 0x3100 (offset=00002100)" ++ LF)).
Proof.
  assert (Hn : N.of_nat
                 (List.length
                    (ClassData.direct_methods SampleRun.foo_class_data)
                  + List.length
                      (ClassData.virtual_methods SampleRun.foo_class_data))
               <= uint32_max) by (vm_compute; discriminate).
  split; [reflexivity |]. split; [exact Hn |].
  refine (eq_trans
            (proj1 (DumpOatClass_renders_direct_then_virtual
                      (Sample.target true) Sample.printf SampleRun.oat_file
                      SampleRun.oat_class SampleRun.dex_file
                      SampleRun.foo_class_def SampleRun.foo_class_data
                      initial_world eq_refl Hn)) _).
  vm_compute. reflexivity.
Defined.

(** C5 on an object that passes both the class test and the method test:
    its summary shows the category CLASS and not the category METHOD. *)
Lemma Callback_category_precedence_witness :
  Object.IsClass Sample.class_and_method_object = true
  /\ Object.IsMethod Sample.class_and_method_object = true
  /\ exists state1 w1 text,
       ImageDump.Callback (Sample.target true) Sample.printf
         Sample.class_and_method_object (ImageDump.make Sample.image_space)
         initial_world = Done state1 w1
       /\ w1 = written initial_world text
       /\ shows_category Sample.printf Sample.class_and_method_object text
            CLASS
       /\ ~ shows_category Sample.printf Sample.class_and_method_object text
            METHOD.
Proof.
  split; [reflexivity |]. split; [reflexivity |].
  destruct (Callback_runs (Sample.target true) Sample.printf
              Sample.class_and_method_object
              (ImageDump.make Sample.image_space) initial_world eq_refl)
    as (state1 & w1 & Hc).
  { intros _ _. exact native_method_checked. }
  destruct (Callback_category_precedence (Sample.target true) Sample.printf
              Sample.class_and_method_object
              (ImageDump.make Sample.image_space) initial_world state1 w1
              eq_refl Hc)
    as (text & Hw & (c & _ & Hunique) & Hclass & _).
  exists state1, w1, text. split; [exact Hc |]. split; [exact Hw |].
  split; [apply Hclass; reflexivity |].
  intros Hmethod.
  pose proof (Hunique CLASS (Hclass eq_refl)) as H1.
  pose proof (Hunique METHOD Hmethod) as H2.
  rewrite <- H1 in H2. discriminate H2.
Defined.

(** C7 on the sample image, with the host prefix "/root": the oat file is
    not found at "/root/system/foo.art", the report follows the output of
    the heap part, and [oatdump] returns [EXIT_SUCCESS]. *)
Lemma missing_oat_file_is_reported_witness :
  ImageDump.Dump_heap (Sample.target true) Sample.printf SampleRun.env
    "/system/framework/boot.art" SampleRun.runtime Sample.image_space
    SampleRun.image_header initial_world
  = Done tt heap_world
  /\ oatdump (Sample.target true) Sample.printf SampleRun.env
       SampleRun.image_arguments initial_world
     = Done EXIT_SUCCESS
         (called
            (written heap_world
               ("OAT LOCATION:" ++ LF
                ++ "/system/foo.art (/root/system/foo.art)" ++ LF
                ++ "NOT FOUND" ++ LF))
            (FindOatFileFromOatLocation "/root/system/foo.art"))
  /\ contains
       (output (oatdump (Sample.target true) Sample.printf SampleRun.env
                  SampleRun.image_arguments initial_world))
       "NOT FOUND".
Proof.
  assert (Hheap : ImageDump.Dump_heap (Sample.target true) Sample.printf
                    SampleRun.env "/system/framework/boot.art"
                    SampleRun.runtime Sample.image_space
                    SampleRun.image_header initial_world
                  = Done tt heap_world) by (vm_compute; reflexivity).
  split; [exact Hheap |].
  assert (Hparse : parse_arguments SampleRun.env SampleRun.image_arguments
                     no_arguments initial_world
                   = Done {| oat_filename := None;
                             image_filename := Some "/system/framework/boot.art";
                             boot_image_filename := None;
                             host_prefix := "/root" |}
                          initial_world) by (vm_compute; reflexivity).
  assert (Hargv : SampleRun.image_arguments <> []) by discriminate.
  destruct (missing_oat_file_is_reported (Sample.target true) Sample.printf
              SampleRun.env SampleRun.image_arguments _
              "/system/framework/boot.art" SampleRun.runtime
              Sample.image_space SampleRun.image_header
              initial_world initial_world heap_world
              Hargv Hparse eq_refl eq_refl eq_refl eq_refl eq_refl Hheap
              eq_refl)
    as (Hrun & _ & Hcontains & _).
  split; [exact Hrun | exact Hcontains].
Defined.

(** C8 on the sample image: with the prefix "/root" and the stored location
    "/system/foo.art" the lookup is made at "/root/system/foo.art"; and the
    dex file of the sample oat file is opened at
    "/root/system/framework/foo.jar". *)
Lemma lookups_use_host_prefix_witness :
  empty "/root" = false
  /\ (exists later,
        calls (world_of (ImageDump.Dump_oat_location (Sample.target true)
                           Sample.printf SampleRun.env "/root"
                           SampleRun.runtime SampleRun.image_header
                           initial_world))
        = FindOatFileFromOatLocation "/root/system/foo.art" :: later)
  /\ (exists later,
        calls (world_of (OatDump.DumpOatDexFile (Sample.target true)
                           Sample.printf SampleRun.env "/root"
                           SampleRun.oat_file SampleRun.oat_dex_file
                           initial_world))
        = DexFile_Open "/root/system/framework/foo.jar" :: later).
Proof.
  split; [reflexivity |].
  destruct (lookups_use_host_prefix (Sample.target true) Sample.printf
              SampleRun.env "/root" eq_refl) as [Himage Hdex].
  split.
  - destruct (Himage SampleRun.runtime SampleRun.image_header initial_world)
      as [[later H] _].
    exists later. exact H.
  - destruct (Hdex SampleRun.oat_file SampleRun.oat_dex_file initial_world)
      as [[later H] _].
    exists later. exact H.
Defined.

(** C9 on the marker interface of the sample: its entry is written, with no
    method after it, and nothing fails. *)
Lemma DumpOatClass_empty_class_witness :
  DexFile.GetClassData SampleRun.dex_file
    (DexFile.GetClassDef SampleRun.dex_file 0) = None
  /\ OatDump.DumpOatDexFile_class (Sample.target true) Sample.printf
       SampleRun.oat_file SampleRun.oat_dex_file SampleRun.dex_file 0
       initial_world
     = Done tt
         (written initial_world
            ("0: LMarker; (type_idx=4) (StatusVerified)" ++ LF)).
Proof.
  split; [reflexivity |].
  apply (DumpOatClass_empty_class (Sample.target true) Sample.printf
           SampleRun.oat_file SampleRun.oat_dex_file SampleRun.dex_file 0
           SampleRun.oat_class [] initial_world eq_refl eq_refl).
Defined.

(* ================================================================== *)
(** * Further properties of the dump *)

(** ** What the dump routines keep

    [runs R m]: the computation [m] never calls [exit], and whether it runs
    to its end or stops at a failed check, the process it leaves is related
    by [R] to the one it started in. *)

Definition runs (R : World -> World -> Prop) {A} (m : M A) : Prop :=
  forall w,
    match m w with
    | Done _ w1 => R w w1
    | Fatal _ w1 => R w w1
    | Exit _ _ => False
    end.

Section Runs.
Import ClassDataItemIterator.
Variable R : World -> World -> Prop.
Hypothesis R_refl : forall w, R w w.
Hypothesis R_trans : forall w w1 w2, R w w1 -> R w1 w2 -> R w w2.
Hypothesis R_written : forall w text, R w (written w text).
Hypothesis R_called : forall w c, R w (called w c).
Variable T : Target.
Variable P : Printf.
Variable E : Env.

Lemma runs_ret {A} (a : A) : runs R (ret a).
Proof using R_refl. intros w. apply R_refl. Qed.

Lemma runs_bind {A B} (m : M A) (k : A -> M B) :
  runs R m -> (forall a, runs R (k a)) -> runs R (bind m k).
Proof using R_trans.
  intros Hm Hk w. specialize (Hm w). unfold bind.
  destruct (m w) as [a w1 | msg w1 | c w1]; try exact Hm.
  specialize (Hk a w1).
  destruct (k a w1); try exact Hk; apply (R_trans _ _ _ Hm Hk).
Qed.

Lemma runs_os_write (text : string) : runs R (os_write text).
Proof using R_written. intros w. apply R_written. Qed.

Lemma runs_call (c : Call) : runs R (call c).
Proof using R_called. intros w. apply R_called. Qed.

Lemma runs_CHECK (cond : bool) (what : string) : runs R (CHECK cond what).
Proof using R_refl. intros w. unfold CHECK. destruct cond; apply R_refl. Qed.

Lemma runs_DCHECK (cond : bool) (what : string) : runs R (DCHECK T cond what).
Proof using R_refl.
  unfold DCHECK. destruct (kIsDebugBuild T);
    [apply runs_CHECK | apply runs_ret].
Qed.

Lemma runs_CHECK_NOTNULL {A} (p : option A) (what : string) :
  runs R (CHECK_NOTNULL p what).
Proof using R_refl. intros w. destruct p; apply R_refl. Qed.

Lemma runs_for_each {A} (l : list A) (body : A -> M unit) :
  (forall a, runs R (body a)) -> runs R (for_each l body).
Proof using R_refl R_trans.
  intros H. induction l as [| a l IH]; simpl.
  - apply runs_ret.
  - apply runs_bind; [apply H | intros _; exact IH].
Qed.

Ltac runs_steps :=
  repeat first
    [ apply runs_bind; [| intro]
    | apply runs_for_each; intro
    | apply runs_os_write
    | apply runs_ret
    | apply runs_CHECK
    | apply runs_DCHECK
    | apply runs_CHECK_NOTNULL ].

Lemma runs_DumpOatMethod method_index oat_file oat_method dex_file method_idx :
  runs R (OatDump.DumpOatMethod P method_index oat_file oat_method dex_file
                                method_idx).
Proof using R_refl R_trans R_written.
  unfold OatDump.DumpOatMethod. runs_steps.
Qed.

Lemma runs_dump_direct_methods oat_file oat_class dex_file (n : nat) :
  forall it method_index,
    (remaining it <= n)%nat ->
    runs R (OatDump.dump_direct_methods P oat_file oat_class dex_file
                                        it method_index).
Proof using R_refl R_trans R_written.
  induction n as [| n IH]; intros it method_index Hn;
    rewrite dump_direct_methods_unfold;
    destruct (HasNextDirectMethod it) eqn:Hd; try apply runs_ret;
    pose proof (remaining_Next it (HasNextDirectMethod_HasNext it Hd)).
  - lia.
  - apply runs_bind; [apply runs_DumpOatMethod |].
    intros _. apply IH. lia.
Qed.

Lemma runs_dump_virtual_methods oat_file oat_class dex_file (n : nat) :
  forall it method_index,
    (remaining it <= n)%nat ->
    runs R (OatDump.dump_virtual_methods P oat_file oat_class dex_file
                                         it method_index).
Proof using R_refl R_trans R_written.
  induction n as [| n IH]; intros it method_index Hn;
    rewrite dump_virtual_methods_unfold;
    destruct (HasNextVirtualMethod it) eqn:Hd; try apply runs_ret;
    pose proof (remaining_Next it (HasNextVirtualMethod_HasNext it Hd)).
  - lia.
  - apply runs_bind; [apply runs_DumpOatMethod |].
    intros _. apply IH. lia.
Qed.

Lemma runs_DumpOatClass oat_file oat_class dex_file class_def :
  runs R (OatDump.DumpOatClass T P oat_file oat_class dex_file class_def).
Proof using R_refl R_trans R_written.
  unfold OatDump.DumpOatClass, OatDump.DumpOatClass_walk.
  destruct (DexFile.GetClassData dex_file class_def); [| apply runs_ret].
  apply runs_bind.
  - apply runs_bind.
    + eapply runs_dump_direct_methods. apply Nat.le_refl.
    + intros [it method_index].
      eapply runs_dump_virtual_methods. apply Nat.le_refl.
  - intros [it method_index]. apply runs_DCHECK.
Qed.

Lemma runs_DumpOatDexFile_class oat_file oat_dex_file dex_file
    class_def_index :
  runs R (OatDump.DumpOatDexFile_class T P oat_file oat_dex_file dex_file
                                       class_def_index).
Proof using R_refl R_trans R_written.
  unfold OatDump.DumpOatDexFile_class.
  apply runs_bind; [apply runs_CHECK_NOTNULL | intros oat_class].
  do 3 (apply runs_bind; [apply runs_os_write | intros _]).
  apply runs_DumpOatClass.
Qed.

Lemma runs_DumpOatDexFile host_prefix oat_file oat_dex_file :
  runs R (OatDump.DumpOatDexFile T P E host_prefix oat_file oat_dex_file).
Proof using R_refl R_trans R_written R_called.
  unfold OatDump.DumpOatDexFile.
  do 2 (apply runs_bind; [apply runs_os_write | intros _]).
  apply runs_bind.
  { destruct (negb (empty host_prefix)); runs_steps. }
  intros location.
  do 2 (apply runs_bind; [apply runs_os_write | intros _]).
  apply runs_bind; [apply runs_call | intros _].
  destruct (open_dex_file E location); [| apply runs_os_write].
  apply runs_for_each. intros i. apply runs_DumpOatDexFile_class.
Qed.

Lemma runs_OatDump_Dump oat_filename host_prefix oat_file :
  runs R (OatDump.Dump T P E oat_filename host_prefix oat_file).
Proof using R_refl R_trans R_written R_called.
  unfold OatDump.Dump.
  do 16 (apply runs_bind; [apply runs_os_write | intros _]).
  apply runs_for_each. intros d.
  apply runs_bind; [apply runs_CHECK_NOTNULL | intros oat_dex_file].
  apply runs_DumpOatDexFile.
Qed.

Lemma runs_Callback_method method summary stats :
  runs R (ImageDump.Callback_method T P method summary stats).
Proof using R_refl R_trans.
  unfold ImageDump.Callback_method.
  destruct (Method.IsNative method); [runs_steps |].
  destruct (Method.IsAbstract method); [runs_steps |].
  destruct (Method.IsCalleeSaveMethod method); runs_steps.
Qed.

Lemma runs_Callback obj state : runs R (ImageDump.Callback T P obj state).
Proof using R_refl R_trans R_written.
  unfold ImageDump.Callback.
  destruct (negb (ImageDump.InDumpSpace state obj)); [apply runs_ret |].
  cbv zeta. apply runs_bind.
  - destruct (Object.IsMethod obj);
      [apply runs_Callback_method | apply runs_ret].
  - intros [summary stats]. runs_steps.
Qed.

Lemma runs_Walk objects : forall state, runs R (ImageDump.Walk T P objects state).
Proof using R_refl R_trans R_written.
  induction objects as [| obj rest IH]; intros state; simpl.
  - apply runs_ret.
  - apply runs_bind; [apply runs_Callback | exact IH].
Qed.

Lemma runs_Dump_descriptors s entries :
  forall total, runs R (Stats.Dump_descriptors T P s entries total).
Proof using R_refl R_trans R_written.
  induction entries as [| [descriptor bytes] rest IH]; intros total; simpl.
  - apply runs_ret.
  - apply runs_bind; [apply runs_os_write | intros _; apply IH].
Qed.

Lemma runs_Stats_Dump s : runs R (Stats.Dump T P s).
Proof using R_refl R_trans R_written.
  unfold Stats.Dump.
  do 7 (apply runs_bind; [apply runs_os_write | intros _]).
  apply runs_bind; [apply runs_CHECK | intros _].
  apply runs_bind; [apply runs_os_write | intros _].
  apply runs_bind; [apply runs_Dump_descriptors | intros total].
  runs_steps.
Qed.

Lemma runs_Dump_heap image_filename runtime image_space image_header :
  runs R (ImageDump.Dump_heap T P E image_filename runtime image_space
                              image_header).
Proof using R_refl R_trans R_written R_called.
  unfold ImageDump.Dump_heap.
  do 17 (apply runs_bind; [apply runs_os_write | intros _]).
  apply runs_bind; [apply runs_CHECK | intros _].
  apply runs_bind.
  { apply runs_for_each. intros i.
    apply runs_bind; [apply runs_os_write | intros _].
    destruct (Object.IsObjectArray _); [| apply runs_ret].
    apply runs_for_each. intros [j element]. apply runs_os_write. }
  intros _.
  do 2 (apply runs_bind; [apply runs_os_write | intros _]).
  apply runs_bind; [apply runs_Walk | intros state].
  do 2 (apply runs_bind; [apply runs_os_write | intros _]).
  apply runs_bind; [apply runs_call | intros _].
  apply runs_bind; [apply runs_Stats_Dump | intros _].
  apply runs_os_write.
Qed.

Lemma runs_Dump_oat_location host_prefix runtime image_header :
  runs R (ImageDump.Dump_oat_location T P E host_prefix runtime image_header).
Proof using R_refl R_trans R_written R_called.
  unfold ImageDump.Dump_oat_location.
  do 2 (apply runs_bind; [apply runs_os_write | intros _]).
  apply runs_bind.
  { destruct (negb (empty host_prefix)); runs_steps. }
  intros oat_location.
  apply runs_bind; [apply runs_os_write | intros _].
  apply runs_bind; [apply runs_call | intros _].
  destruct (Runtime.find_oat_file runtime oat_location);
    [| apply runs_os_write].
  apply runs_bind; [apply runs_os_write | intros _].
  apply runs_OatDump_Dump.
Qed.

Lemma runs_ImageDump_Dump image_filename host_prefix runtime image_space
    image_header :
  runs R (ImageDump.Dump T P E image_filename host_prefix runtime image_space
                         image_header).
Proof using R_refl R_trans R_written R_called.
  unfold ImageDump.Dump.
  apply runs_bind; [apply runs_Dump_heap | intros _].
  apply runs_Dump_oat_location.
Qed.
End Runs.

(* ------------------------------------------------------------------ *)
(** ** The argument loop of [oatdump] *)

(** The process after a message went to [stderr]. *)
Definition complained (w : World) (text : string) : World :=
  {| os := os w; stderr := stderr w ++ text; calls := calls w |}.

(** The arguments the loop goes past: the four options that set a variable,
    and [--output=] with a file that can be opened. *)
Definition accepted (E : Env) (option : string) : bool :=
  starts_with option "--oat-file="
  || starts_with option "--image="
  || starts_with option "--boot-image="
  || starts_with option "--host-prefix="
  || (starts_with option "--output="
      && ofstream_good E (substr option (String.length "--output="))).

(** What the loop writes about an argument it does not go past. *)
Definition rejection (option : string) : string :=
  if starts_with option "--output=" then
    "Failed to open output filename "
    ++ substr option (String.length "--output=") ++ LF
  else "Unknown argument " ++ option ++ LF.

Definition is_image_option (option : string) : bool :=
  starts_with option "--image=".
Definition is_oat_file_option (option : string) : bool :=
  starts_with option "--oat-file=".

Definition is_some {A} (o : option A) : bool :=
  match o with Some _ => true | None => false end.

Lemma length_append (a b : string) :
  String.length (a ++ b) = (String.length a + String.length b)%nat.
Proof. induction a as [| c a IH]; simpl; congruence. Qed.

Lemma substring_all (s : string) : substring 0 (String.length s) s = s.
Proof. induction s as [| c s IH]; simpl; congruence. Qed.

Lemma starts_with_append (p v : string) : starts_with (p ++ v) p = true.
Proof.
  unfold starts_with. induction p as [| c p IH]; simpl.
  - destruct v; reflexivity.
  - destruct (ascii_dec c c); [exact IH | congruence].
Qed.

Lemma substr_append (p v : string) : substr (p ++ v) (String.length p) = v.
Proof.
  unfold substr. induction p as [| c p IH]; simpl.
  - rewrite Nat.sub_0_r. apply substring_all.
  - exact IH.
Qed.

(** Two prefixes that differ at their third character are not both the
    start of one string. *)
Lemma starts_with_third (s : string) (a b c c' : ascii) (p q : string) :
  starts_with s (String a (String b (String c p))) = true ->
  starts_with s (String a (String b (String c' q))) = true ->
  c = c'.
Proof.
  unfold starts_with. destruct s as [| x [| y [| z s]]]; simpl;
    try discriminate;
    destruct (ascii_dec a x); try discriminate;
    destruct (ascii_dec b y); try discriminate.
  destruct (ascii_dec c z); try discriminate.
  destruct (ascii_dec c' z); try discriminate.
  congruence.
Qed.

Lemma image_option_not_oat_file (option : string) :
  is_oat_file_option option = true -> is_image_option option = false.
Proof.
  unfold is_oat_file_option, is_image_option. intros Ho.
  destruct (starts_with option "--image=") eqn:Hi; [| reflexivity].
  pose proof (starts_with_third _ _ _ _ _ _ _ Ho Hi). discriminate.
Qed.

Section ArgumentLoop.
Variable E : Env.

Lemma parse_arguments_app argv1 :
  forall argv2 a w,
    parse_arguments E (argv1 ++ argv2) a w
    = bind (parse_arguments E argv1 a) (parse_arguments E argv2) w.
Proof.
  induction argv1 as [| option rest IH]; intros argv2 a w; simpl.
  - reflexivity.
  - repeat match goal with
           | |- (if ?b then _ else _) _ = _ => destruct b
           end;
      try apply IH; reflexivity.
Qed.

Lemma parse_arguments_accepts argv :
  forall a w,
    forallb (accepted E) argv = true ->
    exists a1, parse_arguments E argv a w = Done a1 w.
Proof.
  induction argv as [| option rest IH]; intros a w H; simpl in *.
  - eexists. reflexivity.
  - apply andb_prop in H. destruct H as [Ha Hrest]. unfold accepted in Ha.
    destruct (starts_with option "--oat-file="); [apply IH, Hrest |].
    destruct (starts_with option "--image="); [apply IH, Hrest |].
    destruct (starts_with option "--boot-image="); [apply IH, Hrest |].
    destruct (starts_with option "--host-prefix="); [apply IH, Hrest |].
    destruct (starts_with option "--output="); [| discriminate].
    simpl in Ha. rewrite Ha. simpl. apply IH, Hrest.
Qed.

Lemma parse_arguments_rejects option rest a w :
  accepted E option = false ->
  parse_arguments E (option :: rest) a w
  = Exit EXIT_FAILURE (complained w (rejection option ++ usage_text)).
Proof.
  unfold accepted, rejection. intros H. simpl.
  destruct (starts_with option "--oat-file="); [discriminate |].
  destruct (starts_with option "--image="); [discriminate |].
  destruct (starts_with option "--boot-image="); [discriminate |].
  destruct (starts_with option "--host-prefix="); [discriminate |].
  destruct (starts_with option "--output="); simpl in H.
  - rewrite H. unfold usage, bind, stderr_write, exit, complained.
    cbn [negb os stderr calls]. rewrite !append_assoc. reflexivity.
  - unfold usage, bind, stderr_write, exit, complained.
    cbn [os stderr calls]. rewrite !append_assoc. reflexivity.
Qed.

(** The loop either goes past every argument and leaves the process as it
    was, or stops at an argument with a message and the usage text. *)
Lemma parse_arguments_outcome argv :
  forall a w,
    (exists a1, parse_arguments E argv a w = Done a1 w)
    \/ (exists option,
          In option argv
          /\ parse_arguments E argv a w
             = Exit EXIT_FAILURE
                    (complained w (rejection option ++ usage_text))).
Proof.
  induction argv as [| option rest IH]; intros a w.
  - left. eexists. reflexivity.
  - destruct (accepted E option) eqn:Ha.
    + assert (Hstep : exists a', forall w',
                 parse_arguments E (option :: rest) a w'
                 = parse_arguments E rest a' w').
      { unfold accepted in Ha. simpl.
        destruct (starts_with option "--oat-file=");
          [eexists; reflexivity |].
        destruct (starts_with option "--image=");
          [eexists; reflexivity |].
        destruct (starts_with option "--boot-image=");
          [eexists; reflexivity |].
        destruct (starts_with option "--host-prefix=");
          [eexists; reflexivity |].
        destruct (starts_with option "--output="); [| discriminate].
        simpl in Ha. rewrite Ha. eexists; reflexivity. }
      destruct Hstep as [a' Hstep]. rewrite Hstep.
      destruct (IH a' w) as [H | [o [Hin H]]]; [left; exact H |].
      right. exists o. split; [right; exact Hin | exact H].
    + right. exists option. split; [left; reflexivity |].
      apply parse_arguments_rejects, Ha.
Qed.

(** Which of the two inputs the loop has set when it is through. *)
Lemma parse_arguments_inputs argv :
  forall a w a1 w1,
    parse_arguments E argv a w = Done a1 w1 ->
    is_some (image_filename a1)
    = is_some (image_filename a) || existsb is_image_option argv
    /\ is_some (oat_filename a1)
       = is_some (oat_filename a) || existsb is_oat_file_option argv.
Proof.
  induction argv as [| option rest IH]; intros a w a1 w1 H; simpl in H.
  - inversion H; subst. simpl. rewrite !orb_false_r. split; reflexivity.
  - simpl existsb.
    pose proof (image_option_not_oat_file option) as Hx.
    unfold is_image_option, is_oat_file_option in *.
    destruct (starts_with option "--oat-file=").
    { apply IH in H. simpl in H. rewrite (Hx eq_refl).
      destruct H as [Hi Ho]. rewrite Hi, Ho. simpl.
      rewrite orb_true_r. split; reflexivity. }
    destruct (starts_with option "--image=").
    { apply IH in H. simpl in H. destruct H as [Hi Ho]. rewrite Hi, Ho.
      simpl. rewrite orb_true_r. split; reflexivity. }
    simpl.
    destruct (starts_with option "--boot-image=");
      [apply IH in H; exact H |].
    destruct (starts_with option "--host-prefix=");
      [apply IH in H; exact H |].
    destruct (starts_with option "--output="); [| discriminate].
    destruct (negb (ofstream_good E _)); [discriminate |].
    apply IH in H; exact H.
Qed.
End ArgumentLoop.

Lemma bind_Exit_eq {A B} (m : M A) (k : A -> M B) w status w1 :
  m w = Exit status w1 -> bind m k w = Exit status w1.
Proof. intros H. unfold bind. rewrite H. reflexivity. Qed.

Lemma oatdump_with_arguments T P E option rest w :
  oatdump T P E (option :: rest) w
  = bind (parse_arguments E (option :: rest) no_arguments)
         (fun a =>
            match image_filename a, oat_filename a with
            | None, None =>
                stderr_write ("Either --image or --oat must be specified"
                              ++ LF) ;;
                ret EXIT_FAILURE
            | Some _, Some _ =>
                stderr_write
                  ("Either --image or --oat must be specified but not both"
                   ++ LF) ;;
                ret EXIT_FAILURE
            | None, Some oat_filename =>
                call (OatFile_Open oat_filename) ;;
                match open_oat_file E oat_filename with
                | None =>
                    stderr_write ("Failed to open oat file from "
                                  ++ oat_filename ++ LF) ;;
                    ret EXIT_FAILURE
                | Some oat_file =>
                    OatDump.Dump T P E oat_filename (host_prefix a)
                                 oat_file ;;
                    ret EXIT_SUCCESS
                end
            | Some image_filename, None =>
                match create_runtime E (runtime_options a) with
                | None =>
                    stderr_write ("Failed to create runtime" ++ LF) ;;
                    ret EXIT_FAILURE
                | Some runtime =>
                    '(image_space, image_header) <-
                       CHECK_NOTNULL (Runtime.image_space runtime)
                                     "image_space != NULL" ;;
                    if negb (ImageHeader.IsValid image_header) then
                      stderr_write ("Invalid image header "
                                    ++ image_filename ++ LF) ;;
                      ret EXIT_FAILURE
                    else
                      ImageDump.Dump T P E image_filename (host_prefix a)
                                     runtime image_space image_header ;;
                      ret EXIT_SUCCESS
                end
            end)%dump w.
Proof. reflexivity. Qed.

(** X1.  The argument loop stops at the first argument it does not accept:
    when every argument before it is accepted, [oatdump] leaves through
    [usage] with [EXIT_FAILURE]; it has written the message about that
    argument and the usage text to [stderr] and nothing to the output, it
    has made no lookup, and the arguments after it play no part. *)
Theorem first_rejected_argument_ends_the_run
    T P E (before : list string) (option : string) (after : list string) w :
  forallb (accepted E) before = true ->
  accepted E option = false ->
  oatdump T P E (before ++ option :: after)%list w
  = Exit EXIT_FAILURE (complained w (rejection option ++ usage_text)).
Proof.
  intros Hb Ho.
  destruct (before ++ option :: after)%list as [| o rest] eqn:Hargv.
  { destruct before; discriminate. }
  rewrite oatdump_with_arguments. apply bind_Exit_eq.
  rewrite <- Hargv, parse_arguments_app.
  destruct (parse_arguments_accepts E before no_arguments w Hb) as [a1 Ha1].
  rewrite (bind_Done_eq _ _ _ _ _ Ha1).
  apply parse_arguments_rejects, Ho.
Qed.

(** X2.  An option sets its variable to the text after the [=], whatever
    the arguments before it had set, and leaves the other variables as
    they were: after arguments the loop went past, a last [--oat-file=v],
    [--image=v], [--boot-image=v] or [--host-prefix=v] gives the variable
    the value [v]. *)
Theorem last_option_sets_its_variable
    E (argv : list string) (a : Arguments_) (v : string) w :
  parse_arguments E argv no_arguments w = Done a w ->
  parse_arguments E (argv ++ [("--oat-file=" ++ v)%string])%list no_arguments w
  = Done {| oat_filename := Some v;
            image_filename := image_filename a;
            boot_image_filename := boot_image_filename a;
            host_prefix := host_prefix a |} w
  /\ parse_arguments E (argv ++ [("--image=" ++ v)%string])%list no_arguments w
     = Done {| oat_filename := oat_filename a;
               image_filename := Some v;
               boot_image_filename := boot_image_filename a;
               host_prefix := host_prefix a |} w
  /\ parse_arguments E (argv ++ [("--boot-image=" ++ v)%string])%list no_arguments w
     = Done {| oat_filename := oat_filename a;
               image_filename := image_filename a;
               boot_image_filename := Some v;
               host_prefix := host_prefix a |} w
  /\ parse_arguments E (argv ++ [("--host-prefix=" ++ v)%string])%list no_arguments w
     = Done {| oat_filename := oat_filename a;
               image_filename := image_filename a;
               boot_image_filename := boot_image_filename a;
               host_prefix := v |} w.
Proof.
  intros H.
  repeat split; rewrite parse_arguments_app, (bind_Done_eq _ _ _ _ _ H).
  - pose proof (starts_with_append "--oat-file=" v) as Hs.
    pose proof (substr_append "--oat-file=" v) as Hv.
    set (option := "--oat-file=" ++ v) in *.
    cbn [parse_arguments]. rewrite Hs, Hv. reflexivity.
  - pose proof (starts_with_append "--image=" v) as Hs.
    pose proof (substr_append "--image=" v) as Hv.
    assert (H1 : starts_with ("--image=" ++ v) "--oat-file=" = false)
      by reflexivity.
    set (option := "--image=" ++ v) in *.
    cbn [parse_arguments]. rewrite H1, Hs, Hv. reflexivity.
  - pose proof (starts_with_append "--boot-image=" v) as Hs.
    pose proof (substr_append "--boot-image=" v) as Hv.
    assert (H1 : starts_with ("--boot-image=" ++ v) "--oat-file=" = false)
      by reflexivity.
    assert (H2 : starts_with ("--boot-image=" ++ v) "--image=" = false)
      by reflexivity.
    set (option := "--boot-image=" ++ v) in *.
    cbn [parse_arguments]. rewrite H1, H2, Hs, Hv. reflexivity.
  - pose proof (starts_with_append "--host-prefix=" v) as Hs.
    pose proof (substr_append "--host-prefix=" v) as Hv.
    assert (H1 : starts_with ("--host-prefix=" ++ v) "--oat-file=" = false)
      by reflexivity.
    assert (H2 : starts_with ("--host-prefix=" ++ v) "--image=" = false)
      by reflexivity.
    assert (H3 : starts_with ("--host-prefix=" ++ v) "--boot-image=" = false)
      by reflexivity.
    set (option := "--host-prefix=" ++ v) in *.
    cbn [parse_arguments]. rewrite H1, H2, H3, Hs, Hv. reflexivity.
Qed.

(** X3.  Exactly one input is required: when the loop went past every
    argument and the arguments name both an image and an oat file, or
    neither, [oatdump] returns [EXIT_FAILURE] with the message on [stderr];
    it has written nothing to the output and made no lookup.  Only whether
    an [--image=] and an [--oat-file=] occur matters, not where. *)
Theorem exactly_one_input_is_required T P E (argv : list string) w :
  argv <> [] ->
  forallb (accepted E) argv = true ->
  existsb is_image_option argv = existsb is_oat_file_option argv ->
  oatdump T P E argv w
  = Done EXIT_FAILURE
         (complained w
            ("Either --image or --oat must be specified"
             ++ (if existsb is_image_option argv then " but not both"
                 else "")
             ++ LF)).
Proof.
  intros Hne Hacc Hsame.
  destruct argv as [| option rest]; [congruence |].
  rewrite oatdump_with_arguments.
  destruct (parse_arguments_accepts E (option :: rest) no_arguments w Hacc)
    as [a Ha].
  rewrite (bind_Done_eq _ _ _ _ _ Ha).
  destruct (parse_arguments_inputs E _ _ _ _ _ Ha) as [Hi Ho].
  simpl is_some in Hi, Ho. rewrite <- Hsame in Ho.
  destruct (existsb is_image_option (option :: rest));
    destruct (image_filename a); try discriminate;
    destruct (oat_filename a); try discriminate; reflexivity.
Qed.

(* ------------------------------------------------------------------ *)
(** ** The status of a run and what it has written *)

(** The later process has the [stderr] of the earlier one; its output and
    its lookups continue those of the earlier one. *)
Definition quiet (w w1 : World) : Prop :=
  stderr w1 = stderr w /\ extends w w1.

Lemma quiet_refl (w : World) : quiet w w.
Proof. split; [reflexivity | apply extends_refl]. Qed.

Lemma quiet_trans (w w1 w2 : World) : quiet w w1 -> quiet w1 w2 -> quiet w w2.
Proof.
  intros [H1 E1] [H2 E2]. split; [congruence |].
  exact (extends_trans _ _ _ E1 E2).
Qed.

Lemma quiet_written (w : World) (text : string) : quiet w (written w text).
Proof.
  split; [reflexivity |]. split.
  - exists text. reflexivity.
  - exists []. simpl. rewrite app_nil_r. reflexivity.
Qed.

Lemma quiet_called (w : World) (c : Call) : quiet w (called w c).
Proof.
  split; [reflexivity |]. split.
  - exists "". simpl. rewrite append_nil_r. reflexivity.
  - exists [c]. reflexivity.
Qed.

Section Begins.
Variable T : Target.
Variable P : Printf.
Variable E : Env.

(** Both dumps start with the line [MAGIC:]. *)
Lemma OatDump_Dump_begins oat_filename host_prefix oat_file w :
  match OatDump.Dump T P E oat_filename host_prefix oat_file w with
  | Done _ w1 => quiet (written w ("MAGIC:" ++ LF)) w1
  | Fatal _ w1 => quiet (written w ("MAGIC:" ++ LF)) w1
  | Exit _ _ => False
  end.
Proof.
  unfold OatDump.Dump. rewrite bind_os_write.
  match goal with
  | |- match ?m (written w ?t) with _ => _ end =>
      assert (H : runs quiet m); [| exact (H (written w t))]
  end.
  do 15 (apply (runs_bind quiet quiet_trans);
         [apply (runs_os_write quiet quiet_written) | intros _]).
  apply (runs_for_each quiet quiet_refl quiet_trans). intros d.
  apply (runs_bind quiet quiet_trans);
    [apply (runs_CHECK_NOTNULL quiet quiet_refl) | intros oat_dex_file].
  apply (runs_DumpOatDexFile quiet quiet_refl quiet_trans quiet_written
                             quiet_called).
Qed.

Lemma ImageDump_Dump_begins image_filename host_prefix runtime image_space
    image_header w :
  match ImageDump.Dump T P E image_filename host_prefix runtime image_space
                       image_header w with
  | Done _ w1 => quiet (written w ("MAGIC:" ++ LF)) w1
  | Fatal _ w1 => quiet (written w ("MAGIC:" ++ LF)) w1
  | Exit _ _ => False
  end.
Proof.
  unfold ImageDump.Dump, ImageDump.Dump_heap.
  rewrite bind_assoc, bind_os_write.
  match goal with
  | |- match ?m (written w ?t) with _ => _ end =>
      assert (H : runs quiet m); [| exact (H (written w t))]
  end.
  apply (runs_bind quiet quiet_trans);
    [| intros _;
       apply (runs_Dump_oat_location quiet quiet_refl quiet_trans
                                     quiet_written quiet_called)].
  do 16 (apply (runs_bind quiet quiet_trans);
         [apply (runs_os_write quiet quiet_written) | intros _]).
  apply (runs_bind quiet quiet_trans);
    [apply (runs_CHECK quiet quiet_refl) | intros _].
  apply (runs_bind quiet quiet_trans).
  { apply (runs_for_each quiet quiet_refl quiet_trans). intros i.
    apply (runs_bind quiet quiet_trans);
      [apply (runs_os_write quiet quiet_written) | intros _].
    destruct (Object.IsObjectArray _); [| apply (runs_ret quiet quiet_refl)].
    apply (runs_for_each quiet quiet_refl quiet_trans). intros [j element].
    apply (runs_os_write quiet quiet_written). }
  intros _.
  do 2 (apply (runs_bind quiet quiet_trans);
        [apply (runs_os_write quiet quiet_written) | intros _]).
  apply (runs_bind quiet quiet_trans);
    [apply (runs_Walk quiet quiet_refl quiet_trans quiet_written)
    | intros state].
  do 2 (apply (runs_bind quiet quiet_trans);
        [apply (runs_os_write quiet quiet_written) | intros _]).
  apply (runs_bind quiet quiet_trans);
    [apply (runs_call quiet quiet_called) | intros _].
  apply (runs_bind quiet quiet_trans);
    [apply (runs_Stats_Dump quiet quiet_refl quiet_trans quiet_written)
    | intros _].
  apply (runs_os_write quiet quiet_written).
Qed.
End Begins.

Lemma quiet_after_first_write (w w0 w1 : World) (first : string) :
  quiet w w0 -> os w0 = os w ->
  quiet (written w0 first) w1 ->
  quiet w w1
  /\ stderr w1 = stderr w
  /\ exists text, os w1 = os w ++ first ++ text.
Proof.
  intros H0 Hos H1.
  assert (Hq : quiet w w1).
  { apply (quiet_trans _ _ _ H0).
    apply (quiet_trans _ _ _ (quiet_written w0 first) H1). }
  split; [exact Hq |]. split; [apply Hq |].
  destruct H1 as [_ [[text Ht] _]]. exists text.
  rewrite Ht. simpl. rewrite Hos. apply append_assoc.
Qed.

(** X4.  The status of a run tells what it has written.  A run of
    [oatdump] that returns [EXIT_SUCCESS] has written nothing to [stderr]
    and its output starts with the line [MAGIC:]; a run that returns any
    other status returns [EXIT_FAILURE], has written nothing to the output
    and has put a message on [stderr]; a run that leaves through [exit] does
    so with [EXIT_FAILURE] from the argument handling, before any output and
    any lookup, with a message and the usage text on [stderr]; a run that
    stops at a failed check had no complaint about its arguments. *)
Theorem oatdump_status_and_output T P E (argv : list string) w :
  match oatdump T P E argv w with
  | Done status w1 =>
      (status = EXIT_SUCCESS /\ stderr w1 = stderr w
       /\ exists text, os w1 = os w ++ "MAGIC:" ++ LF ++ text)
      \/ (status = EXIT_FAILURE /\ os w1 = os w
          /\ exists msg, stderr w1 = stderr w ++ msg ++ LF)
  | Exit status w1 =>
      status = EXIT_FAILURE /\ os w1 = os w /\ calls w1 = calls w
      /\ exists msg, stderr w1 = stderr w ++ msg ++ LF ++ usage_text
  | Fatal _ w1 => quiet w w1
  end.
Proof.
  destruct argv as [| option rest].
  { change (oatdump T P E [] w)
      with (Exit (A := N) EXIT_FAILURE
                 (complained (complained w ("No arguments specified" ++ LF))
                             usage_text)).
    repeat split. exists "No arguments specified". simpl stderr.
    rewrite !append_assoc. reflexivity. }
  rewrite oatdump_with_arguments.
  destruct (parse_arguments_outcome E (option :: rest) no_arguments w)
    as [[a Ha] | [o [_ Ho]]].
  2: { rewrite (bind_Exit_eq _ _ _ _ _ Ho). repeat split.
       unfold rejection.
       destruct (starts_with o "--output=");
         [exists ("Failed to open output filename "
                  ++ substr o (String.length "--output="))
         | exists ("Unknown argument " ++ o)];
         simpl stderr; rewrite !append_assoc; reflexivity. }
  rewrite (bind_Done_eq _ _ _ _ _ Ha).
  destruct (image_filename a) as [image |];
    destruct (oat_filename a) as [oat |].
  - right. repeat split.
    exists "Either --image or --oat must be specified but not both".
    reflexivity.
  - destruct (create_runtime E (runtime_options a)) as [runtime |].
    2: { right. repeat split. exists "Failed to create runtime".
         reflexivity. }
    destruct (Runtime.image_space runtime) as [[image_space image_header] |].
    2: { apply quiet_refl. }
    unfold CHECK_NOTNULL. rewrite bind_ret_l.
    destruct (ImageHeader.IsValid image_header).
    2: { right. repeat split. exists ("Invalid image header " ++ image).
         simpl stderr. rewrite !append_assoc. reflexivity. }
    change (negb true) with false. cbv iota.
    pose proof (ImageDump_Dump_begins T P E image (host_prefix a) runtime
                  image_space image_header w) as H.
    unfold bind at 1.
    destruct (ImageDump.Dump T P E image (host_prefix a) runtime image_space
                             image_header w) as [u w1 | msg w1 | c w1];
      try contradiction;
      destruct (quiet_after_first_write w w w1 _ (quiet_refl w) eq_refl H)
        as [Hq [Hs Ht]].
    + left. split; [reflexivity |]. split; assumption.
    + exact Hq.
  - rewrite bind_call.
    destruct (open_oat_file E oat) as [oat_file |].
    2: { right. repeat split. exists ("Failed to open oat file from " ++ oat).
         simpl stderr. rewrite !append_assoc. reflexivity. }
    pose proof (OatDump_Dump_begins T P E oat (host_prefix a) oat_file
                  (called w (OatFile_Open oat))) as H.
    unfold bind at 1.
    destruct (OatDump.Dump T P E oat (host_prefix a) oat_file
                           (called w (OatFile_Open oat)))
      as [u w1 | msg w1 | c w1];
      try contradiction;
      destruct (quiet_after_first_write w _ w1 _
                  (quiet_called w (OatFile_Open oat)) eq_refl H)
        as [Hq [Hs Ht]].
    + left. split; [reflexivity |]. split; assumption.
    + exact Hq.
  - right. repeat split.
    exists "Either --image or --oat must be specified". reflexivity.
Qed.

(* ------------------------------------------------------------------ *)
(** ** The dump of an oat file *)

(** The process after [text] went to the output and the lookups [cs] were
    made. *)
Definition after (w : World) (text : string) (cs : list Call) : World :=
  {| os := os w ++ text; stderr := stderr w; calls := (calls w ++ cs)%list |}.

Lemma after_nil (w : World) : after w "" [] = w.
Proof.
  destruct w. unfold after. simpl. rewrite append_nil_r, app_nil_r.
  reflexivity.
Qed.

Lemma written_is_after (w : World) (text : string) :
  written w text = after w text [].
Proof. unfold written, after. rewrite app_nil_r. reflexivity. Qed.

Lemma called_is_after (w : World) (c : Call) : called w c = after w "" [c].
Proof. unfold called, after. rewrite append_nil_r. reflexivity. Qed.

Lemma after_after (w : World) t1 cs1 t2 cs2 :
  after (after w t1 cs1) t2 cs2 = after w (t1 ++ t2) (cs1 ++ cs2)%list.
Proof.
  unfold after. simpl. rewrite append_assoc, <- app_assoc. reflexivity.
Qed.

(** A location as the dump looks it up: behind the host prefix, when there
    is one. *)
Definition translated (host_prefix location : string) : string :=
  if negb (empty host_prefix) then host_prefix ++ location else location.

(** What [DumpOatDexFile] writes before it opens the dex file. *)
Definition dex_file_heading (P : Printf) (host_prefix : string)
    (oat_dex_file : OatDexFile.t) : string :=
  "OAT DEX FILE:" ++ LF
  ++ "location: " ++ OatDexFile.GetDexFileLocation oat_dex_file
  ++ (if negb (empty host_prefix)
      then " (" ++ host_prefix
           ++ OatDexFile.GetDexFileLocation oat_dex_file ++ ")"
      else "")
  ++ LF
  ++ "checksum: "
  ++ fmt_08x P (OatDexFile.GetDexFileLocationChecksum oat_dex_file) ++ LF.

(** A loop whose body either writes or stops at a check with [msg], which
    of the two depending on the element alone: the loop runs to its end
    when no element stops it. *)
Lemma for_each_outcome {A} (ok : A -> bool) (msg : string)
    (body : A -> M unit) (l : list A) :
  (forall a, ok a = true ->
             exists text, forall w, body a w = Done tt (written w text)) ->
  (forall a, ok a = false -> forall w, body a w = Fatal msg w) ->
  exists text, forall w,
    for_each l body w
    = if forallb ok l then Done tt (written w text)
      else Fatal msg (written w text).
Proof.
  intros Hok Hko. induction l as [| a l [text IH]].
  - exists "". intros w. simpl. rewrite written_nil. reflexivity.
  - simpl. destruct (ok a) eqn:Ha.
    + destruct (Hok a Ha) as [t Ht]. exists (t ++ text). intros w.
      rewrite (bind_Done_eq _ _ _ _ _ (Ht w)), IH, !written_written.
      reflexivity.
    + exists "". intros w. unfold bind. rewrite (Hko a Ha), written_nil.
      reflexivity.
Qed.

Section OatDumpRuns.
Variable T : Target.
Variable P : Printf.
Variable E : Env.

(** [DumpOatClass] fails no check: it writes its methods and returns. *)
Lemma DumpOatClass_writes oat_file oat_class dex_file class_def :
  exists text, forall w,
    OatDump.DumpOatClass T P oat_file oat_class dex_file class_def w
    = Done tt (written w text).
Proof.
  unfold OatDump.DumpOatClass.
  destruct (DexFile.GetClassData dex_file class_def) as [class_data |].
  2: { exists "". intros w. rewrite written_nil. reflexivity. }
  destruct (for_each_dump_entry_writes P oat_file oat_class dex_file
              (numbered 0 (ClassData.direct_methods class_data
                           ++ ClassData.virtual_methods class_data)))
    as [text Htext].
  exists text. intros w.
  pose proof (DumpOatClass_walk_run P oat_file oat_class dex_file class_data w)
    as Hwalk.
  cbv zeta in Hwalk.
  rewrite (bind_Done_eq _ _ _ _ _ (Htext w)) in Hwalk. unfold ret in Hwalk.
  rewrite (bind_Done_eq _ _ _ _ _ Hwalk).
  unfold ClassDataItemIterator.HasNext,
    ClassDataItemIterator.EndOfVirtualMethodsPos,
    ClassDataItemIterator.EndOfDirectMethodsPos,
    ClassDataItemIterator.EndOfInstanceFieldsPos,
    ClassDataItemIterator.EndOfStaticFieldsPos, cursor.
  cbn [ClassDataItemIterator.pos_ ClassDataItemIterator.data].
  rewrite Nat.ltb_irrefl. apply DCHECK_true.
Qed.

Lemma DumpOatDexFile_class_writes oat_file oat_dex_file dex_file
    class_def_index :
  is_some (OatDexFile.GetOatClass oat_dex_file class_def_index) = true ->
  exists text, forall w,
    OatDump.DumpOatDexFile_class T P oat_file oat_dex_file dex_file
                                 class_def_index w
    = Done tt (written w text).
Proof.
  intros H. unfold OatDump.DumpOatDexFile_class.
  destruct (OatDexFile.GetOatClass oat_dex_file class_def_index)
    as [oat_class |]; [| discriminate].
  destruct (DumpOatClass_writes oat_file oat_class dex_file
              (DexFile.GetClassDef dex_file class_def_index))
    as [text Htext].
  eexists. intros w. unfold CHECK_NOTNULL. rewrite bind_ret_l.
  repeat (rewrite bind_os_write; cbv beta).
  rewrite Htext, !written_written. reflexivity.
Qed.

Lemma DumpOatDexFile_class_stops oat_file oat_dex_file dex_file
    class_def_index :
  is_some (OatDexFile.GetOatClass oat_dex_file class_def_index) = false ->
  forall w,
    OatDump.DumpOatDexFile_class T P oat_file oat_dex_file dex_file
                                 class_def_index w
    = Fatal "Check failed: oat_class.get() != NULL" w.
Proof.
  intros H w. unfold OatDump.DumpOatDexFile_class.
  destruct (OatDexFile.GetOatClass oat_dex_file class_def_index);
    [discriminate | reflexivity].
Qed.

(** The run of [DumpOatDexFile]: the heading, the one lookup, and then
    either NOT FOUND or the classes. *)
Lemma DumpOatDexFile_run host_prefix oat_file oat_dex_file :
  let location :=
    translated host_prefix (OatDexFile.GetDexFileLocation oat_dex_file) in
  let heading := dex_file_heading P host_prefix oat_dex_file in
  match open_dex_file E location with
  | None =>
      forall w,
        OatDump.DumpOatDexFile T P E host_prefix oat_file oat_dex_file w
        = Done tt (after w (heading ++ "NOT FOUND" ++ LF ++ LF)
                         [DexFile_Open location])
  | Some dex_file =>
      exists classes, forall w,
        OatDump.DumpOatDexFile T P E host_prefix oat_file oat_dex_file w
        = if forallb
               (fun i => is_some (OatDexFile.GetOatClass oat_dex_file i))
               (indices (DexFile.NumClassDefs dex_file))
          then Done tt (after w (heading ++ classes) [DexFile_Open location])
          else Fatal "Check failed: oat_class.get() != NULL"
                     (after w (heading ++ classes) [DexFile_Open location])
  end.
Proof.
  intros location heading.
  assert (Hhead : forall w,
             OatDump.DumpOatDexFile T P E host_prefix oat_file oat_dex_file w
             = match open_dex_file E location with
               | None => os_write ("NOT FOUND" ++ LF ++ LF)
               | Some dex_file =>
                   for_each (indices (DexFile.NumClassDefs dex_file))
                     (OatDump.DumpOatDexFile_class T P oat_file oat_dex_file
                                                   dex_file)
               end (after w heading [DexFile_Open location])).
  { intros w. unfold OatDump.DumpOatDexFile.
    repeat (rewrite bind_os_write; cbv beta).
    subst location heading. unfold translated, dex_file_heading.
    destruct (negb (empty host_prefix)).
    - rewrite bind_assoc, bind_os_write, bind_ret_l.
      repeat (rewrite bind_os_write; cbv beta). rewrite bind_call.
      rewrite !written_written, written_is_after, called_is_after,
        after_after.
      match goal with
      | |- _ (after _ ?t1 _) = _ (after _ ?t2 _) =>
          replace t1 with t2 by same_text; reflexivity
      end.
    - rewrite bind_ret_l.
      repeat (rewrite bind_os_write; cbv beta). rewrite bind_call.
      rewrite !written_written, written_is_after, called_is_after,
        after_after.
      match goal with
      | |- _ (after _ ?t1 _) = _ (after _ ?t2 _) =>
          replace t1 with t2 by same_text; reflexivity
      end. }
  destruct (open_dex_file E location) as [dex_file |].
  - destruct (for_each_outcome
                (fun i => is_some (OatDexFile.GetOatClass oat_dex_file i))
                "Check failed: oat_class.get() != NULL"
                (OatDump.DumpOatDexFile_class T P oat_file oat_dex_file
                                              dex_file)
                (indices (DexFile.NumClassDefs dex_file)))
      as [classes Hclasses].
    + intros i. apply DumpOatDexFile_class_writes.
    + intros i. apply DumpOatDexFile_class_stops.
    + exists classes. intros w. rewrite Hhead, Hclasses.
      rewrite written_is_after, after_after, app_nil_r. reflexivity.
  - intros w. rewrite Hhead, os_write_eq.
    rewrite written_is_after, after_after, app_nil_r. reflexivity.
Qed.
End OatDumpRuns.

(** X5.  [DumpOatDexFile] writes its heading and makes one lookup, of the
    dex file at its location behind the host prefix.  When the dex file is
    not found it writes NOT FOUND and an empty line and returns: this is no
    error.  When it is found, [DumpOatDexFile] runs to its end exactly when
    every class definition index of the dex file has an oat class, and
    stops at the check [oat_class.get() != NULL] otherwise; nothing else in
    the dump of a dex file can stop it. *)
Theorem DumpOatDexFile_outcome
    (T : Target) (P : Printf) (E : Env) (host_prefix : string)
    (oat_file : OatFile.t) (oat_dex_file : OatDexFile.t) :
  let location :=
    translated host_prefix (OatDexFile.GetDexFileLocation oat_dex_file) in
  let heading := dex_file_heading P host_prefix oat_dex_file in
  match open_dex_file E location with
  | None =>
      forall w,
        OatDump.DumpOatDexFile T P E host_prefix oat_file oat_dex_file w
        = Done tt (after w (heading ++ "NOT FOUND" ++ LF ++ LF)
                         [DexFile_Open location])
  | Some dex_file =>
      exists classes, forall w,
        OatDump.DumpOatDexFile T P E host_prefix oat_file oat_dex_file w
        = if forallb
               (fun i => is_some (OatDexFile.GetOatClass oat_dex_file i))
               (indices (DexFile.NumClassDefs dex_file))
          then Done tt (after w (heading ++ classes) [DexFile_Open location])
          else Fatal "Check failed: oat_class.get() != NULL"
                     (after w (heading ++ classes) [DexFile_Open location])
  end.
Proof. apply DumpOatDexFile_run. Qed.

Section OatDumpLookups.
Variable T : Target.
Variable P : Printf.
Variable E : Env.
Variable host_prefix : string.
Variable oat_file : OatFile.t.

Definition dex_file_lookup (oat_dex_file : OatDexFile.t) : Call :=
  DexFile_Open
    (translated host_prefix (OatDexFile.GetDexFileLocation oat_dex_file)).

Lemma DumpOatDexFile_Done oat_dex_file w u w1 :
  OatDump.DumpOatDexFile T P E host_prefix oat_file oat_dex_file w
  = Done u w1 ->
  calls w1 = (calls w ++ [dex_file_lookup oat_dex_file])%list.
Proof.
  intros H.
  pose proof (DumpOatDexFile_run T P E host_prefix oat_file oat_dex_file)
    as Hrun.
  cbv zeta in Hrun.
  destruct (open_dex_file E _) as [dex_file |].
  - destruct Hrun as [classes Hrun]. rewrite Hrun in H.
    destruct (forallb _ _); [| discriminate].
    inversion H. reflexivity.
  - rewrite Hrun in H. inversion H. reflexivity.
Qed.

Lemma dex_files_loop_Done (l : list (option OatDexFile.t)) :
  forall w u w1,
    for_each l
      (fun oat_dex_file =>
         oat_dex_file <- CHECK_NOTNULL oat_dex_file "oat_dex_file != NULL" ;;
         OatDump.DumpOatDexFile T P E host_prefix oat_file oat_dex_file) w
    = Done u w1 ->
    exists dex_files,
      l = map Some dex_files
      /\ calls w1 = (calls w ++ map dex_file_lookup dex_files)%list.
Proof.
  induction l as [| d l IH]; intros w u w1 H; simpl in H.
  - inversion H. exists []. simpl. rewrite app_nil_r. split; reflexivity.
  - apply bind_Done in H. destruct H as [u1 [w2 [Hd Hl]]].
    destruct d as [d |]; [| discriminate].
    unfold CHECK_NOTNULL in Hd. rewrite bind_ret_l in Hd.
    apply DumpOatDexFile_Done in Hd.
    destruct (IH _ _ _ Hl) as [ds [Hds Hcalls]].
    exists (d :: ds). split; [simpl; congruence |].
    rewrite Hcalls, Hd, <- app_assoc. reflexivity.
Qed.
End OatDumpLookups.

(** X6.  A dump of an oat file that runs to its end has opened every dex
    file of the oat file once, in the order of the oat file, each at its
    location behind the host prefix, and has made no other lookup; no entry
    of the oat file's dex files was NULL. *)
Theorem OatDump_Dump_opens_each_dex_file_once
    (T : Target) (P : Printf) (E : Env) (oat_filename host_prefix : string)
    (oat_file : OatFile.t) (w : World) (u : unit) (w1 : World) :
  OatDump.Dump T P E oat_filename host_prefix oat_file w = Done u w1 ->
  exists dex_files,
    OatFile.GetOatDexFiles oat_file = map Some dex_files
    /\ calls w1
       = (calls w
          ++ map (fun oat_dex_file =>
                    DexFile_Open
                      (translated host_prefix
                         (OatDexFile.GetDexFileLocation oat_dex_file)))
                 dex_files)%list.
Proof.
  unfold OatDump.Dump. repeat (rewrite bind_os_write; cbv beta).
  intros H. apply dex_files_loop_Done in H. exact H.
Qed.

(* ------------------------------------------------------------------ *)
(** ** The walk over the heap as a whole *)

(** The statistics after the visits of the objects of [objects] that lie
    in [space], in the order of the walk. *)
Definition walked (T : Target) (space : Space.t) (objects : list Object.t)
    (stats : Stats.t) : Stats.t :=
  fold_left (fun stats obj => visit T obj stats)
            (filter (Space.Contains space) objects) stats.

Definition is_managed_method (obj : Object.t) : bool :=
  Object.IsMethod obj
  && match execution_kind (Object.AsMethod obj) with
     | Managed => true
     | _ => false
     end.

(** The padding behind an object. *)
Definition padding (T : Target) (obj : Object.t) : N :=
  size_sub T (RoundUp T (Object.SizeOf obj) (kObjectAlignment T))
           (Object.SizeOf obj).

Definition contributions {A} (c : A -> option N) (l : list A) : list N :=
  flat_map (fun a => match c a with Some n => [n] | None => [] end) l.

Lemma contributions_filter {A} (p : A -> bool) (f : A -> N) (l : list A) :
  contributions (fun a => if p a then Some (f a) else None) l
  = map f (filter p l).
Proof.
  unfold contributions. induction l as [| a l IH]; simpl; [reflexivity |].
  destruct (p a); simpl; congruence.
Qed.

Section WholeWalk.
Variable T : Target.
Variable P : Printf.

Lemma Walk_Done_walked objects :
  forall state w state1 w1,
    ImageDump.Walk T P objects state w = Done state1 w1 ->
    state1
    = ImageDump.set_stats
        (walked T (ImageDump.dump_space_ state) objects
                (ImageDump.stats_ state)) state.
Proof.
  unfold walked.
  induction objects as [| obj rest IH]; intros state w state1 w1 H;
    simpl in H.
  - inversion H; subst. destruct state1; reflexivity.
  - apply bind_Done in H. destruct H as [s [w2 [Hc Hw]]].
    apply IH in Hw. simpl filter.
    destruct (Space.Contains (ImageDump.dump_space_ state) obj) eqn:Hin.
    + destruct (Callback_inside T P obj state w s w2 Hin Hc) as [Hs _].
      subst s. simpl in Hw. exact Hw.
    + rewrite (Callback_outside T P obj state w Hin) in Hc.
      injection Hc as Hs _. subst s. exact Hw.
Qed.

(** A total that a visit either leaves or adds to is, after the visits, the
    start value with the contributions added one by one. *)
Lemma fold_visit_total (F : Stats.t -> N) (c : Object.t -> option N) :
  (forall obj stats,
     F (visit T obj stats)
     = match c obj with
       | Some n => size_add T (F stats) n
       | None => F stats
       end) ->
  forall l stats,
    F (fold_left (fun stats obj => visit T obj stats) l stats)
    = fold_left (size_add T) (contributions c l) (F stats).
Proof.
  intros Hstep. unfold contributions.
  induction l as [| obj l IH]; intros stats; simpl; [reflexivity |].
  rewrite IH, Hstep. destruct (c obj); reflexivity.
Qed.

Lemma visit_alignment_bytes obj stats :
  Stats.alignment_bytes (visit T obj stats)
  = size_add T (Stats.alignment_bytes stats) (padding T obj).
Proof.
  unfold visit. destruct (Object.IsMethod obj); [| reflexivity].
  destruct (execution_kind (Object.AsMethod obj)); reflexivity.
Qed.

Lemma visit_register_map_bytes obj stats :
  Stats.register_map_bytes (visit T obj stats)
  = match (if is_managed_method obj
           then Some (Method.GetGcMapLength (Object.AsMethod obj))
           else None) with
    | Some n => size_add T (Stats.register_map_bytes stats) n
    | None => Stats.register_map_bytes stats
    end.
Proof.
  unfold visit, is_managed_method.
  destruct (Object.IsMethod obj); [| reflexivity].
  destruct (execution_kind (Object.AsMethod obj)); reflexivity.
Qed.

Lemma visit_pc_mapping_table_bytes obj stats :
  Stats.pc_mapping_table_bytes (visit T obj stats)
  = match (if is_managed_method obj
           then Some (Method.GetMappingTableLength (Object.AsMethod obj))
           else None) with
    | Some n => size_add T (Stats.pc_mapping_table_bytes stats) n
    | None => Stats.pc_mapping_table_bytes stats
    end.
Proof.
  unfold visit, is_managed_method.
  destruct (Object.IsMethod obj); [| reflexivity].
  destruct (execution_kind (Object.AsMethod obj)); reflexivity.
Qed.

Lemma visit_dex_instruction_bytes obj stats :
  Stats.dex_instruction_bytes (visit T obj stats)
  = match (if is_managed_method obj
           then Some (uint32_mul
                        (Method.insns_size_in_code_units_
                           (Object.AsMethod obj)) 2)
           else None) with
    | Some n => size_add T (Stats.dex_instruction_bytes stats) n
    | None => Stats.dex_instruction_bytes stats
    end.
Proof.
  unfold visit, is_managed_method.
  destruct (Object.IsMethod obj); [| reflexivity].
  destruct (execution_kind (Object.AsMethod obj)); reflexivity.
Qed.

(** The totals no visit touches. *)
Lemma visit_untouched obj stats :
  Stats.file_bytes (visit T obj stats) = Stats.file_bytes stats
  /\ Stats.header_bytes (visit T obj stats) = Stats.header_bytes stats
  /\ Stats.managed_code_bytes (visit T obj stats)
     = Stats.managed_code_bytes stats
  /\ Stats.managed_to_native_code_bytes (visit T obj stats)
     = Stats.managed_to_native_code_bytes stats
  /\ Stats.native_to_managed_code_bytes (visit T obj stats)
     = Stats.native_to_managed_code_bytes stats.
Proof.
  unfold visit. destruct (Object.IsMethod obj);
    [destruct (execution_kind (Object.AsMethod obj)) |];
    repeat split; reflexivity.
Qed.

Lemma fold_visit_untouched (F : Stats.t -> N) :
  (forall obj stats, F (visit T obj stats) = F stats) ->
  forall l stats,
    F (fold_left (fun stats obj => visit T obj stats) l stats) = F stats.
Proof.
  intros Hstep. induction l as [| obj l IH]; intros stats; simpl;
    [reflexivity |].
  rewrite IH. apply Hstep.
Qed.
End WholeWalk.

(** X7.  The totals of a walk.  After a walk from the fresh accumulator
    that ran to its end, [object_bytes] is the sum of the sizes of the
    objects in the dump space and [alignment_bytes] the sum of their
    paddings; [register_map_bytes], [pc_mapping_table_bytes] and
    [dex_instruction_bytes] are the sums of the register-map lengths, the
    mapping-table lengths and the code sizes (instruction units times 2, in
    32 bits) of the managed methods among them; each sum is taken in
    [size_t].  [file_bytes], [header_bytes] and the three code totals are
    still 0. *)
Theorem Walk_totals
    (T : Target) (P : Printf) (space : Space.t) (objects : list Object.t)
    (w : World) (state : ImageDump.t) (w1 : World) :
  ImageDump.Walk T P objects (ImageDump.make space) w = Done state w1 ->
  let visited := filter (Space.Contains space) objects in
  let managed := map Object.AsMethod (filter is_managed_method visited) in
  let stats := ImageDump.stats_ state in
  Stats.object_bytes stats = sum (map Object.SizeOf visited) mod size_max T
  /\ Stats.alignment_bytes stats
     = sum (map (padding T) visited) mod size_max T
  /\ Stats.register_map_bytes stats
     = sum (map Method.GetGcMapLength managed) mod size_max T
  /\ Stats.pc_mapping_table_bytes stats
     = sum (map Method.GetMappingTableLength managed) mod size_max T
  /\ Stats.dex_instruction_bytes stats
     = sum (map (fun method =>
                   uint32_mul (Method.insns_size_in_code_units_ method) 2)
                managed) mod size_max T
  /\ Stats.file_bytes stats = 0
  /\ Stats.header_bytes stats = 0
  /\ Stats.managed_code_bytes stats = 0
  /\ Stats.managed_to_native_code_bytes stats = 0
  /\ Stats.native_to_managed_code_bytes stats = 0.
Proof.
  intros H visited managed stats.
  apply Walk_Done_walked in H. subst stats. rewrite H.
  unfold walked. cbn [ImageDump.stats_ ImageDump.set_stats ImageDump.make
                      ImageDump.dump_space_].
  fold visited. subst managed. rewrite !map_map.
  repeat split.
  - rewrite (fold_visit_total T Stats.object_bytes
               (fun obj => Some (Object.SizeOf obj))).
    + rewrite (contributions_filter (fun _ => true)), fold_size_add_0.
      rewrite filter_true. reflexivity.
    + intros. apply visit_object_bytes.
  - rewrite (fold_visit_total T Stats.alignment_bytes
               (fun obj => Some (padding T obj))).
    + rewrite (contributions_filter (fun _ => true)), fold_size_add_0.
      rewrite filter_true. reflexivity.
    + intros. apply visit_alignment_bytes.
  - rewrite (fold_visit_total T Stats.register_map_bytes _
               (visit_register_map_bytes T)).
    rewrite (contributions_filter is_managed_method
               (fun obj => Method.GetGcMapLength (Object.AsMethod obj))).
    apply fold_size_add_0.
  - rewrite (fold_visit_total T Stats.pc_mapping_table_bytes _
               (visit_pc_mapping_table_bytes T)).
    rewrite (contributions_filter is_managed_method
               (fun obj =>
                  Method.GetMappingTableLength (Object.AsMethod obj))).
    apply fold_size_add_0.
  - rewrite (fold_visit_total T Stats.dex_instruction_bytes _
               (visit_dex_instruction_bytes T)).
    rewrite (contributions_filter is_managed_method
               (fun obj =>
                  uint32_mul (Method.insns_size_in_code_units_
                                (Object.AsMethod obj)) 2)).
    apply fold_size_add_0.
  - apply (fold_visit_untouched T Stats.file_bytes).
    intros. apply visit_untouched.
  - apply (fold_visit_untouched T Stats.header_bytes).
    intros. apply visit_untouched.
  - apply (fold_visit_untouched T Stats.managed_code_bytes).
    intros. apply visit_untouched.
  - apply (fold_visit_untouched T Stats.managed_to_native_code_bytes).
    intros. apply visit_untouched.
  - apply (fold_visit_untouched T Stats.native_to_managed_code_bytes).
    intros. apply visit_untouched.
Qed.

(* ------------------------------------------------------------------ *)
(** ** The two tables of a walk *)

(** Keys in strictly increasing order, the order a [std::map] keeps. *)
Fixpoint increasing (l : list string) : Prop :=
  match l with
  | [] => True
  | k :: rest =>
      Forall (fun k' => String.compare k k' = Lt) rest /\ increasing rest
  end.

Lemma ascii_compare_refl (a : ascii) : Ascii.compare a a = Eq.
Proof. unfold Ascii.compare. apply N.compare_refl. Qed.

Lemma ascii_compare_lt_trans (a b c : ascii) :
  Ascii.compare a b = Lt -> Ascii.compare b c = Lt -> Ascii.compare a c = Lt.
Proof.
  unfold Ascii.compare. rewrite !N.compare_lt_iff. apply N.lt_trans.
Qed.

Lemma string_compare_lt_trans (a : string) :
  forall b c,
    String.compare a b = Lt -> String.compare b c = Lt ->
    String.compare a c = Lt.
Proof.
  induction a as [| x a IH]; intros [| y b] [| z c]; simpl;
    try discriminate; try reflexivity.
  destruct (Ascii.compare x y) eqn:Hxy; try discriminate;
    destruct (Ascii.compare y z) eqn:Hyz; try discriminate; intros H1 H2.
  - apply Ascii.compare_eq_iff in Hxy, Hyz. subst.
    rewrite ascii_compare_refl. exact (IH _ _ H1 H2).
  - apply Ascii.compare_eq_iff in Hxy. subst. rewrite Hyz. reflexivity.
  - apply Ascii.compare_eq_iff in Hyz. subst. rewrite Hxy. reflexivity.
  - rewrite (ascii_compare_lt_trans _ _ _ Hxy Hyz). reflexivity.
Qed.

Lemma string_compare_refl (a : string) : String.compare a a = Eq.
Proof.
  induction a as [| x a IH]; simpl; [reflexivity |].
  rewrite ascii_compare_refl. exact IH.
Qed.

Lemma string_compare_lt_neq (a b : string) :
  String.compare a b = Lt -> String.eqb b a = false.
Proof.
  intros H. apply String.eqb_neq. intros ->.
  rewrite string_compare_refl in H. discriminate.
Qed.

Lemma string_compare_gt_lt (a b : string) :
  String.compare a b = Gt -> String.compare b a = Lt.
Proof.
  intros H. rewrite String.compare_antisym, H. reflexivity.
Qed.

Lemma In_keys_map_update (d k : string) (f : N -> N) (m : std_map) :
  In d (keys (map_update k f m)) <-> d = k \/ In d (keys m).
Proof.
  induction m as [| [k' v] m IH]; simpl.
  - intuition.
  - destruct (String.compare k k') eqn:Hc; simpl.
    + apply String.compare_eq_iff in Hc. subst. intuition.
    + intuition.
    + rewrite IH. intuition.
Qed.

Lemma increasing_map_update (k : string) (f : N -> N) (m : std_map) :
  increasing (keys m) -> increasing (keys (map_update k f m)).
Proof.
  induction m as [| [k' v] m IH]; simpl.
  - intros _. split; [constructor | exact I].
  - intros [Hall Hinc]. destruct (String.compare k k') eqn:Hc; simpl.
    + split; assumption.
    + split; [| split; assumption].
      constructor; [exact Hc |].
      rewrite Forall_forall in *. intros d Hd.
      exact (string_compare_lt_trans _ _ _ Hc (Hall d Hd)).
    + split; [| exact (IH Hinc)].
      rewrite Forall_forall in *. intros d Hd.
      apply In_keys_map_update in Hd. destruct Hd as [-> | Hd].
      * apply string_compare_gt_lt, Hc.
      * exact (Hall d Hd).
Qed.

Lemma map_find_below (k : string) (m : std_map) :
  Forall (fun k' => String.compare k k' = Lt) (keys m) -> map_find k m = None.
Proof.
  induction m as [| [k' v] m IH]; simpl; [reflexivity |].
  intros H. inversion H as [| ? ? Hk Hrest]; subst.
  rewrite String.eqb_sym, (string_compare_lt_neq _ _ Hk). exact (IH Hrest).
Qed.

(** [m[k] = f(m[k])] changes what is read at [k] and nothing else. *)
Lemma map_get_map_update (d k : string) (f : N -> N) (m : std_map) :
  increasing (keys m) ->
  map_get d (map_update k f m)
  = if String.eqb d k then f (map_get k m) else map_get d m.
Proof.
  unfold map_get. induction m as [| [k' v] m IH]; simpl.
  - intros _. destruct (String.eqb d k); reflexivity.
  - intros [Hall Hinc]. destruct (String.compare k k') eqn:Hc; simpl.
    + apply String.compare_eq_iff in Hc. subst k'.
      rewrite String.eqb_refl. destruct (String.eqb d k); reflexivity.
    + rewrite String.eqb_sym with (x := k),
        (string_compare_lt_neq _ _ Hc).
      rewrite (map_find_below k m).
      2: { rewrite Forall_forall in *. intros x Hx.
           exact (string_compare_lt_trans _ _ _ Hc (Hall x Hx)). }
      destruct (String.eqb d k); reflexivity.
    + apply string_compare_gt_lt in Hc.
      rewrite (string_compare_lt_neq _ _ Hc).
      destruct (String.eqb d k') eqn:Hd.
      * apply String.eqb_eq in Hd. subst d.
        rewrite String.eqb_sym, (string_compare_lt_neq _ _ Hc).
        reflexivity.
      * exact (IH Hinc).
Qed.

Lemma sum_ones {A} (l : list A) :
  sum (map (fun _ => 1) l) = N.of_nat (List.length l).
Proof.
  induction l as [| a l IH]; [reflexivity |].
  cbn [map List.length sum fold_right]. fold (sum (map (fun _ : A => 1) l)).
  rewrite IH. lia.
Qed.

Section Tables.
Variable T : Target.

Definition descriptor_of (obj : Object.t) : string :=
  Klass.GetDescriptor (Object.GetClass obj).

(** The invariant of the two tables, and what a visit does to an entry. *)
Definition tables_increasing (stats : Stats.t) : Prop :=
  increasing (keys (Stats.descriptor_to_bytes stats))
  /\ increasing (keys (Stats.descriptor_to_count stats)).

Lemma visit_tables_increasing obj stats :
  tables_increasing stats -> tables_increasing (visit T obj stats).
Proof.
  intros [Hb Hc]. split.
  - rewrite visit_descriptor_to_bytes. apply increasing_map_update, Hb.
  - rewrite visit_descriptor_to_count. apply increasing_map_update, Hc.
Qed.

Lemma fold_visit_tables_increasing l :
  forall stats,
    tables_increasing stats ->
    tables_increasing (fold_left (fun stats obj => visit T obj stats) l stats).
Proof.
  induction l as [| obj l IH]; intros stats H; simpl; [exact H |].
  apply IH, visit_tables_increasing, H.
Qed.

Lemma fold_visit_entry (F : Stats.t -> N) (c : Object.t -> option N) :
  (forall obj stats,
     tables_increasing stats ->
     F (visit T obj stats)
     = match c obj with
       | Some n => size_add T (F stats) n
       | None => F stats
       end) ->
  forall l stats,
    tables_increasing stats ->
    F (fold_left (fun stats obj => visit T obj stats) l stats)
    = fold_left (size_add T) (contributions c l) (F stats).
Proof.
  intros Hstep. unfold contributions.
  induction l as [| obj l IH]; intros stats H; simpl; [reflexivity |].
  rewrite (IH _ (visit_tables_increasing obj stats H)), (Hstep _ _ H).
  destruct (c obj); reflexivity.
Qed.

Lemma fold_visit_keys (d : string) l :
  forall stats,
    In d (keys (Stats.descriptor_to_bytes
                  (fold_left (fun stats obj => visit T obj stats) l stats)))
    <-> In d (keys (Stats.descriptor_to_bytes stats))
        \/ exists obj, In obj l /\ descriptor_of obj = d.
Proof.
  induction l as [| obj l IH]; intros stats; simpl.
  - split; [auto | intros [H | [obj [[] _]]]; exact H].
  - rewrite IH, visit_descriptor_to_bytes, In_keys_map_update.
    unfold descriptor_of. split.
    + intros [[-> | H] | [o [Ho Hd]]]; eauto.
    + intros [H | [o [[-> | Ho] Hd]]]; eauto.
Qed.
End Tables.

Lemma filter_not_nil {A} (p : A -> bool) (l : list A) :
  filter p l <> [] <-> exists a, In a l /\ p a = true.
Proof.
  induction l as [| a l IH]; simpl.
  - split; [congruence | intros [a [[] _]]].
  - destruct (p a) eqn:Hp.
    + split; [intros _; exists a; auto | discriminate].
    + rewrite IH. split.
      * intros [x [Hx Hpx]]. exists x. auto.
      * intros [x [[-> | Hx] Hpx]]; [congruence | exists x; auto].
Qed.

(** X8.  The two tables of a walk.  After a walk from the fresh accumulator
    that ran to its end, what [descriptor_to_bytes] holds for a descriptor
    is the sum of the sizes of the objects in the dump space whose class has
    that descriptor, and what [descriptor_to_count] holds is their number,
    both in [size_t]; a descriptor is a key exactly when there is such an
    object; and the keys are in strictly increasing order, the order in
    which [Stats::Dump] lists them. *)
Theorem descriptor_tables_of_a_walk
    (T : Target) (P : Printf) (space : Space.t) (objects : list Object.t)
    (w : World) (state : ImageDump.t) (w1 : World) (descriptor : string) :
  ImageDump.Walk T P objects (ImageDump.make space) w = Done state w1 ->
  let instances :=
    filter (fun obj => String.eqb descriptor (descriptor_of obj))
           (filter (Space.Contains space) objects) in
  let stats := ImageDump.stats_ state in
  map_get descriptor (Stats.descriptor_to_bytes stats)
  = sum (map Object.SizeOf instances) mod size_max T
  /\ map_get descriptor (Stats.descriptor_to_count stats)
     = N.of_nat (List.length instances) mod size_max T
  /\ (In descriptor (keys (Stats.descriptor_to_bytes stats))
      <-> instances <> [])
  /\ increasing (keys (Stats.descriptor_to_bytes stats)).
Proof.
  intros H instances stats.
  apply Walk_Done_walked in H. subst stats. rewrite H.
  unfold walked. cbn [ImageDump.stats_ ImageDump.set_stats ImageDump.make
                      ImageDump.dump_space_].
  assert (Hinit : tables_increasing Stats.init) by (split; exact I).
  split; [| split; [| split]].
  - rewrite (fold_visit_entry T
               (fun s => map_get descriptor (Stats.descriptor_to_bytes s))
               (fun obj => if String.eqb descriptor (descriptor_of obj)
                           then Some (Object.SizeOf obj) else None)).
    + rewrite contributions_filter. apply fold_size_add_0.
    + intros obj s [Hb _]. rewrite visit_descriptor_to_bytes.
      rewrite (map_get_map_update _ _ _ _ Hb). unfold descriptor_of.
      destruct (String.eqb_spec descriptor
                  (Klass.GetDescriptor (Object.GetClass obj)));
        [subst descriptor |]; reflexivity.
    + exact Hinit.
  - rewrite (fold_visit_entry T
               (fun s => map_get descriptor (Stats.descriptor_to_count s))
               (fun obj => if String.eqb descriptor (descriptor_of obj)
                           then Some 1 else None)).
    + rewrite (contributions_filter _ (fun _ => 1)), fold_size_add_0.
      rewrite sum_ones. reflexivity.
    + intros obj s [_ Hc]. rewrite visit_descriptor_to_count.
      rewrite (map_get_map_update _ _ _ _ Hc). unfold descriptor_of.
      destruct (String.eqb_spec descriptor
                  (Klass.GetDescriptor (Object.GetClass obj)));
        [subst descriptor |]; reflexivity.
    + exact Hinit.
  - rewrite fold_visit_keys. subst instances. rewrite filter_not_nil.
    split.
    + intros [[] | [obj [Hin Hd]]]. exists obj. split; [exact Hin |].
      rewrite Hd. apply String.eqb_refl.
    + intros [obj [Hin Hd]]. right. exists obj. split; [exact Hin |].
      apply String.eqb_eq in Hd. congruence.
  - apply (fold_visit_tables_increasing T _ _ Hinit).
Qed.

(* ------------------------------------------------------------------ *)
(** ** When a walk runs to its end *)

Section WalkOutcome.
Variable T : Target.
Variable P : Printf.

Lemma Walk_runs objects :
  forall state w,
    (forall obj,
       In obj objects ->
       Space.Contains (ImageDump.dump_space_ state) obj = true ->
       Object.IsMethod obj = true -> kIsDebugBuild T = true ->
       checked_contract (Object.AsMethod obj)) ->
    exists state1 w1, ImageDump.Walk T P objects state w = Done state1 w1.
Proof.
  induction objects as [| obj rest IH]; intros state w H; simpl.
  - eexists. eexists. reflexivity.
  - assert (Hc : exists s w2, ImageDump.Callback T P obj state w = Done s w2).
    { destruct (ImageDump.InDumpSpace state obj) eqn:Hin.
      - apply (Callback_runs T P obj state w Hin).
        intros Hm Hd. apply (H obj); auto. left. reflexivity.
      - eexists. eexists. apply (Callback_outside T P obj state w Hin). }
    destruct Hc as [s [w2 Hc]].
    rewrite (bind_Done_eq _ _ _ _ _ Hc). apply IH.
    rewrite (Callback_dump_space T P _ _ _ _ _ Hc).
    intros o Ho. apply H. right. exact Ho.
Qed.

Lemma Walk_Done_checks objects :
  kIsDebugBuild T = true ->
  forall state w state1 w1,
    ImageDump.Walk T P objects state w = Done state1 w1 ->
    forall obj,
      In obj objects ->
      Space.Contains (ImageDump.dump_space_ state) obj = true ->
      Object.IsMethod obj = true ->
      checked_contract (Object.AsMethod obj).
Proof.
  intros Hdebug.
  induction objects as [| obj rest IH]; intros state w state1 w1 H o Ho;
    simpl in H; [destruct Ho |].
  apply bind_Done in H. destruct H as [s [w2 [Hc Hw]]].
  destruct Ho as [-> | Ho].
  - intros Hin Hm. exact (Callback_checks T P o state w s w2 Hdebug Hin Hm Hc).
  - rewrite <- (Callback_dump_space T P _ _ _ _ _ Hc).
    exact (IH _ _ _ _ Hw o Ho).
Qed.
End WalkOutcome.

(** X9.  A walk runs to its end exactly when, in a build with DCHECK, every
    method object in the dump space keeps the checked contract: the
    register map and the mapping table of a native, abstract or callee-save
    method are absent, the register map of a managed method is present.
    Objects outside the dump space and objects that are no methods never
    stop it, and in a build without DCHECK nothing does. *)
Theorem Walk_runs_to_its_end_iff
    (T : Target) (P : Printf) (space : Space.t) (objects : list Object.t)
    (w : World) :
  (exists state w1,
     ImageDump.Walk T P objects (ImageDump.make space) w = Done state w1)
  <-> (kIsDebugBuild T = true ->
       forall obj,
         In obj objects -> Space.Contains space obj = true ->
         Object.IsMethod obj = true ->
         checked_contract (Object.AsMethod obj)).
Proof.
  split.
  - intros [state [w1 H]] Hdebug obj Hin Hs Hm.
    exact (Walk_Done_checks T P objects Hdebug _ _ _ _ H obj Hin Hs Hm).
  - intros H. apply Walk_runs. intros obj Hin Hs Hm Hdebug.
    exact (H Hdebug obj Hin Hs Hm).
Qed.

(* ------------------------------------------------------------------ *)
(** ** When the heap part of the image dump runs to its end *)

Lemma for_each_writes {A} (body : A -> M unit) (l : list A) :
  (forall a, exists text, forall w, body a w = Done tt (written w text)) ->
  exists text, forall w, for_each l body w = Done tt (written w text).
Proof.
  intros H. induction l as [| a l [text IH]].
  - exists "". intros w. simpl. rewrite written_nil. reflexivity.
  - destruct (H a) as [t Ht]. exists (t ++ text). intros w. simpl.
    rewrite (bind_Done_eq _ _ _ _ _ (Ht w)), IH, written_written.
    reflexivity.
Qed.

Section HeapPart.
Variable T : Target.
Variable P : Printf.
Variable E : Env.

(** Whether a walk runs to its end, and the statistics it ends with, do not
    depend on what the process has written before. *)
Lemma Walk_any_world objects state w0 state1 w1 :
  ImageDump.Walk T P objects state w0 = Done state1 w1 ->
  forall w, exists w2, ImageDump.Walk T P objects state w = Done state1 w2.
Proof.
  intros H w.
  destruct (Walk_runs T P objects state w) as [s [w2 Hs]].
  { intros obj Hin Hc Hm Hdebug.
    exact (Walk_Done_checks T P objects Hdebug _ _ _ _ H obj Hin Hc Hm). }
  exists w2. rewrite Hs.
  rewrite (Walk_Done_walked T P _ _ _ _ _ H),
    (Walk_Done_walked T P _ _ _ _ _ Hs).
  reflexivity.
Qed.

Lemma Walk_Done_object_bytes_invariant space objects w state w1
    image_filename :
  ImageDump.Walk T P objects (ImageDump.make space) w = Done state w1 ->
  object_bytes_invariant T
    (ImageDump.finalize T E image_filename (ImageDump.stats_ state)).
Proof.
  intros H. unfold object_bytes_invariant.
  rewrite fold_size_add_0.
  exact (Walk_object_bytes T P space objects w state w1 H).
Qed.

(** The loop over the image roots writes and fails no check. *)
Lemma image_roots_loop_writes image_header (l : list N) :
  exists text, forall w,
    for_each l
      (fun i =>
         let image_root_description :=
           nth (N.to_nat i) image_roots_descriptions_ "" in
         let image_root_object := ImageHeader.GetImageRoot image_header i in
         os_write (image_root_description ++ ": "
                   ++ fmt_p P (Object.this image_root_object) ++ LF) ;;
         if Object.IsObjectArray image_root_object then
           for_each (indexed (Object.elements image_root_object))
             (fun '(i, element) =>
                os_write (TAB ++ fmt_d P (Z.of_N i) ++ ": "
                          ++ fmt_p P element ++ LF))
         else ret tt) w
    = Done tt (written w text).
Proof.
  apply for_each_writes. intros i. cbv zeta.
  destruct (Object.IsObjectArray (ImageHeader.GetImageRoot image_header i)).
  - destruct (for_each_writes
                (fun '(i, element) =>
                   os_write (TAB ++ fmt_d P (Z.of_N i) ++ ": "
                             ++ fmt_p P element ++ LF))
                (indexed (Object.elements
                            (ImageHeader.GetImageRoot image_header i))))
      as [text Htext].
    { intros [j element]. eexists. intros w. apply os_write_eq. }
    eexists. intros w. rewrite bind_os_write, Htext, written_written.
    reflexivity.
  - eexists. intros w. rewrite bind_os_write. reflexivity.
Qed.
End HeapPart.

(** X10.  The heap part of the image dump, for a heap whose walk runs to
    its end, itself runs to its end exactly when the table of root
    descriptions has [kImageRootsMax] entries and the length of the image
    file is the sum of the header size, the object bytes and the alignment
    bytes in [size_t].  The second check of [Stats::Dump], that
    [object_bytes] is the sum of the values of [descriptor_to_bytes], never
    fails after a walk. *)
Theorem Dump_heap_runs_to_its_end_iff
    (T : Target) (P : Printf) (E : Env) (image_filename : string)
    (runtime : Runtime.t) (image_space : Space.t)
    (image_header : ImageHeader.t) (state : ImageDump.t)
    (w0 w1 w : World) :
  ImageDump.Walk T P (Runtime.live_objects runtime)
                 (ImageDump.make image_space) w0
  = Done state w1 ->
  (exists w2,
     ImageDump.Dump_heap T P E image_filename runtime image_space
                         image_header w
     = Done tt w2)
  <-> (kImageRootsMax T = N.of_nat (List.length image_roots_descriptions_)
       /\ file_bytes_invariant T
            (ImageDump.finalize T E image_filename
                                (ImageDump.stats_ state))).
Proof.
  intros Hwalk.
  pose proof (Walk_Done_object_bytes_invariant T P E _ _ _ _ _ image_filename
                Hwalk) as Hobj.
  unfold ImageDump.Dump_heap.
  repeat (rewrite bind_os_write; cbv beta).
  destruct (N.eqb_spec (N.of_nat (List.length image_roots_descriptions_))
                       (kImageRootsMax T)) as [Hroots | Hroots].
  2: { rewrite bind_CHECK_false. split.
       - intros [w2 H]. discriminate.
       - intros [H _]. congruence. }
  rewrite bind_CHECK_true.
  destruct (image_roots_loop_writes P image_header
              (indices (kImageRootsMax T))) as [roots Hloop].
  rewrite (bind_Done_eq _ _ _ _ _ (Hloop _)).
  repeat (rewrite bind_os_write; cbv beta).
  match goal with
  | |- context [bind (ImageDump.Walk _ _ _ _) _ ?w3] =>
      destruct (Walk_any_world T P _ _ _ _ _ Hwalk w3) as [w4 Hw4]
  end.
  rewrite (bind_Done_eq _ _ _ _ _ Hw4).
  repeat (rewrite bind_os_write; cbv beta). rewrite bind_call.
  set (stats := ImageDump.finalize T E image_filename
                                   (ImageDump.stats_ state)) in *.
  match goal with
  | |- context [bind (Stats.Dump T P stats) _ ?w5] => set (w_stats := w5)
  end.
  split.
  - intros [w2 H]. split; [congruence |].
    destruct (N.eq_dec (Stats.file_bytes stats)
                (size_add T (size_add T (Stats.header_bytes stats)
                                        (Stats.object_bytes stats))
                          (Stats.alignment_bytes stats))) as [Hf | Hf];
      [exact Hf |].
    destruct (Stats_Dump_fails T P stats w_stats) as [msg [text Hfail]].
    { intros [Hf' _]. exact (Hf Hf'). }
    unfold bind in H. rewrite Hfail in H. discriminate.
  - intros [_ Hf].
    destruct (Stats_Dump_passes T P stats w_stats Hf Hobj) as [text Hpass].
    eexists. rewrite (bind_Done_eq _ _ _ _ _ Hpass). apply os_write_eq.
Qed.

(* ------------------------------------------------------------------ *)
(** ** The oat dump at the end of an image dump *)

(** [uniform m]: what [m] writes, the lookups it makes, and whether it
    returns or stops at a check do not depend on the process it starts
    in. *)
Definition uniform {A} (m : M A) : Prop :=
  exists (r : A + string) text cs, forall w,
    m w = match r with
          | inl a => Done a (after w text cs)
          | inr msg => Fatal msg (after w text cs)
          end.

Lemma uniform_ret {A} (a : A) : uniform (ret a).
Proof.
  exists (inl a), "", []. intros w. rewrite after_nil. reflexivity.
Qed.

Lemma uniform_bind {A B} (m : M A) (k : A -> M B) :
  uniform m -> (forall a, uniform (k a)) -> uniform (bind m k).
Proof.
  intros [[a | msg] [t [cs Hm]]] Hk.
  - destruct (Hk a) as [r [t' [cs' Hka]]].
    exists r, (t ++ t'), (cs ++ cs')%list. intros w.
    rewrite (bind_Done_eq _ _ _ _ _ (Hm w)), Hka.
    destruct r; rewrite after_after; reflexivity.
  - exists (inr msg), t, cs. intros w. unfold bind. rewrite Hm. reflexivity.
Qed.

Lemma uniform_os_write (text : string) : uniform (os_write text).
Proof.
  exists (inl tt), text, []. intros w. rewrite os_write_eq, written_is_after.
  reflexivity.
Qed.

Lemma uniform_call (c : Call) : uniform (call c).
Proof.
  exists (inl tt), "", [c]. intros w. rewrite <- called_is_after. reflexivity.
Qed.

Lemma uniform_CHECK_NOTNULL {A} (p : option A) (what : string) :
  uniform (CHECK_NOTNULL p what).
Proof.
  destruct p as [a |]; [apply uniform_ret |].
  exists (inr ("Check failed: " ++ what)), "", []. intros w.
  rewrite after_nil. reflexivity.
Qed.

Lemma uniform_for_each {A} (l : list A) (body : A -> M unit) :
  (forall a, uniform (body a)) -> uniform (for_each l body).
Proof.
  intros H. induction l as [| a l IH]; simpl.
  - apply uniform_ret.
  - apply uniform_bind; [apply H | intros _; exact IH].
Qed.

Lemma uniform_initial_world {A} (m : M A) :
  uniform m ->
  forall w,
    m w = match m initial_world with
          | Done a w1 => Done a (after w (os w1) (calls w1))
          | Fatal msg w1 => Fatal msg (after w (os w1) (calls w1))
          | Exit c w1 => Exit c (after w (os w1) (calls w1))
          end.
Proof.
  intros [r [text [cs H]]] w. rewrite (H initial_world), (H w).
  destruct r; reflexivity.
Qed.

Section OatDumpUniform.
Variable T : Target.
Variable P : Printf.
Variable E : Env.

Lemma uniform_DumpOatDexFile host_prefix oat_file oat_dex_file :
  uniform (OatDump.DumpOatDexFile T P E host_prefix oat_file oat_dex_file).
Proof.
  pose proof (DumpOatDexFile_run T P E host_prefix oat_file oat_dex_file)
    as H.
  cbv zeta in H. destruct (open_dex_file E _) as [dex_file |].
  - destruct H as [classes H].
    destruct (forallb _ _);
      [exists (inl tt) | exists (inr "Check failed: oat_class.get() != NULL")];
      eexists; eexists; exact H.
  - exists (inl tt). eexists. eexists. exact H.
Qed.

Lemma uniform_OatDump_Dump oat_filename host_prefix oat_file :
  uniform (OatDump.Dump T P E oat_filename host_prefix oat_file).
Proof.
  unfold OatDump.Dump.
  do 16 (apply uniform_bind; [apply uniform_os_write | intros _]).
  apply uniform_for_each. intros d.
  apply uniform_bind; [apply uniform_CHECK_NOTNULL | intros oat_dex_file].
  apply uniform_DumpOatDexFile.
Qed.
End OatDumpUniform.

(** X11.  When the oat file an image names is found, the image dump
    continues, after its heap part and the lines with the location, with
    the dump the oat-file mode gives of that oat file: the same text, the
    same lookups, and the same check stopping it, if one does.  The dump of
    an oat file does not depend on what has been written before it. *)
Theorem image_dump_ends_with_oat_dump
    (T : Target) (P : Printf) (E : Env) (image_filename host_prefix : string)
    (runtime : Runtime.t) (image_space : Space.t)
    (image_header : ImageHeader.t) (oat_file : OatFile.t)
    (w w_heap : World) :
  let stored :=
    Object.ToModifiedUtf8
      (ImageHeader.GetImageRoot image_header (kOatLocation T)) in
  let location := translated host_prefix stored in
  let location_lines :=
    "OAT LOCATION:" ++ LF ++ stored
    ++ (if negb (empty host_prefix) then " (" ++ host_prefix ++ stored ++ ")"
        else "")
    ++ LF ++ LF in
  ImageDump.Dump_heap T P E image_filename runtime image_space image_header w
  = Done tt w_heap ->
  Runtime.find_oat_file runtime location = Some oat_file ->
  ImageDump.Dump T P E image_filename host_prefix runtime image_space
                 image_header w
  = match OatDump.Dump T P E location host_prefix oat_file initial_world with
    | Done u w_oat =>
        Done u (after w_heap (location_lines ++ os w_oat)
                      (FindOatFileFromOatLocation location :: calls w_oat))
    | Fatal msg w_oat =>
        Fatal msg (after w_heap (location_lines ++ os w_oat)
                         (FindOatFileFromOatLocation location :: calls w_oat))
    | Exit c w_oat =>
        Exit c (after w_heap (location_lines ++ os w_oat)
                      (FindOatFileFromOatLocation location :: calls w_oat))
    end.
Proof.
  intros stored location location_lines Hheap Hfind.
  unfold ImageDump.Dump. rewrite (bind_Done_eq _ _ _ _ _ Hheap).
  unfold ImageDump.Dump_oat_location.
  repeat (rewrite bind_os_write; cbv beta).
  fold stored. subst location location_lines. unfold translated in *.
  destruct (negb (empty host_prefix)).
  - rewrite bind_assoc, bind_os_write, bind_ret_l, bind_os_write, bind_call.
    rewrite Hfind, bind_os_write.
    rewrite (uniform_initial_world _
               (uniform_OatDump_Dump T P E (host_prefix ++ stored)
                  host_prefix oat_file)).
    rewrite !written_written, written_is_after, called_is_after,
      !after_after.
    destruct (OatDump.Dump T P E (host_prefix ++ stored) host_prefix oat_file
                           initial_world);
      f_equal; rewrite after_after; unfold after; f_equal; same_text.
  - rewrite bind_ret_l, bind_os_write, bind_call.
    rewrite Hfind, bind_os_write.
    rewrite (uniform_initial_world _
               (uniform_OatDump_Dump T P E stored host_prefix oat_file)).
    rewrite !written_written, written_is_after, called_is_after,
      !after_after.
    destruct (OatDump.Dump T P E stored host_prefix oat_file initial_world);
      f_equal; rewrite after_after; unfold after; f_equal; same_text.
Qed.

(* ------------------------------------------------------------------ *)
(** ** What a walk writes *)

(** What [Callback] appends to the summary of a managed method: the three
    sizes, twice, with no end of line. *)
Definition managed_line (P : Printf) (method : Method.t) : string :=
  let register_map_bytes := Method.GetGcMapLength method in
  let pc_mapping_table_bytes := Method.GetMappingTableLength method in
  let dex_instruction_bytes :=
    uint32_mul (Method.insns_size_in_code_units_ method) 2 in
  "GC=" ++ fmt_zd P register_map_bytes ++ " "
  ++ "Mapping=" ++ fmt_zd P pc_mapping_table_bytes ++ " "
  ++ TAB ++ "SIZE Code=" ++ fmt_zd P dex_instruction_bytes
  ++ " GC=" ++ fmt_zd P register_map_bytes
  ++ " Mapping=" ++ fmt_zd P pc_mapping_table_bytes.

(** What the block [if (obj->IsMethod())] of [Callback] appends. *)
Definition method_lines (P : Printf) (method : Method.t) : string :=
  stub_lines P method
  ++ match execution_kind method with
     | Managed => managed_line P method
     | _ => kind_line P method
     end.

(** The summary [Callback] writes for an object in the dump space. *)
Definition object_summary (P : Printf) (obj : Object.t) : string :=
  summary_head P obj
  ++ (if Object.IsMethod obj then method_lines P (Object.AsMethod obj)
      else "").

Section WalkText.
Variable T : Target.
Variable P : Printf.

Lemma Callback_method_text method summary stats w summary1 stats1 w1 :
  ImageDump.Callback_method T P method summary stats w
  = Done (summary1, stats1) w1 ->
  summary1 = summary ++ method_lines P method /\ w1 = w.
Proof.
  unfold ImageDump.Callback_method, method_lines, managed_line, stub_lines,
    kind_line, execution_kind, DCHECK, CHECK, bind, ret.
  destruct (Method.IsNative method), (Method.IsAbstract method),
    (Method.IsCalleeSaveMethod method);
    simpl negb; cbv iota;
    repeat match goal with
           | |- context [if ?b then _ else _] => destruct b
           end;
    intros H; inversion H; subst; (split; [same_text | reflexivity]).
Qed.

Lemma Callback_text obj state w state1 w1 :
  ImageDump.InDumpSpace state obj = true ->
  ImageDump.Callback T P obj state w = Done state1 w1 ->
  w1 = written w (object_summary P obj).
Proof.
  intros Hin. unfold ImageDump.Callback. rewrite Hin.
  change (negb true) with false. cbv iota zeta.
  intros H. apply bind_Done in H.
  destruct H as ([summary1 stats1] & w0 & H & H1).
  unfold bind, ret in H1. rewrite os_write_eq in H1.
  injection H1 as _ Hw1. subst w1.
  unfold object_summary, summary_head.
  destruct (Object.IsMethod obj).
  - apply Callback_method_text in H. destruct H as [-> ->].
    f_equal. same_text.
  - unfold ret in H. injection H as <- _ <-.
    f_equal. same_text.
Qed.

Lemma Walk_text objects :
  forall state w state1 w1,
    ImageDump.Walk T P objects state w = Done state1 w1 ->
    w1 = written w
           (concatenated
              (map (object_summary P)
                   (filter (Space.Contains (ImageDump.dump_space_ state))
                           objects))).
Proof.
  induction objects as [| obj rest IH]; intros state w state1 w1 H;
    simpl in H.
  - injection H as _ <-. simpl. rewrite written_nil. reflexivity.
  - apply bind_Done in H. destruct H as [s [w2 [Hc Hw]]].
    pose proof (Callback_dump_space T P _ _ _ _ _ Hc) as Hspace.
    apply IH in Hw. rewrite Hspace in Hw. simpl filter.
    destruct (Space.Contains (ImageDump.dump_space_ state) obj) eqn:Hin.
    + rewrite (Callback_text obj state w s w2 Hin Hc) in Hw.
      rewrite written_written in Hw. exact Hw.
    + rewrite (Callback_outside T P obj state w Hin) in Hc.
      injection Hc as _ <-. exact Hw.
Qed.
End WalkText.

(** X12.  What a walk that runs to its end has written is the summaries of
    the objects in the dump space, one for each such object and none for
    any other, in the order of the walk, and nothing else.  The summary of
    an object is the line with its address and its category and the line
    with its class; for a method there follow the lines with the code and
    the invoke stub, unless it is a callee-save method, and then the line
    of its kind or, for a managed method, its three sizes with no end of
    line. *)
Theorem Walk_writes_one_summary_per_object
    (T : Target) (P : Printf) (space : Space.t) (objects : list Object.t)
    (w : World) (state : ImageDump.t) (w1 : World) :
  ImageDump.Walk T P objects (ImageDump.make space) w = Done state w1 ->
  w1 = written w
         (concatenated
            (map (object_summary P)
                 (filter (Space.Contains space) objects))).
Proof. intros H. exact (Walk_text T P objects _ _ _ _ H). Qed.

(* ------------------------------------------------------------------ *)
(** ** The further properties on the sample run *)

(** The dump of the sample oat file behind the host prefix [/root]. *)
Definition oat_dump_world : World :=
  Eval vm_compute in
    world_of (OatDump.Dump (Sample.target true) Sample.printf SampleRun.env
                "/root/system/foo.art" "/root" SampleRun.oat_file
                initial_world).

(** A runtime that finds the sample oat file at the location the sample
    image names. *)
Definition runtime_with_oat_file : Runtime.t :=
  {| Runtime.image_space :=
       Some (Sample.image_space, SampleRun.image_header);
     Runtime.live_objects := Sample.heap;
     Runtime.find_oat_file := fun location =>
       if String.eqb location "/root/system/foo.art"
       then Some SampleRun.oat_file else None |}.

Lemma OatDump_Dump_sample :
  OatDump.Dump (Sample.target true) Sample.printf SampleRun.env
    "/root/system/foo.art" "/root" SampleRun.oat_file initial_world
  = Done tt oat_dump_world.
Proof. vm_compute. reflexivity. Qed.

(** X1 on the sample: the second argument is unknown, the third plays no
    part. *)
Lemma first_rejected_argument_ends_the_run_witness :
  forallb (accepted SampleRun.env) ["--image=/system/framework/boot.art"]
  = true
  /\ accepted SampleRun.env "--verbose" = false
  /\ oatdump (Sample.target true) Sample.printf SampleRun.env
       ["--image=/system/framework/boot.art"; "--verbose";
        "--oat-file=/system/framework/boot.oat"] initial_world
     = Exit EXIT_FAILURE
         (complained initial_world
            ("Unknown argument --verbose" ++ LF ++ usage_text)).
Proof.
  split; [reflexivity |]. split; [reflexivity |].
  exact (first_rejected_argument_ends_the_run (Sample.target true)
           Sample.printf SampleRun.env
           ["--image=/system/framework/boot.art"] "--verbose"
           ["--oat-file=/system/framework/boot.oat"] initial_world
           eq_refl eq_refl).
Defined.

(** X2 on the sample: a second [--image=] overrides the first and keeps the
    host prefix. *)
Lemma last_option_sets_its_variable_witness :
  parse_arguments SampleRun.env SampleRun.image_arguments no_arguments
    initial_world
  = Done {| oat_filename := None;
            image_filename := Some "/system/framework/boot.art";
            boot_image_filename := None;
            host_prefix := "/root" |} initial_world
  /\ parse_arguments SampleRun.env
       (SampleRun.image_arguments ++ ["--image=/data/other.art"])%list
       no_arguments initial_world
     = Done {| oat_filename := None;
               image_filename := Some "/data/other.art";
               boot_image_filename := None;
               host_prefix := "/root" |} initial_world.
Proof.
  assert (H : parse_arguments SampleRun.env SampleRun.image_arguments
                no_arguments initial_world
              = Done {| oat_filename := None;
                        image_filename := Some "/system/framework/boot.art";
                        boot_image_filename := None;
                        host_prefix := "/root" |} initial_world)
    by reflexivity.
  split; [exact H |].
  exact (proj1 (proj2 (last_option_sets_its_variable SampleRun.env
                         SampleRun.image_arguments _ "/data/other.art"
                         initial_world H))).
Defined.

(** X3 on the sample: an image and an oat file are both named. *)
Lemma exactly_one_input_is_required_witness :
  ["--oat-file=/system/framework/boot.oat";
   "--image=/system/framework/boot.art"] <> []
  /\ forallb (accepted SampleRun.env)
       ["--oat-file=/system/framework/boot.oat";
        "--image=/system/framework/boot.art"] = true
  /\ existsb is_image_option
       ["--oat-file=/system/framework/boot.oat";
        "--image=/system/framework/boot.art"]
     = existsb is_oat_file_option
         ["--oat-file=/system/framework/boot.oat";
          "--image=/system/framework/boot.art"]
  /\ oatdump (Sample.target true) Sample.printf SampleRun.env
       ["--oat-file=/system/framework/boot.oat";
        "--image=/system/framework/boot.art"] initial_world
     = Done EXIT_FAILURE
         (complained initial_world
            ("Either --image or --oat must be specified but not both"
             ++ LF)).
Proof.
  assert (Hne : ["--oat-file=/system/framework/boot.oat";
                 "--image=/system/framework/boot.art"] <> [])
    by discriminate.
  split; [exact Hne |]. split; [reflexivity |]. split; [reflexivity |].
  exact (exactly_one_input_is_required (Sample.target true) Sample.printf
           SampleRun.env
           ["--oat-file=/system/framework/boot.oat";
            "--image=/system/framework/boot.art"] initial_world
           Hne eq_refl eq_refl).
Defined.

(** X6 on the sample: the one dex file is opened once, behind [/root]. *)
Lemma OatDump_Dump_opens_each_dex_file_once_witness :
  OatDump.Dump (Sample.target true) Sample.printf SampleRun.env
    "/root/system/foo.art" "/root" SampleRun.oat_file initial_world
  = Done tt oat_dump_world
  /\ exists dex_files,
       OatFile.GetOatDexFiles SampleRun.oat_file = map Some dex_files
       /\ calls oat_dump_world
          = map (fun oat_dex_file =>
                   DexFile_Open
                     (translated "/root"
                        (OatDexFile.GetDexFileLocation oat_dex_file)))
                dex_files.
Proof.
  split; [exact OatDump_Dump_sample |].
  exact (OatDump_Dump_opens_each_dex_file_once (Sample.target true)
           Sample.printf SampleRun.env "/root/system/foo.art" "/root"
           SampleRun.oat_file initial_world tt oat_dump_world
           OatDump_Dump_sample).
Defined.

(** X7 on the sample heap: four objects in the dump space, 196 bytes; one
    managed method with a 4-byte register map. *)
Lemma Walk_totals_witness :
  ImageDump.Walk (Sample.target true) Sample.printf Sample.heap
    (ImageDump.make Sample.image_space) initial_world
  = Done (ImageDump.set_stats walked_stats
            (ImageDump.make Sample.image_space))
         walked_world
  /\ Stats.object_bytes walked_stats = 196
  /\ Stats.register_map_bytes walked_stats = 4.
Proof.
  split; [exact Walk_sample_heap |].
  pose proof (Walk_totals (Sample.target true) Sample.printf
                Sample.image_space Sample.heap initial_world _ _
                Walk_sample_heap) as H.
  cbv zeta in H. destruct H as (Hobj & _ & Hreg & _).
  split.
  - refine (eq_trans Hobj _). vm_compute. reflexivity.
  - refine (eq_trans Hreg _). vm_compute. reflexivity.
Defined.

(** X8 on the sample heap: the two methods in the dump space. *)
Lemma descriptor_tables_of_a_walk_witness :
  ImageDump.Walk (Sample.target true) Sample.printf Sample.heap
    (ImageDump.make Sample.image_space) initial_world
  = Done (ImageDump.set_stats walked_stats
            (ImageDump.make Sample.image_space))
         walked_world
  /\ map_get "Ljava/lang/reflect/Method;"
             (Stats.descriptor_to_bytes walked_stats) = 152
  /\ map_get "Ljava/lang/reflect/Method;"
             (Stats.descriptor_to_count walked_stats) = 2
  /\ increasing (keys (Stats.descriptor_to_bytes walked_stats)).
Proof.
  split; [exact Walk_sample_heap |].
  pose proof (descriptor_tables_of_a_walk (Sample.target true) Sample.printf
                Sample.image_space Sample.heap initial_world _ _
                "Ljava/lang/reflect/Method;" Walk_sample_heap) as H.
  cbv zeta in H. destruct H as (Hbytes & Hcount & _ & Hinc).
  split; [| split].
  - refine (eq_trans Hbytes _). vm_compute. reflexivity.
  - refine (eq_trans Hcount _). vm_compute. reflexivity.
  - exact Hinc.
Defined.

(** X10 on the sample image: eleven roots, and a file of 248 bytes for a
    header of 40, objects of 196 and padding of 12. *)
Lemma Dump_heap_runs_to_its_end_iff_witness :
  ImageDump.Walk (Sample.target true) Sample.printf
    (Runtime.live_objects SampleRun.runtime)
    (ImageDump.make Sample.image_space) initial_world
  = Done (ImageDump.set_stats walked_stats
            (ImageDump.make Sample.image_space))
         walked_world
  /\ exists w2,
       ImageDump.Dump_heap (Sample.target true) Sample.printf SampleRun.env
         "/system/framework/boot.art" SampleRun.runtime Sample.image_space
         SampleRun.image_header initial_world
       = Done tt w2.
Proof.
  split; [exact Walk_sample_heap |].
  apply (Dump_heap_runs_to_its_end_iff (Sample.target true) Sample.printf
           SampleRun.env "/system/framework/boot.art" SampleRun.runtime
           Sample.image_space SampleRun.image_header _ initial_world
           walked_world initial_world Walk_sample_heap).
  split; vm_compute; reflexivity.
Defined.

(** X11 on the sample image, with a runtime that finds the oat file. *)
Lemma image_dump_ends_with_oat_dump_witness :
  ImageDump.Dump_heap (Sample.target true) Sample.printf SampleRun.env
    "/system/framework/boot.art" runtime_with_oat_file Sample.image_space
    SampleRun.image_header initial_world
  = Done tt heap_world
  /\ Runtime.find_oat_file runtime_with_oat_file "/root/system/foo.art"
     = Some SampleRun.oat_file
  /\ ImageDump.Dump (Sample.target true) Sample.printf SampleRun.env
       "/system/framework/boot.art" "/root" runtime_with_oat_file
       Sample.image_space SampleRun.image_header initial_world
     = Done tt
         (after heap_world
            ("OAT LOCATION:" ++ LF
             ++ "/system/foo.art (/root/system/foo.art)" ++ LF ++ LF
             ++ os oat_dump_world)
            [FindOatFileFromOatLocation "/root/system/foo.art";
             DexFile_Open "/root/system/framework/foo.jar"]).
Proof.
  assert (Hheap : ImageDump.Dump_heap (Sample.target true) Sample.printf
                    SampleRun.env "/system/framework/boot.art"
                    runtime_with_oat_file Sample.image_space
                    SampleRun.image_header initial_world
                  = Done tt heap_world) by (vm_compute; reflexivity).
  split; [exact Hheap |]. split; [reflexivity |].
  pose proof (image_dump_ends_with_oat_dump (Sample.target true)
                Sample.printf SampleRun.env "/system/framework/boot.art"
                "/root" runtime_with_oat_file Sample.image_space
                SampleRun.image_header SampleRun.oat_file initial_world
                heap_world Hheap eq_refl) as H.
  change (OatDump.Dump (Sample.target true) Sample.printf SampleRun.env
            (translated "/root"
               (Object.ToModifiedUtf8
                  (ImageHeader.GetImageRoot SampleRun.image_header
                     (kOatLocation (Sample.target true)))))
            "/root" SampleRun.oat_file initial_world)
    with (OatDump.Dump (Sample.target true) Sample.printf SampleRun.env
            "/root/system/foo.art" "/root" SampleRun.oat_file initial_world)
    in H.
  rewrite OatDump_Dump_sample in H. exact H.
Defined.

(** X12 on the sample heap: the object outside the dump space has no
    summary; the managed method's sizes run into the next summary. *)
Lemma Walk_writes_one_summary_per_object_witness :
  ImageDump.Walk (Sample.target true) Sample.printf Sample.heap
    (ImageDump.make Sample.image_space) initial_world
  = Done (ImageDump.set_stats walked_stats
            (ImageDump.make Sample.image_space))
         walked_world
  /\ walked_world
     = written initial_world
         ("0x10000: OBJECT" ++ LF
          ++ TAB ++ "class 0x1000: Ljava/lang/Object;" ++ LF
          ++ "0x10040: METHOD void Foo.direct()" ++ LF
          ++ TAB ++ "class 0x1100: Ljava/lang/reflect/Method;" ++ LF
          ++ TAB ++ "CODE     0x2000" ++ LF
          ++ TAB ++ "JNI STUB 0x2100" ++ LF
          ++ TAB ++ "NATIVE UNREGISTERED" ++ LF
          ++ "0x10090: METHOD int Foo.virtual()" ++ LF
          ++ TAB ++ "class 0x1100: Ljava/lang/reflect/Method;" ++ LF
          ++ TAB ++ "CODE     0x3000" ++ LF
          ++ TAB ++ "JNI STUB 0x3100" ++ LF
          ++ "GC=4 Mapping=8 " ++ TAB ++ "SIZE Code=6 GC=4 Mapping=8"
          ++ "0x10130: STRING /system/foo.art" ++ LF
          ++ TAB ++ "class 0x1080: Ljava/lang/String;" ++ LF).
Proof.
  split; [exact Walk_sample_heap |].
  refine (eq_trans
            (Walk_writes_one_summary_per_object (Sample.target true)
               Sample.printf Sample.image_space Sample.heap initial_world
               _ _ Walk_sample_heap) _).
  vm_compute. reflexivity.
Defined.
